(** * Token registrar ([scripts/add_token.py]): a shallow embedding

    The script validates an address, asks a JSON-RPC node for the ERC-20
    metadata of the contract at that address, and writes the record as
    [data.json] in a fresh directory named after the token symbol.

    Conventions of the embedding.
    - A Python [str] is a [string]: the sequence of its UTF-8 bytes.  All
      characters the program inspects (hex digits, the path separator, the
      characters JSON escapes) are ASCII, and bytes of multi-byte UTF-8
      sequences are all above 127, so inspecting bytes and inspecting code
      points agree on them.
    - A Python [int] is a [Z].
    - A [dict] is an association list: insertion order is what
      [json.dump] prints.
    - The filesystem is a finite map from canonical absolute paths to
      entries; there are no symbolic links, permissions or quotas.
    - Exceptions are values; code that may raise runs in a small
      state-and-error monad whose state is the filesystem together with the
      log of what was printed and which network requests were made. *)

From Stdlib Require Import ZArith List String Ascii Lia Bool Decimal DecimalString DecimalFacts DecimalPos DecimalZ.
From stdpp Require Import base gmap list strings.
Local Open Scope string_scope.
Local Open Scope Z_scope.

(** ** Keccak-256

    [Web3.to_checksum_address] hashes the lower-case hex digits with
    Keccak-256 (the original padding, not SHA-3's).  Lanes are 64-bit
    words held in [Z]; the state is the list of the 25 lanes, lane [(x, y)]
    at index [x + 5 y]. *)

Module Keccak.

Definition mask64 : Z := Z.ones 64.

Definition rotl64 (x : Z) (n : Z) : Z :=
  Z.lor (Z.land (Z.shiftl x n) mask64) (Z.shiftr x (64 - n)).

Definition lane (st : list Z) (x y : nat) : Z := nth (x + 5 * y)%nat st 0.

Definition rotation_offsets : list Z :=
  [ 0;  1; 62; 28; 27;
   36; 44;  6; 55; 20;
    3; 10; 43; 25; 39;
   41; 45; 15; 21;  8;
   18;  2; 61; 56; 14].

Definition round_constants : list Z :=
  [0x0000000000000001; 0x0000000000008082; 0x800000000000808A;
   0x8000000080008000; 0x000000000000808B; 0x0000000080000001;
   0x8000000080008081; 0x8000000000008009; 0x000000000000008A;
   0x0000000000000088; 0x0000000080008009; 0x000000008000000A;
   0x000000008000808B; 0x800000000000008B; 0x8000000000008089;
   0x8000000000008003; 0x8000000000008002; 0x8000000000000080;
   0x000000000000800A; 0x800000008000000A; 0x8000000080008081;
   0x8000000000008080; 0x0000000080000001; 0x8000000080008008].

Definition column (st : list Z) (x : nat) : Z :=
  Z.lxor (lane st x 0) (Z.lxor (lane st x 1) (Z.lxor (lane st x 2)
    (Z.lxor (lane st x 3) (lane st x 4)))).

Definition theta (st : list Z) : list Z :=
  let c := map (column st) (seq 0 5) in
  let d (x : nat) := Z.lxor (nth ((x + 4) mod 5)%nat c 0)
                            (rotl64 (nth ((x + 1) mod 5)%nat c 0) 1) in
  map (fun i => Z.lxor (nth i st 0) (d (i mod 5)%nat)) (seq 0 25).

(** [B[y, 2x + 3y] = rot (A[x, y], r[x, y])], read from the target side:
    the lane that lands on [(X, Y)] comes from [(X + 3Y, X)]. *)
Definition rho_pi (st : list Z) : list Z :=
  map (fun i =>
         let X := (i mod 5)%nat in
         let Y := (i / 5)%nat in
         let x := ((X + 3 * Y) mod 5)%nat in
         rotl64 (lane st x X) (nth (x + 5 * X)%nat rotation_offsets 0))
      (seq 0 25).

Definition chi (st : list Z) : list Z :=
  map (fun i =>
         let x := (i mod 5)%nat in
         let y := (i / 5)%nat in
         Z.lxor (lane st x y)
                (Z.land (Z.lxor (lane st ((x + 1) mod 5) y) mask64)
                        (lane st ((x + 2) mod 5) y)))
      (seq 0 25).

Definition iota (rc : Z) (st : list Z) : list Z :=
  match st with
  | a :: rest => Z.lxor a rc :: rest
  | [] => []
  end.

Definition keccak_round (st : list Z) (rc : Z) : list Z :=
  iota rc (chi (rho_pi (theta st))).

Definition keccak_f (st : list Z) : list Z :=
  fold_left keccak_round round_constants st.

(** Rate of Keccak-256 in bytes: (1600 - 2 * 256) / 8. *)
Definition rate : nat := 136.

Fixpoint le_word (bs : list Z) : Z :=
  match bs with
  | [] => 0
  | b :: rest => Z.lor b (Z.shiftl (le_word rest) 8)
  end.

Fixpoint lanes_of (n : nat) (bs : list Z) : list Z :=
  match n with
  | O => []
  | S n' => le_word (firstn 8 bs) :: lanes_of n' (skipn 8 bs)
  end.

Definition xor_block (st : list Z) (block : list Z) : list Z :=
  let ls := lanes_of 17 block in
  map (fun i => Z.lxor (nth i st 0) (nth i ls 0)) (seq 0 25).

(** Multi-rate padding [pad10*1] with no domain bits. *)
Definition pad (msg : list Z) : list Z :=
  let q := (rate - (length msg mod rate))%nat in
  match q with
  | 1%nat => msg ++ [0x81]
  | _ => msg ++ [0x01] ++ repeat 0 (q - 2) ++ [0x80]
  end.

Fixpoint absorb (n : nat) (st : list Z) (bs : list Z) : list Z :=
  match n with
  | O => st
  | S n' => absorb n' (keccak_f (xor_block st (firstn rate bs))) (skipn rate bs)
  end.

Definition bytes_of_lane (w : Z) : list Z :=
  map (fun k => Z.land (Z.shiftr w (8 * Z.of_nat k)) 255) (seq 0 8).

Definition keccak256 (msg : list Z) : list Z :=
  let p := pad msg in
  let st := absorb (length p / rate) (repeat 0 25) p in
  flat_map bytes_of_lane (firstn 4 st).

End Keccak.

(** ** Exceptions and results *)

(** The exception classes the program can meet.  [UnicodeError] and
    [OSError] subclasses matter only through which [except] clause of
    [main] catches them; [EOFError] is raised by [input()] at end of
    input; [OtherException] stands for any further subclass of
    [Exception], such as the errors of the RPC client. *)
Inductive exn_class :=
| ValueError
| FileNotFoundError
| FileExistsError
| NotADirectoryError
| IsADirectoryError
| KeyError
| TypeError
| EOFError
| RecursionError
| OtherException.

Record exn := Exn { exn_cls : exn_class; exn_msg : string }.

Inductive result (A : Type) :=
| Ok (a : A)
| Raise (e : exn).
Arguments Ok {A} a.
Arguments Raise {A} e.

(** ** Python string primitives, on ASCII *)

Definition code (c : ascii) : Z := Z.of_N (N_of_ascii c).

Definition is_digit (c : ascii) : bool := (48 <=? code c) && (code c <=? 57).
Definition is_lower (c : ascii) : bool := (97 <=? code c) && (code c <=? 122).
Definition is_upper (c : ascii) : bool := (65 <=? code c) && (code c <=? 90).

Definition to_lower (c : ascii) : ascii :=
  if is_upper c then ascii_of_N (N_of_ascii c + 32) else c.
Definition to_upper (c : ascii) : ascii :=
  if is_lower c then ascii_of_N (N_of_ascii c - 32) else c.

Fixpoint smap (f : ascii -> ascii) (s : string) : string :=
  match s with
  | EmptyString => EmptyString
  | String c s' => String (f c) (smap f s')
  end.

Fixpoint sforall (p : ascii -> bool) (s : string) : bool :=
  match s with
  | EmptyString => true
  | String c s' => p c && sforall p s'
  end.

Fixpoint sexists (p : ascii -> bool) (s : string) : bool :=
  match s with
  | EmptyString => false
  | String c s' => p c || sexists p s'
  end.

Fixpoint sdrop (n : nat) (s : string) : string :=
  match n, s with
  | O, _ => s
  | S n', String _ s' => sdrop n' s'
  | S _, EmptyString => EmptyString
  end.

(** [s.startswith(p)]. *)
Fixpoint startswith (p s : string) : bool :=
  match p with
  | EmptyString => true
  | String a p' =>
      match s with
      | String b s' => Ascii.eqb a b && startswith p' s'
      | EmptyString => false
      end
  end.

Definition is_empty (s : string) : bool :=
  match s with EmptyString => true | _ => false end.

(** [s.lower()], [s.upper()], [s.islower()], [s.isupper()],
    [s.isnumeric()]: the program applies them to hex strings only. *)
Definition lower : string -> string := smap to_lower.
Definition upper : string -> string := smap to_upper.
Definition islower (s : string) : bool := sexists is_lower s && negb (sexists is_upper s).
Definition isupper (s : string) : bool := sexists is_upper s && negb (sexists is_lower s).
Definition isnumeric (s : string) : bool := negb (is_empty s) && sforall is_digit s.

(** [s[i]] for an index within the string. *)
Definition str_get (s : string) (i : nat) : ascii :=
  nth i (list_ascii_of_string s) "000"%char.

(** ** Address predicates of [eth_utils], behind [Web3.is_address] and
    [Web3.to_checksum_address] *)

Module Address.

(** The character class [[0-9a-f]] under [re.IGNORECASE | re.ASCII]. *)
Definition is_hex_char (c : ascii) : bool :=
  is_digit c
  || ((97 <=? code c) && (code c <=? 102))
  || ((65 <=? code c) && (code c <=? 70)).

Definition all_hex (s : string) : bool := sforall is_hex_char s.

Definition is_0x_prefixed (value : string) : bool :=
  startswith "0x" value || startswith "0X" value.

Definition remove_0x_prefix (value : string) : string :=
  if is_0x_prefixed value then sdrop 2 value else value.

Definition add_0x_prefix (value : string) : string :=
  if is_0x_prefixed value then value else "0x" ++ value.

(** [_HEX_REGEXP = "(0[xX])?[0-9a-fA-F]*"], full match, on a non-empty
    string. *)
Definition is_hexstr (value : string) : bool :=
  negb (is_empty value)
  && (all_hex value || (is_0x_prefixed value && all_hex (sdrop 2 value))).

Definition hex40 (s : string) : bool :=
  (String.length s =? 40)%nat && all_hex s.

(** [_HEX_ADDRESS_REGEXP = "(0x)?[0-9a-f]{40}"] with [re.IGNORECASE],
    full match: the prefix is optional and may be [0X]. *)
Definition is_hex_address (value : string) : bool :=
  hex40 value || (is_0x_prefixed value && hex40 (sdrop 2 value)).

Definition _is_checksum_formatted (value : string) : bool :=
  let unprefixed_value := remove_0x_prefix value in
  negb (islower unprefixed_value)
  && negb (isupper unprefixed_value)
  && negb (isnumeric unprefixed_value).

(** [hexstr_if_str(to_hex, value)] on a [str]. *)
Definition hexstr_if_str_to_hex (value : string) : result string :=
  if negb (is_empty (remove_0x_prefix value)) && negb (is_hexstr value)
  then Raise (Exn ValueError "when sending a str, it must be a hex string")
  else Ok (add_0x_prefix (lower value)).

Definition bytes_of_string (s : string) : list Z :=
  map code (list_ascii_of_string s).

Definition hex_digit (n : Z) : ascii :=
  if n <? 10 then ascii_of_N (Z.to_N (48 + n)) else ascii_of_N (Z.to_N (87 + n)).

(** [encode_hex]: [0x] and two lower-case digits per byte. *)
Definition encode_hex (bs : list Z) : string :=
  "0x" ++ string_of_list_ascii
    (flat_map (fun b => [hex_digit (Z.shiftr b 4); hex_digit (Z.land b 15)]) bs).

(** [int(c, 16)] for a hex digit [c]. *)
Definition int16 (c : ascii) : Z :=
  if is_digit c then code c - 48
  else if is_lower c then code c - 87
  else code c - 55.

Section Recursion.
(** [to_normalized_address] calls [is_address], which through
    [is_checksum_address] calls [to_checksum_address] again; the knot
    is tied below with fuel. *)
Variable is_address_rec : string -> option (result bool).

Definition to_normalized_address (value : string) : option (result string) :=
  match hexstr_if_str_to_hex value with
  | Raise e => Some (Raise e)
  | Ok h =>
      let hex_address := lower h in
      match is_address_rec hex_address with
      | None => None
      | Some (Raise e) => Some (Raise e)
      | Some (Ok true) => Some (Ok hex_address)
      | Some (Ok false) => Some (Raise (Exn ValueError "Unknown format"))
      end
  end.

Definition checksum_encode (norm_address : string) : string :=
  let address_hash :=
    encode_hex (Keccak.keccak256 (bytes_of_string (remove_0x_prefix norm_address))) in
  add_0x_prefix
    (string_of_list_ascii
       (map (fun i =>
               if 7 <? int16 (str_get address_hash i)
               then to_upper (str_get norm_address i)
               else str_get norm_address i)
            (seq 2 40))).

Definition to_checksum_address (value : string) : option (result string) :=
  match to_normalized_address value with
  | None => None
  | Some (Raise e) => Some (Raise e)
  | Some (Ok norm_address) => Some (Ok (checksum_encode norm_address))
  end.

Definition is_checksum_address (value : string) : option (result bool) :=
  if negb (is_hex_address value) then Some (Ok false)
  else match to_checksum_address value with
       | None => None
       | Some (Raise e) => Some (Raise e)
       | Some (Ok c) => Some (Ok (String.eqb value c))
       end.
End Recursion.

(** [is_address] of a [str] (a [str] is never a binary address). *)
Fixpoint is_address_fuel (fuel : nat) (value : string) : option (result bool) :=
  match fuel with
  | O => None
  | S fuel' =>
      if is_hex_address value then
        if _is_checksum_formatted value
        then is_checksum_address (is_address_fuel fuel') value
        else Some (Ok true)
      else Some (Ok false)
  end.

(** The interpreter bounds the depth of nested calls; running out of it
    raises [RecursionError].  Two levels are all these calls ever nest
    ([is_address_fuel_enough] below): the inner call sees a lower-case
    string, which is not checksum formatted. *)
Definition recursion_limit : nat := 1000.

Definition recursion_error : exn :=
  Exn RecursionError "maximum recursion depth exceeded".

Definition run_bounded {A : Type} (r : option (result A)) : result A :=
  match r with
  | Some x => x
  | None => Raise recursion_error
  end.

(** [Web3.is_address(value)] and [Web3.to_checksum_address(value)]. *)
Definition is_address (value : string) : result bool :=
  run_bounded (is_address_fuel recursion_limit value).

Definition web3_to_checksum_address (value : string) : result string :=
  run_bounded (to_checksum_address (is_address_fuel recursion_limit) value).

End Address.

(** ** Python values and [json]

    [json.dump(obj, f, indent=2, ensure_ascii=False)] writes the chunks of
    [JSONEncoder(indent=2, ensure_ascii=False).iterencode(obj)] one after
    the other; what reaches the file is their concatenation.  The decoder
    is [json.loads] restricted to the JSON grammar proper (it does not take
    the [NaN] and [Infinity] literals Python also reads). *)

#[warnings="-register-all"]
Inductive pyval :=
| PNone
| PBool (b : bool)
| PInt (z : Z)
| PFloat (literal : string)   (* a float, kept as the text that denotes it *)
| PStr (s : string)
| PList (l : list pyval)
| PDict (d : list (string * pyval)).

Module Json.

Definition dquote : ascii := "034"%char.
Definition backslash : ascii := "092"%char.
Definition newline : ascii := "010"%char.

Definition hex2 (n : Z) : string :=
  String (Address.hex_digit (Z.shiftr n 4)) (String (Address.hex_digit (Z.land n 15)) "").

(** [ESCAPE_DCT]: the replacement of one character matched by [ESCAPE]
    (the control characters below U+0020, the backslash and the double
    quote); every other character stands for itself. *)
Definition escape_char (c : ascii) : string :=
  let n := code c in
  if n =? 34 then String backslash (String dquote "")
  else if n =? 92 then String backslash (String backslash "")
  else if n =? 10 then String backslash "n"
  else if n =? 13 then String backslash "r"
  else if n =? 9 then String backslash "t"
  else if n =? 8 then String backslash "b"
  else if n =? 12 then String backslash "f"
  else if n <? 32 then String backslash ("u00" ++ hex2 n)
  else String c "".

Fixpoint escape (s : string) : string :=
  match s with
  | EmptyString => EmptyString
  | String c s' => escape_char c ++ escape s'
  end.

(** [py_encode_basestring]. *)
Definition encode_basestring (s : string) : string :=
  String dquote (escape s ++ String dquote "").

(** [int.__repr__]. *)
Definition int_repr (z : Z) : string := NilZero.string_of_int (Z.to_int z).

Fixpoint spaces (n : nat) : string :=
  match n with
  | O => EmptyString
  | S n' => String " " (spaces n')
  end.

Section Encoder.
(** [indent] is the number of spaces per level; the item separator is
    a comma and the key separator a colon and a space, the defaults when
    an indent is given. *)
Variable indent : nat.

Definition newline_indent (level : nat) : string :=
  String newline (spaces (indent * level)).

Fixpoint iterencode (level : nat) (o : pyval) {struct o} : string :=
  match o with
  | PStr s => encode_basestring s
  | PNone => "null"
  | PBool true => "true"
  | PBool false => "false"
  | PInt z => int_repr z
  | PFloat literal => literal
  | PList l =>
      match l with
      | [] => "[]"
      | _ => "[" ++ newline_indent (S level)
             ++ String.concat ("," ++ newline_indent (S level))
                  (map (iterencode (S level)) l)
             ++ newline_indent level ++ "]"
      end
  | PDict d =>
      match d with
      | [] => "{}"
      | _ => "{" ++ newline_indent (S level)
             ++ String.concat ("," ++ newline_indent (S level))
                  (map (fun kv => let '(k, v) := kv in
                          encode_basestring k ++ ": " ++ iterencode (S level) v) d)
             ++ newline_indent level ++ "}"
      end
  end.
End Encoder.

(** [json.dumps(obj, indent=2, ensure_ascii=False)]. *)
Definition dumps (obj : pyval) : string := iterencode 2 0 obj.

(** *** Decoder *)

Definition is_ws (c : ascii) : bool :=
  let n := code c in (n =? 32) || (n =? 9) || (n =? 10) || (n =? 13).

Fixpoint skip_ws (s : string) : string :=
  match s with
  | String c rest => if is_ws c then skip_ws rest else s
  | EmptyString => EmptyString
  end.

Definition byte (n : Z) : ascii := ascii_of_N (Z.to_N n).

(** The UTF-8 bytes of a code point (a [str] is its UTF-8 bytes here). *)
Definition utf8 (cp : Z) : string :=
  if cp <? 128 then String (byte cp) ""
  else if cp <? 2048 then
    String (byte (Z.lor 192 (Z.shiftr cp 6)))
      (String (byte (Z.lor 128 (Z.land cp 63))) "")
  else if cp <? 65536 then
    String (byte (Z.lor 224 (Z.shiftr cp 12)))
      (String (byte (Z.lor 128 (Z.land (Z.shiftr cp 6) 63)))
         (String (byte (Z.lor 128 (Z.land cp 63))) ""))
  else
    String (byte (Z.lor 240 (Z.shiftr cp 18)))
      (String (byte (Z.lor 128 (Z.land (Z.shiftr cp 12) 63)))
         (String (byte (Z.lor 128 (Z.land (Z.shiftr cp 6) 63)))
            (String (byte (Z.lor 128 (Z.land cp 63))) ""))).

Definition hex4 (a b c d : ascii) : option Z :=
  if Address.is_hex_char a && Address.is_hex_char b
     && Address.is_hex_char c && Address.is_hex_char d
  then Some (4096 * Address.int16 a + 256 * Address.int16 b
             + 16 * Address.int16 c + Address.int16 d)
  else None.

(** [BACKSLASH]: the character a one-letter escape denotes. *)
Definition unescape (e : ascii) : option ascii :=
  let n := code e in
  if n =? 34 then Some dquote
  else if n =? 92 then Some backslash
  else if n =? 47 then Some "/"%char
  else if n =? 98 then Some "008"%char
  else if n =? 102 then Some "012"%char
  else if n =? 110 then Some newline
  else if n =? 114 then Some "013"%char
  else if n =? 116 then Some "009"%char
  else None.

Definition prepend (p : string) (r : option (string * string)) : option (string * string) :=
  match r with
  | Some (s, rest) => Some (p ++ s, rest)
  | None => None
  end.

(** [py_scanstring] with [strict=True], from just after the opening
    quote: the decoded string and the input after the closing quote. *)
Fixpoint scanstring (s : string) : option (string * string) :=
  match s with
  | EmptyString => None
  | String c rest =>
      if code c =? 34 then Some (EmptyString, rest)
      else if code c =? 92 then
        match rest with
        | EmptyString => None
        | String e rest1 =>
            if code e =? 117 then
              match rest1 with
              | String h1 (String h2 (String h3 (String h4 rest5))) =>
                  match hex4 h1 h2 h3 h4 with
                  | None => None
                  | Some uni =>
                      let single := prepend (utf8 uni) (scanstring rest5) in
                      if (55296 <=? uni) && (uni <=? 56319) then
                        match rest5 with
                        | String b (String u (String g1 (String g2 (String g3 (String g4 rest11))))) =>
                            if (code b =? 92) && (code u =? 117) then
                              match hex4 g1 g2 g3 g4 with
                              | Some uni2 =>
                                  if (56320 <=? uni2) && (uni2 <=? 57343)
                                  then prepend
                                         (utf8 (65536 + Z.lor (Z.shiftl (uni - 55296) 10) (uni2 - 56320)))
                                         (scanstring rest11)
                                  else single
                              | None => single
                              end
                            else single
                        | _ => single
                        end
                      else single
                  end
              | _ => None
              end
            else
              match unescape e with
              | Some ch => prepend (String ch "") (scanstring rest1)
              | None => None
              end
        end
      else if code c <? 32 then None
      else prepend (String c "") (scanstring rest)
  end.

Fixpoint span_digits (s : string) : string * string :=
  match s with
  | String c rest =>
      if is_digit c then let '(ds, r) := span_digits rest in (String c ds, r)
      else (EmptyString, s)
  | EmptyString => (EmptyString, EmptyString)
  end.

(** [NUMBER_RE] matched at the head of [s]: an optional minus sign, then
    a single zero or a non-zero digit followed by digits; then, optionally,
    a point and digits; then, optionally, an exponent.  Each group is
    scanned by its own function, which returns the text matched and what
    follows.  An integer literal goes through [int], the others are
    floats. *)
Definition scan_sign (s : string) : string * string :=
  match s with
  | String c r => if code c =? 45 then (String c EmptyString, r) else (EmptyString, s)
  | EmptyString => (EmptyString, s)
  end.

Definition scan_integer (s : string) : option (string * string) :=
  match s with
  | String c r =>
      if is_digit c then
        Some (if code c =? 48 then (String c EmptyString, r) else span_digits s)
      else None
  | EmptyString => None
  end.

Definition scan_frac (s : string) : string * string :=
  match s with
  | String c r =>
      if code c =? 46 then
        let '(ds, r') := span_digits r in
        if is_empty ds then (EmptyString, s) else (String c ds, r')
      else (EmptyString, s)
  | EmptyString => (EmptyString, s)
  end.

Definition scan_exp (s : string) : string * string :=
  match s with
  | String e r =>
      if (code e =? 101) || (code e =? 69) then
        let '(sg, r') :=
          match r with
          | String c t =>
              if (code c =? 43) || (code c =? 45) then (String c EmptyString, t)
              else (EmptyString, r)
          | EmptyString => (EmptyString, r)
          end in
        let '(ds, r'') := span_digits r' in
        if is_empty ds then (EmptyString, s) else (String e (sg ++ ds), r'')
      else (EmptyString, s)
  | EmptyString => (EmptyString, s)
  end.

Definition parse_number (s : string) : option (pyval * string) :=
  let '(sign, s1) := scan_sign s in
  match scan_integer s1 with
  | None => None
  | Some (integer, r1) =>
      let '(frac, r2) := scan_frac r1 in
      let '(exp, r3) := scan_exp r2 in
      if is_empty frac && is_empty exp then
        match NilZero.int_of_string (sign ++ integer) with
        | Some d => Some (PInt (Z.of_int d), r3)
        | None => None
        end
      else Some (PFloat (sign ++ integer ++ frac ++ exp), r3)
  end.

Definition strip_prefix (p s : string) : option string :=
  if startswith p s then Some (sdrop (String.length p) s) else None.

(** [scan_once], [JSONObject] and [JSONArray]; [fuel] bounds the number
    of nested calls, and the length of the input is always enough. *)
Fixpoint scan_once (fuel : nat) (s : string) : option (pyval * string) :=
  match fuel with
  | O => None
  | S f =>
      match s with
      | EmptyString => None
      | String c rest =>
          if code c =? 34 then
            match scanstring rest with
            | Some (str, r) => Some (PStr str, r)
            | None => None
            end
          else if code c =? 123 then
            match skip_ws rest with
            | String c1 r1 =>
                if code c1 =? 125 then Some (PDict [], r1)
                else if code c1 =? 34 then
                  match object_members f r1 with
                  | Some (pairs, r) => Some (PDict pairs, r)
                  | None => None
                  end
                else None
            | EmptyString => None
            end
          else if code c =? 91 then
            match skip_ws rest with
            | String c1 r1 =>
                if code c1 =? 93 then Some (PList [], r1)
                else
                  match array_items f (String c1 r1) with
                  | Some (items, r) => Some (PList items, r)
                  | None => None
                  end
            | EmptyString => None
            end
          else if code c =? 110 then
            match strip_prefix "ull" rest with
            | Some r => Some (PNone, r)
            | None => None
            end
          else if code c =? 116 then
            match strip_prefix "rue" rest with
            | Some r => Some (PBool true, r)
            | None => None
            end
          else if code c =? 102 then
            match strip_prefix "alse" rest with
            | Some r => Some (PBool false, r)
            | None => None
            end
          else parse_number s
      end
  end
with object_members (fuel : nat) (s : string) : option (list (string * pyval) * string) :=
  match fuel with
  | O => None
  | S f =>
      match scanstring s with
      | None => None
      | Some (key, r) =>
          match skip_ws r with
          | String colon r1 =>
              if code colon =? 58 then
                match scan_once f (skip_ws r1) with
                | None => None
                | Some (v, r2) =>
                    match skip_ws r2 with
                    | String c r3 =>
                        if code c =? 125 then Some ([(key, v)], r3)
                        else if code c =? 44 then
                          match skip_ws r3 with
                          | String q r4 =>
                              if code q =? 34 then
                                match object_members f r4 with
                                | Some (pairs, r5) => Some ((key, v) :: pairs, r5)
                                | None => None
                                end
                              else None
                          | EmptyString => None
                          end
                        else None
                    | EmptyString => None
                    end
                end
              else None
          | EmptyString => None
          end
      end
  end
with array_items (fuel : nat) (s : string) : option (list pyval * string) :=
  match fuel with
  | O => None
  | S f =>
      match scan_once f s with
      | None => None
      | Some (v, r) =>
          match skip_ws r with
          | String c r1 =>
              if code c =? 93 then Some ([v], r1)
              else if code c =? 44 then
                match array_items f (skip_ws r1) with
                | Some (items, r2) => Some (v :: items, r2)
                | None => None
                end
              else None
          | EmptyString => None
          end
      end
  end.

(** [dict(pairs)]: a key seen again keeps its place and takes the later
    value. *)
Fixpoint dict_set (d : list (string * pyval)) (k : string) (v : pyval)
  : list (string * pyval) :=
  match d with
  | [] => [(k, v)]
  | (k', v') :: d' =>
      if String.eqb k' k then (k', v) :: d' else (k', v') :: dict_set d' k v
  end.

Definition dict_of_pairs (pairs : list (string * pyval)) : list (string * pyval) :=
  fold_left (fun d kv => dict_set d (fst kv) (snd kv)) pairs [].

(** The pairs of every object, innermost first, become dicts. *)
Fixpoint to_dicts (v : pyval) : pyval :=
  match v with
  | PList l => PList (map to_dicts l)
  | PDict d => PDict (dict_of_pairs (map (fun kv => (fst kv, to_dicts (snd kv))) d))
  | _ => v
  end.

(** [json.loads(s)]: one value with white space around it and nothing
    else. *)
Definition loads (s : string) : option pyval :=
  match scan_once (S (String.length s)) (skip_ws s) with
  | Some (v, r) => if is_empty (skip_ws r) then Some (to_dicts v) else None
  | None => None
  end.

End Json.

(** ** The filesystem and [pathlib]

    A path is the list of its components below the root; every path the
    program handles is absolute.  The map holds the entries under their
    canonical path (no [..] component); the root directory always
    exists. *)

Inductive entry :=
| Dir
| File (content : string).

Module Fs.

Definition lookup_entry (fs : gmap (list string) entry) (p : list string) : option entry :=
  match p with
  | [] => Some Dir
  | _ => fs !! p
  end.

Inductive stat_result :=
| Found (canonical : list string) (e : entry)
| ENOENT
| ENOTDIR.

(** Path resolution: from the directory [cur], follow [comps]. *)
Fixpoint walk (fs : gmap (list string) entry) (cur : list string) (comps : list string)
  : stat_result :=
  match comps with
  | [] =>
      match lookup_entry fs cur with
      | Some e => Found cur e
      | None => ENOENT
      end
  | c :: rest =>
      match lookup_entry fs cur with
      | Some Dir => walk fs (if String.eqb c ".." then removelast cur else (cur ++ [c])%list) rest
      | Some (File _) => ENOTDIR
      | None => ENOENT
      end
  end.

Definition stat (fs : gmap (list string) entry) (p : list string) : stat_result :=
  walk fs [] p.

(** A path with an embedded null byte never reaches the system: the
    call raises [ValueError]. *)
Definition has_nul (p : list string) : bool :=
  existsb (sexists (fun c => code c =? 0)) p.

Definition str_of_path (p : list string) : string :=
  "/" ++ String.concat "/" p.

Definition os_error (cls : exn_class) (what : string) (p : list string) : exn :=
  Exn cls (what ++ ": '" ++ str_of_path p ++ "'").

(** [os.mkdir(p)]. *)
Definition os_mkdir (fs : gmap (list string) entry) (p : list string)
  : result (gmap (list string) entry) :=
  if has_nul p then Raise (Exn ValueError "embedded null byte")
  else
    match p with
    | [] => Raise (os_error FileExistsError "[Errno 17] File exists" p)
    | _ =>
        match walk fs [] (removelast p) with
        | Found d Dir =>
            let name := List.last p EmptyString in
            if String.eqb name ".." then
              Raise (os_error FileExistsError "[Errno 17] File exists" p)
            else
              match fs !! (d ++ [name])%list with
              | Some _ => Raise (os_error FileExistsError "[Errno 17] File exists" p)
              | None => Ok (<[(d ++ [name])%list := Dir]> fs)
              end
        | Found _ (File _) | ENOTDIR =>
            Raise (os_error NotADirectoryError "[Errno 20] Not a directory" p)
        | ENOENT =>
            Raise (os_error FileNotFoundError "[Errno 2] No such file or directory" p)
        end
    end.

(** [open(p, "w")]: creates or truncates the file and returns the
    handle, here the canonical path of the file. *)
Definition open_w (fs : gmap (list string) entry) (p : list string)
  : result (list string * gmap (list string) entry) :=
  if has_nul p then Raise (Exn ValueError "embedded null byte")
  else
    match p with
    | [] => Raise (os_error IsADirectoryError "[Errno 21] Is a directory" p)
    | _ =>
        match walk fs [] (removelast p) with
        | Found d Dir =>
            let name := List.last p EmptyString in
            if String.eqb name ".." then
              Raise (os_error IsADirectoryError "[Errno 21] Is a directory" p)
            else
              match fs !! (d ++ [name])%list with
              | Some Dir => Raise (os_error IsADirectoryError "[Errno 21] Is a directory" p)
              | _ => Ok ((d ++ [name])%list, <[(d ++ [name])%list := File EmptyString]> fs)
              end
        | Found _ (File _) | ENOTDIR =>
            Raise (os_error NotADirectoryError "[Errno 20] Not a directory" p)
        | ENOENT =>
            Raise (os_error FileNotFoundError "[Errno 2] No such file or directory" p)
        end
    end.

(** [f.write(text)] on an open handle. *)
Definition write (fs : gmap (list string) entry) (handle : list string) (text : string)
  : gmap (list string) entry :=
  match fs !! handle with
  | Some (File content) => <[handle := File (content ++ text)]> fs
  | _ => fs
  end.

(** The content of the file at [p], if [p] leads to a file. *)
Definition read_text (fs : gmap (list string) entry) (p : list string) : option string :=
  match stat fs p with
  | Found _ (File content) => Some content
  | _ => None
  end.

End Fs.

Module Pathlib.

Fixpoint split_on (sep : ascii) (s : string) : list string :=
  match s with
  | EmptyString => [EmptyString]
  | String c rest =>
      if Ascii.eqb c sep then EmptyString :: split_on sep rest
      else match split_on sep rest with
           | h :: t => String c h :: t
           | [] => [String c EmptyString]
           end
  end.

(** The parts of a path string: empty components and single dots are
    dropped, [..] is kept. *)
Definition parse_parts (s : string) : list string :=
  List.filter (fun x => negb (is_empty x || String.eqb x ".")) (split_on "/" s).

(** [p / s]: an absolute [s] replaces [p]. *)
Definition joinpath (p : list string) (s : string) : list string :=
  if startswith "/" s then parse_parts s else (p ++ parse_parts s)%list.

(** [p.parent], purely lexical; the root is its own parent. *)
Definition parent (p : list string) : list string := removelast p.

(** [p.exists()]: the errors of [stat] that mean the entry is not there
    (and the [ValueError] of a null byte) give [False]. *)
Definition exists_ (fs : gmap (list string) entry) (p : list string) : bool :=
  if Fs.has_nul p then false
  else match Fs.stat fs p with
       | Fs.Found _ _ => true
       | _ => false
       end.

Definition is_dir (fs : gmap (list string) entry) (p : list string) : bool :=
  if Fs.has_nul p then false
  else match Fs.stat fs p with
       | Fs.Found _ Dir => true
       | _ => false
       end.

Definition is_os_error (e : exn) : bool :=
  match exn_cls e with
  | FileNotFoundError | FileExistsError | NotADirectoryError | IsADirectoryError => true
  | _ => false
  end.

(** [p.mkdir(parents=False, exist_ok=exist_ok)]. *)
Definition mkdir_noparents (fs : gmap (list string) entry) (p : list string) (exist_ok : bool)
  : result (gmap (list string) entry) :=
  match Fs.os_mkdir fs p with
  | Ok fs' => Ok fs'
  | Raise e =>
      match exn_cls e with
      | FileNotFoundError => Raise e
      | _ =>
          if is_os_error e then
            if negb exist_ok || negb (is_dir fs p) then Raise e else Ok fs
          else Raise e
      end
  end.

(** [p.mkdir(parents=True, exist_ok=exist_ok)], with [p] given by its
    components in reverse: when [os.mkdir] reports a missing parent, the
    parent is made first (with [exist_ok=True]) and the directory is then
    made without [parents].  The result is the new filesystem or the
    error alone: when the last step fails after a parent has been made
    (a path that ends in [..] below a missing directory), the parents
    made on the way are not part of the result, whereas on disk they
    stay.  The statements about failing calls below are about calls that
    fail before any directory is made. *)
Fixpoint mkdir_parents_rev (fs : gmap (list string) entry) (rp : list string) (exist_ok : bool)
  : result (gmap (list string) entry) :=
  let p := rev rp in
  match Fs.os_mkdir fs p with
  | Ok fs' => Ok fs'
  | Raise e =>
      match exn_cls e with
      | FileNotFoundError =>
          match rp with
          | [] => Raise e
          | _ :: rparent =>
              match mkdir_parents_rev fs rparent true with
              | Raise e' => Raise e'
              | Ok fs1 => mkdir_noparents fs1 p exist_ok
              end
          end
      | _ =>
          if is_os_error e then
            if negb exist_ok || negb (is_dir fs p) then Raise e else Ok fs
          else Raise e
      end
  end.

Definition mkdir (fs : gmap (list string) entry) (p : list string) (parents exist_ok : bool)
  : result (gmap (list string) entry) :=
  if parents then mkdir_parents_rev fs (rev p) exist_ok
  else mkdir_noparents fs p exist_ok.

End Pathlib.

(** ** The program

    What a run can observe and change: the filesystem, the lines printed
    and the requests sent to the node. *)

Inductive event :=
| Stdout (line : string)
| Request (what : string).

Record state := State {
  st_fs : gmap (list string) entry;
  st_log : list event
}.

Definition M (A : Type) : Type := state -> result A * state.

Definition ret {A : Type} (a : A) : M A := fun st => (Ok a, st).

Definition raise {A : Type} (e : exn) : M A := fun st => (Raise e, st).

Definition bind {A B : Type} (m : M A) (k : A -> M B) : M B :=
  fun st =>
    match m st with
    | (Ok a, st') => k a st'
    | (Raise e, st') => (Raise e, st')
    end.

Notation "x <- c1 ;; c2" := (bind c1 (fun x => c2))
  (at level 100, c1 at next level, right associativity).
Notation "c1 ;;; c2" := (bind c1 (fun _ => c2))
  (at level 100, right associativity).

(** [try: body except Exception as e: handler(e)]. *)
Definition try_except {A : Type} (body : M A) (handler : exn -> M A) : M A :=
  fun st =>
    match body st with
    | (Ok a, st') => (Ok a, st')
    | (Raise e, st') => handler e st'
    end.

Definition lift {A : Type} (r : result A) : M A := fun st => (r, st).

Definition print (line : string) : M unit :=
  fun st => (Ok tt, State (st_fs st) (st_log st ++ [Stdout line])).

Definition request (what : string) : M unit :=
  fun st => (Ok tt, State (st_fs st) (st_log st ++ [Request what])).

Definition get_fs : M (gmap (list string) entry) := fun st => (Ok (st_fs st), st).

Definition put_fs (fs : gmap (list string) entry) : M unit :=
  fun st => (Ok tt, State fs (st_log st)).

(** The JSON-RPC node behind [Web3(Web3.HTTPProvider(RPC_URL))]: what it
    answers to the liveness check and to a call of a function of the
    contract at an address.  A string result is the decoded [string]
    output; an integer result is the 256-bit word returned. *)
Record Node := {
  node_is_connected : result bool;
  node_call_string : string -> string -> result string;
  node_call_word : string -> string -> result Z
}.

Definition CHAIN_ID : Z := 143.

(** [ERC20_ABI] declares [decimals] with output type [uint8]: the ABI
    decoder takes the returned word only if it fits eight bits. *)
Definition decode_uint8 (word : Z) : result Z :=
  if (0 <=? word) && (word <? 256) then Ok word
  else Raise (Exn OtherException "Could not decode contract function call to decimals").

Definition dict_get (d : list (string * pyval)) (k : string) : result pyval :=
  match List.find (fun kv => String.eqb (fst kv) k) d with
  | Some (_, v) => Ok v
  | None => Raise (Exn KeyError ("'" ++ k ++ "'"))
  end.

(** [str(v)] as an f-string prints it. *)
Definition str_of (v : pyval) : string :=
  match v with
  | PStr s => s
  | PInt z => Json.int_repr z
  | other => Json.dumps other
  end.

Section Program.
(** [Path(__file__).resolve()]: the canonical path of the script. *)
Variable script_file : list string.

Definition get_mainnet_directory : M (list string) :=
  let script_dir := Pathlib.parent script_file in
  let mainnet_dir := Pathlib.joinpath (Pathlib.parent script_dir) "mainnet" in
  fs <- get_fs ;;
  if negb (Pathlib.is_dir fs mainnet_dir) then
    raise (Exn FileNotFoundError
             ("Mainnet directory not found: " ++ Fs.str_of_path mainnet_dir))
  else ret mainnet_dir.

Definition validate_address (address : string) : result string :=
  match Address.is_address address with
  | Raise e => Raise e
  | Ok false => Raise (Exn ValueError ("Invalid Ethereum address: " ++ address))
  | Ok true => Address.web3_to_checksum_address address
  end.

Definition fetch_token_data (web3 : Node) (address : string)
  : M (list (string * pyval)) :=
  fetched <-
    try_except
      (request "eth_call name" ;;;
       name <- lift (node_call_string web3 address "name") ;;
       request "eth_call symbol" ;;;
       symbol <- lift (node_call_string web3 address "symbol") ;;
       request "eth_call decimals" ;;;
       word <- lift (node_call_word web3 address "decimals") ;;
       decimals <- lift (decode_uint8 word) ;;
       ret (name, symbol, decimals))
      (fun e => raise (Exn OtherException
                         ("Failed to fetch token data: " ++ exn_msg e))) ;;
  let '(name, symbol, decimals) := fetched in
  ret [("chainId", PInt CHAIN_ID);
       ("address", PStr address);
       ("name", PStr name);
       ("symbol", PStr symbol);
       ("decimals", PInt decimals)].

Definition create_token_directory (mainnet_dir : list string)
    (token_data : list (string * pyval)) : M (list string) :=
  symbol_value <- lift (dict_get token_data "symbol") ;;
  match symbol_value with
  | PStr symbol =>
      let token_dir := Pathlib.joinpath mainnet_dir symbol in
      fs <- get_fs ;;
      if Pathlib.exists_ fs token_dir then
        raise (Exn FileExistsError
                 ("Token directory already exists: " ++ Fs.str_of_path token_dir))
      else
        fs1 <- lift (Pathlib.mkdir fs token_dir true false) ;;
        put_fs fs1 ;;;
        let data_file := Pathlib.joinpath token_dir "data.json" in
        opened <- lift (Fs.open_w fs1 data_file) ;;
        let '(f, fs2) := opened in
        put_fs fs2 ;;;
        put_fs (Fs.write fs2 f (Json.dumps (PDict token_data))) ;;;
        fs3 <- get_fs ;;
        put_fs (Fs.write fs3 f (String Json.newline EmptyString)) ;;;
        ret token_dir
  | _ => raise (Exn TypeError "unsupported operand type(s) for /")
  end.

(** [str.strip()]: the characters Python counts as white space, as
    UTF-8 byte sequences. *)
Definition whitespace : list string :=
  map Json.utf8
    [9; 10; 11; 12; 13; 28; 29; 30; 31; 32; 133; 160; 5760;
     8192; 8193; 8194; 8195; 8196; 8197; 8198; 8199; 8200; 8201; 8202;
     8232; 8233; 8239; 8287; 12288].

Definition srev (s : string) : string :=
  string_of_list_ascii (rev (list_ascii_of_string s)).

Fixpoint lstrip_fuel (ws : list string) (fuel : nat) (s : string) : string :=
  match fuel with
  | O => s
  | S f =>
      match List.find (fun w => startswith w s) ws with
      | Some w => lstrip_fuel ws f (sdrop (String.length w) s)
      | None => s
      end
  end.

Definition lstrip (s : string) : string :=
  lstrip_fuel whitespace (String.length s) s.

Definition rstrip (s : string) : string :=
  srev (lstrip_fuel (map srev whitespace) (String.length s) (srev s)).

Definition strip (s : string) : string := rstrip (lstrip s).

(** [input(prompt)]: the prompt goes to standard output; at end of
    input the call raises [EOFError]. *)
Definition input (stdin : option string) (prompt : string) : M string :=
  print prompt ;;;
  match stdin with
  | Some line => ret line
  | None => raise (Exn EOFError "EOF when reading a line")
  end.

Definition truthy (o : option string) : bool :=
  match o with
  | Some s => negb (is_empty s)
  | None => false
  end.

(** The body of the [try] statement of [main]. *)
Definition main_workflow (web3 : Node) (address : string) : M Z :=
  print ("Validating address: " ++ address) ;;;
  address <- lift (validate_address address) ;;
  print ("Checksummed address: " ++ address) ;;;
  request "web3_clientVersion" ;;;
  connected <- lift (node_is_connected web3) ;;
  if negb connected then
    print "Error: Failed to connect to the RPC" ;;; ret 1
  else
    print "Connected successfully" ;;;
    print (String Json.newline ("Fetching token data from " ++ address ++ "...")) ;;;
    token_data <- fetch_token_data web3 address ;;
    print (String Json.newline "Token found:") ;;;
    name <- lift (dict_get token_data "name") ;;
    print ("  Name: " ++ str_of name) ;;;
    symbol <- lift (dict_get token_data "symbol") ;;
    print ("  Symbol: " ++ str_of symbol) ;;;
    decimals <- lift (dict_get token_data "decimals") ;;
    print ("  Decimals: " ++ str_of decimals) ;;;
    mainnet_dir <- get_mainnet_directory ;;
    print (String Json.newline "Creating token directory...") ;;;
    token_dir <- create_token_directory mainnet_dir token_data ;;
    print (String Json.newline "✓ Token successfully added!") ;;;
    print ("  Directory: " ++ Fs.str_of_path token_dir) ;;;
    print ("  Data file: "
           ++ Fs.str_of_path (Pathlib.joinpath token_dir "data.json")) ;;;
    print (String Json.newline
             ("  Note: Don't forget to add a logo file (logo.svg or logo.png) to the "
              ++ str_of symbol ++ "/ directory!")) ;;;
    ret 0.

(** The four [except] clauses of [main]: all print and return 1; they
    differ by the prefix of the message. *)
Definition main_handler (e : exn) : M Z :=
  match exn_cls e with
  | ValueError | FileNotFoundError | FileExistsError =>
      print ("Error: " ++ exn_msg e) ;;; ret 1
  | _ => print ("Unexpected error: " ++ exn_msg e) ;;; ret 1
  end.

(** [main()], after [parser.parse_args()] has produced [args.address]
    ([None] when the argument is absent). *)
Definition main (web3 : Node) (args_address : option string) (stdin : option string)
  : M Z :=
  address <-
    (if negb (truthy args_address)
     then line <- input stdin "Enter token contract address: " ;; ret (strip line)
     else ret (default EmptyString args_address)) ;;
  if is_empty address then
    print "Error: No address provided" ;;; ret 1
  else
    try_except (main_workflow web3 address) main_handler.
End Program.

(** * Notions used to state the properties *)

(** The forty digits of a hex address, in lower case. *)
Definition digits (v : string) : string := lower (Address.remove_0x_prefix v).

(** What [is_address] decides, without the recursion. *)
Definition is_address_spec (v : string) : bool :=
  Address.is_hex_address v
  && (negb (Address._is_checksum_formatted v)
      || String.eqb v (Address.checksum_encode ("0x" ++ digits v))).

(** [recase flags ds]: [ds] with the characters selected by [flags] in
    upper case. *)
Definition recase (flags : nat -> bool) (ds : string) : string :=
  string_of_list_ascii
    (map (fun i => if flags i then to_upper (str_get ds i) else str_get ds i)
       (seq 0 (String.length ds))).

(** Every directory of [fs] is still a directory in [fs']. *)
Definition dirs_preserved (fs fs' : gmap (list string) entry) : Prop :=
  forall p, Fs.lookup_entry fs p = Some Dir -> Fs.lookup_entry fs' p = Some Dir.

(** The text after a number: not a digit, a point or an exponent mark. *)
Definition number_end (s : string) : bool :=
  match s with
  | EmptyString => true
  | String c _ =>
      negb (is_digit c || (code c =? 46) || (code c =? 101) || (code c =? 69))
  end.

(** The values of a token record: strings and integers. *)
Definition flat (v : pyval) : bool :=
  match v with
  | PInt _ | PStr _ => true
  | _ => false
  end.

(** One member of an object as the encoder prints it, and what it prints
    between two members. *)
Definition item (kv : string * pyval) : string :=
  let '(k, v) := kv in Json.encode_basestring k ++ ": " ++ Json.iterencode 2 1 v.

Definition item_sep : string := "," ++ Json.newline_indent 2 1.

(** The registry root [main] looks for. *)
Definition mainnet_path (script_file : list string) : list string :=
  Pathlib.joinpath (Pathlib.parent (Pathlib.parent script_file)) "mainnet".

(** The address [main] works with: the argument if there is one, else
    the stripped line read at the prompt; none at end of input. *)
Definition address_of (args_address stdin : option string) : option string :=
  if truthy args_address then args_address
  else match stdin with
       | Some line => Some (strip line)
       | None => None
       end.

Definition fetch_error (e : exn) : exn :=
  Exn OtherException ("Failed to fetch token data: " ++ exn_msg e).

(** What [fetch_token_data] returns, as a function of the node's
    answers. *)
Definition fetch_result (web3 : Node) (address : string) : result (list (string * pyval)) :=
  match node_call_string web3 address "name" with
  | Raise e => Raise (fetch_error e)
  | Ok name =>
      match node_call_string web3 address "symbol" with
      | Raise e => Raise (fetch_error e)
      | Ok symbol =>
          match node_call_word web3 address "decimals" with
          | Raise e => Raise (fetch_error e)
          | Ok word =>
              match decode_uint8 word with
              | Raise e => Raise (fetch_error e)
              | Ok decimals =>
                  Ok [("chainId", PInt CHAIN_ID);
                      ("address", PStr address);
                      ("name", PStr name);
                      ("symbol", PStr symbol);
                      ("decimals", PInt decimals)]
              end
          end
      end
  end.

Definition is_stdout (e : event) : bool :=
  match e with
  | Stdout _ => true
  | Request _ => false
  end.

(** From [st] to [st'] the filesystem is the same and only lines were
    printed: no request was sent. *)
Definition only_printed (st st' : state) : Prop :=
  st_fs st' = st_fs st
  /\ exists new, st_log st' = (st_log st ++ new)%list /\ forallb is_stdout new = true.

(** From [st] to [st'] the filesystem is the same. *)
Definition same_fs (st st' : state) : Prop := st_fs st' = st_fs st.

(** The line an [except] clause of [main] prints for [e]. *)
Definition handler_line (e : exn) : string :=
  match exn_cls e with
  | ValueError | FileNotFoundError | FileExistsError => "Error: " ++ exn_msg e
  | _ => "Unexpected error: " ++ exn_msg e
  end.

(** A token record, in the order [fetch_token_data] builds it. *)
Definition token_record (chain_id : Z) (address name symbol : string) (decimals : Z)
  : list (string * pyval) :=
  [("chainId", PInt chain_id);
   ("address", PStr address);
   ("name", PStr name);
   ("symbol", PStr symbol);
   ("decimals", PInt decimals)].

(** A run that stops before the registry is written to: the address is
    invalid, the node does not answer the liveness check, a contract call
    fails, or the registry directory is missing. *)
Definition fails_before_write (script_file : list string) (web3 : Node)
    (address : string) (st : state) : Prop :=
  match validate_address address with
  | Raise _ => True
  | Ok checksummed =>
      node_is_connected web3 <> Ok true
      \/ (exists e, fetch_result web3 checksummed = Raise e)
      \/ Pathlib.is_dir (st_fs st) (mainnet_path script_file) = false
  end.

Definition quoted (s : string) : string :=
  String Json.dquote (s ++ String Json.dquote EmptyString).

(** The text of [data.json] as the specification lays it out: one member
    per line, two spaces of indentation, the five fields in order, and a
    newline after the closing brace. *)
Definition data_json_text (chain_id : Z) (address name symbol : string) (decimals : Z)
  : string :=
  String.concat (String Json.newline EmptyString)
    ["{";
     "  " ++ quoted "chainId" ++ ": " ++ Json.int_repr chain_id ++ ",";
     "  " ++ quoted "address" ++ ": " ++ quoted (Json.escape address) ++ ",";
     "  " ++ quoted "name" ++ ": " ++ quoted (Json.escape name) ++ ",";
     "  " ++ quoted "symbol" ++ ": " ++ quoted (Json.escape symbol) ++ ",";
     "  " ++ quoted "decimals" ++ ": " ++ Json.int_repr decimals;
     "}"]
  ++ String Json.newline EmptyString.

(** ** Sample values *)

Definition example_script : list string := ["repo"; "scripts"; "add_token.py"].

Definition example_fs : gmap (list string) entry :=
  <[ ["repo"; "mainnet"] := Dir ]>
    (<[ ["repo"; "scripts"] := Dir ]> (<[ ["repo"] := Dir ]> ∅)).

Definition example_address : string := "0x5aaeb6053f3e94c9b9a09f33669435e7ef1beaed".

Definition example_checksummed : string := "0x5aAeb6053F3E94C9b9A09f33669435E7Ef1BeAed".

(** A node that answers like the contract of the example scenario. *)
Definition example_node : Node := {|
  node_is_connected := Ok true;
  node_call_string := fun _ function =>
    if String.eqb function "name" then Ok "Example Token" else Ok "EXT";
  node_call_word := fun _ _ => Ok 18
|}.

(** A node whose contract reports an empty name and an empty symbol. *)
Definition unnamed_node : Node := {|
  node_is_connected := Ok true;
  node_call_string := fun _ _ => Ok EmptyString;
  node_call_word := fun _ _ => Ok 0
|}.

(** A node that cannot be reached. *)
Definition unreachable_node : Node := {|
  node_is_connected := Ok false;
  node_call_string := fun _ _ => Raise (Exn OtherException "connection refused");
  node_call_word := fun _ _ => Raise (Exn OtherException "connection refused")
|}.

(** The registry once the example token is registered. *)
Definition registered_state : state :=
  snd (main example_script example_node (Some example_address) None (State example_fs [])).

(** ** What further properties are stated with *)

(** The requests recorded in a log, in order. *)
Definition requests_of (log : list event) : list string :=
  flat_map (fun e => match e with Request what => [what] | Stdout _ => [] end) log.

(** The contract calls [fetch_token_data] gets to make: each one only if
    the one before it returned. *)
Definition fetch_request_names (web3 : Node) (address : string) : list string :=
  "eth_call name" ::
  match node_call_string web3 address "name" with
  | Raise _ => []
  | Ok _ =>
      "eth_call symbol" ::
      match node_call_string web3 address "symbol" with
      | Raise _ => []
      | Ok _ => ["eth_call decimals"]
      end
  end.

(** The requests of a run of the workflow on [address]. *)
Definition workflow_requests (web3 : Node) (address : string) : list string :=
  match validate_address address with
  | Raise _ => []
  | Ok checksummed =>
      "web3_clientVersion" ::
      match node_is_connected web3 with
      | Ok true => fetch_request_names web3 checksummed
      | _ => []
      end
  end.

Definition is_dir_entry (o : option entry) : bool :=
  match o with
  | Some Dir => true
  | _ => false
  end.

(** Every entry of the filesystem lies in a directory of the
    filesystem. *)
Definition well_formed (fs : gmap (list string) entry) : Prop :=
  map_Forall (fun p _ => is_dir_entry (Fs.lookup_entry fs (removelast p)) = true) fs.

(** From [fs] to [fs'] no entry is changed or removed, and what is new
    is a directory. *)
Definition extended_by_dirs (fs fs' : gmap (list string) entry) : Prop :=
  (forall p e, fs !! p = Some e -> fs' !! p = Some e)
  /\ (forall p e, fs !! p = None -> fs' !! p = Some e -> e = Dir).


(** The number of characters of [s] that satisfy [p]. *)
Fixpoint scount (p : ascii -> bool) (s : string) : nat :=
  match s with
  | EmptyString => O
  | String c s' => ((if p c then 1 else 0) + scount p s')%nat
  end.

(** The control characters, those below U+0020. *)
Definition is_control (c : ascii) : bool := code c <? 32.

(** * Checks of the model on known values *)

Example keccak_empty :
  Address.encode_hex (Keccak.keccak256 []) =
  "0xc5d2460186f7233c927e7db2dcc703c0e500b653ca82273b7bfad8045d85a470".
Proof. vm_compute. reflexivity. Qed.

Example eip55_vector_1 :
  Address.web3_to_checksum_address "0x5aaeb6053f3e94c9b9a09f33669435e7ef1beaed"
  = Ok "0x5aAeb6053F3E94C9b9A09f33669435E7Ef1BeAed".
Proof. vm_compute. reflexivity. Qed.

Example eip55_vector_2 :
  Address.web3_to_checksum_address "0XFB6916095CA1DF60BB79CE92CE3EA74C37C5D359"
  = Ok "0xfB6916095ca1df60bB79Ce92cE3Ea74c37c5d359".
Proof. vm_compute. reflexivity. Qed.

Example eip55_vector_3 :
  Address.is_address "0xdbF03B407c01E7cD3CBea99509d93f8DDDC8C6FB" = Ok true
  /\ Address.is_address "0xdbF03B407c01E7cD3CBea99509d93f8DDDC8C6Fb" = Ok false
  /\ Address.is_address "dbF03B407c01E7cD3CBea99509d93f8DDDC8C6FB" = Ok false
  /\ Address.is_address "dbf03b407c01e7cd3cbea99509d93f8dddc8c6fb" = Ok true
  /\ Address.is_address "0x52908400098527886E0F7030069857D2E4169EE7" = Ok true.
Proof. vm_compute. repeat split. Qed.

Example dumps_example :
  Json.dumps (PDict [("a", PInt 1); ("b", PStr "x"); ("c", PList [PNone; PBool true])])
  = String.concat (String Json.newline "")
      ["{"; "  " ++ String Json.dquote "a" ++ String Json.dquote ": 1,";
       "  " ++ String Json.dquote "b" ++ String Json.dquote ": "
            ++ String Json.dquote "x" ++ String Json.dquote ",";
       "  " ++ String Json.dquote "c" ++ String Json.dquote ": [";
       "    null,"; "    true"; "  ]"; "}"].
Proof. vm_compute. reflexivity. Qed.

Example loads_example :
  Json.loads (Json.dumps (PDict [("a", PInt (-10)); ("b", PStr "x\y"); ("c", PList [PNone; PBool true; PDict []])]))
  = Some (PDict [("a", PInt (-10)); ("b", PStr "x\y"); ("c", PList [PNone; PBool true; PDict []])]).
Proof. vm_compute. reflexivity. Qed.

Example parse_parts_example :
  Pathlib.parse_parts "a//b/./../c/" = ["a"; "b"; ".."; "c"]
  /\ Pathlib.joinpath ["repo"; "mainnet"] "" = ["repo"; "mainnet"]
  /\ Pathlib.joinpath ["repo"; "mainnet"] "/etc" = ["etc"].
Proof. vm_compute. repeat split. Qed.

Example mkdir_example :
  Pathlib.mkdir (<[ ["repo"] := Dir ]> ∅) ["repo"; "mainnet"; "A"; "B"] true false
  = Ok (<[ ["repo"; "mainnet"; "A"; "B"] := Dir ]>
          (<[ ["repo"; "mainnet"; "A"] := Dir ]>
             (<[ ["repo"; "mainnet"] := Dir ]> (<[ ["repo"] := Dir ]> ∅)))).
Proof. vm_compute. reflexivity. Qed.

Example loads_numbers :
  Json.loads "[0, -12, 3.50, 1e9, -0.5E-3]"
  = Some (PList [PInt 0; PInt (-12); PFloat "3.50"; PFloat "1e9"; PFloat "-0.5E-3"])
  /\ Json.loads "01" = None
  /\ Json.loads "[1,]" = None
  /\ Json.loads "1." = None.
Proof. vm_compute. repeat split. Qed.

(** * Properties of address validation *)

(** ** Characters and strings *)

Ltac by_cases_on_char c :=
  destruct c as [[] [] [] [] [] [] [] []]; vm_compute; try reflexivity; try discriminate; auto.

Lemma to_lower_to_upper c : to_lower (to_upper c) = to_lower c.
Proof. by_cases_on_char c. Qed.

Lemma to_lower_idem c : to_lower (to_lower c) = to_lower c.
Proof. by_cases_on_char c. Qed.

Lemma is_hex_char_to_lower c : Address.is_hex_char (to_lower c) = Address.is_hex_char c.
Proof. by_cases_on_char c. Qed.

Lemma is_hex_char_to_upper c : Address.is_hex_char (to_upper c) = Address.is_hex_char c.
Proof. by_cases_on_char c. Qed.

Lemma is_upper_to_lower c : is_upper (to_lower c) = false.
Proof. by_cases_on_char c. Qed.

Lemma hex_lower_or_digit c :
  Address.is_hex_char c = true -> is_lower (to_lower c) = negb (is_digit (to_lower c)).
Proof. by_cases_on_char c. Qed.

Lemma hex_char_not_x c : Address.is_hex_char c = true -> c <> "x"%char /\ c <> "X"%char.
Proof. destruct c as [[] [] [] [] [] [] [] []]; vm_compute; intros; split; congruence. Qed.

Lemma length_smap f s : String.length (smap f s) = String.length s.
Proof. induction s; simpl; congruence. Qed.

Lemma smap_smap f g s : smap f (smap g s) = smap (fun c => f (g c)) s.
Proof. induction s; simpl; congruence. Qed.

Lemma smap_ext f g s : (forall c, f c = g c) -> smap f s = smap g s.
Proof. intros E. induction s; simpl; congruence. Qed.

Lemma lower_idem s : lower (lower s) = lower s.
Proof. unfold lower. rewrite smap_smap. apply smap_ext, to_lower_idem. Qed.

Lemma all_hex_lower s : Address.all_hex (lower s) = Address.all_hex s.
Proof.
  unfold Address.all_hex, lower.
  induction s; simpl; [reflexivity|]. now rewrite is_hex_char_to_lower, IHs.
Qed.

Lemma hex40_lower s : Address.hex40 (lower s) = Address.hex40 s.
Proof. unfold Address.hex40. unfold lower at 1. now rewrite length_smap, all_hex_lower. Qed.

(** ** The address predicates *)

Lemma is_0x_prefixed_inv v :
  Address.is_0x_prefixed v = true ->
  exists x d, v = String "0" (String x d) /\ (x = "x"%char \/ x = "X"%char).
Proof.
  unfold Address.is_0x_prefixed. destruct v as [|a [|b d]]; cbn [startswith].
  - discriminate.
  - rewrite !andb_false_r. discriminate.
  - destruct (Ascii.eqb_spec "0" a) as [<-|]; [|discriminate].
    destruct (Ascii.eqb_spec "x" b) as [<-|]; [eauto|].
    destruct (Ascii.eqb_spec "X" b) as [<-|]; [eauto|discriminate].
Qed.

Lemma is_0x_prefixed_intro x d :
  x = "x"%char \/ x = "X"%char -> Address.is_0x_prefixed (String "0" (String x d)) = true.
Proof. intros [-> | ->]; reflexivity. Qed.

Lemma all_hex_not_prefixed v :
  Address.all_hex v = true -> Address.is_0x_prefixed v = false.
Proof.
  intros H. destruct (Address.is_0x_prefixed v) eqn:E; [|reflexivity].
  apply is_0x_prefixed_inv in E as (x & d & -> & Hx).
  unfold Address.all_hex in H. cbn [sforall] in H.
  apply andb_prop in H as [_ H]. apply andb_prop in H as [H _].
  apply hex_char_not_x in H. destruct H, Hx; congruence.
Qed.

Lemma is_hex_address_cases v :
  Address.is_hex_address v = true ->
  (Address.hex40 v = true /\ Address.is_0x_prefixed v = false)
  \/ (Address.is_0x_prefixed v = true /\ Address.hex40 (sdrop 2 v) = true).
Proof.
  unfold Address.is_hex_address. intros H. apply orb_prop in H as [H | H].
  - left. split; [assumption|]. apply all_hex_not_prefixed.
    unfold Address.hex40 in H. now apply andb_prop in H.
  - right. now apply andb_prop in H.
Qed.

Lemma hex40_digits v : Address.is_hex_address v = true -> Address.hex40 (digits v) = true.
Proof.
  intros H. unfold digits, Address.remove_0x_prefix. rewrite hex40_lower.
  destruct (is_hex_address_cases v H) as [[H1 ->] | [-> H2]]; assumption.
Qed.

Lemma hexstr_if_str_to_hex_address v :
  Address.is_hex_address v = true ->
  Address.hexstr_if_str_to_hex v = Ok ("0x" ++ digits v).
Proof.
  intros H. unfold Address.hexstr_if_str_to_hex, Address.is_hexstr, digits, Address.remove_0x_prefix.
  destruct (is_hex_address_cases v H) as [[H1 H0] | [H0 H2]]; rewrite H0.
  - unfold Address.hex40 in H1. apply andb_prop in H1 as [Hl Ha]. rewrite Ha.
    assert (is_empty v = false) as -> by (destruct v; [discriminate|reflexivity]).
    simpl. unfold Address.add_0x_prefix.
    now rewrite all_hex_not_prefixed by (now rewrite all_hex_lower).
  - pose proof H2 as H2'. unfold Address.hex40 in H2. apply andb_prop in H2 as [Hl Ha]. rewrite Ha.
    apply is_0x_prefixed_inv in H0 as (x & d & -> & Hx).
    destruct Hx as [-> | ->]; simpl in *; rewrite ?Ha, ?orb_true_r, ?andb_false_r; reflexivity.
Qed.

Lemma lower_0x s : lower ("0x" ++ s) = "0x" ++ lower s.
Proof. reflexivity. Qed.

Lemma digits_lower v : lower (digits v) = digits v.
Proof. apply lower_idem. Qed.

Lemma sexists_is_upper_lower s : sexists is_upper (lower s) = false.
Proof. induction s; simpl; [reflexivity|]. now rewrite is_upper_to_lower. Qed.

Lemma lower_hex_not_checksum_formatted s :
  Address.all_hex s = true -> s <> EmptyString ->
  islower (lower s) || isnumeric (lower s) = true.
Proof.
  unfold islower, isnumeric. rewrite sexists_is_upper_lower. simpl. rewrite andb_true_r.
  intros H Hne.
  assert (is_empty (lower s) = false) as -> by (destruct s; [congruence|reflexivity]).
  simpl. clear Hne. induction s as [|c s IH]; simpl; [reflexivity|].
  unfold Address.all_hex in H. simpl in H. apply andb_prop in H as [Hc Hs].
  rewrite (hex_lower_or_digit c Hc).
  destruct (is_digit (to_lower c)); simpl; [now apply IH | reflexivity].
Qed.

Lemma normalized_not_checksum_formatted v :
  Address.is_hex_address v = true ->
  Address._is_checksum_formatted ("0x" ++ digits v) = false.
Proof.
  intros H. pose proof (hex40_digits v H) as H40.
  unfold Address._is_checksum_formatted.
  change (Address.remove_0x_prefix ("0x" ++ digits v)) with (digits v).
  unfold Address.hex40 in H40. apply andb_prop in H40 as [Hl Ha].
  rewrite <- digits_lower.
  pose proof (lower_hex_not_checksum_formatted (digits v) Ha) as Hc.
  destruct (digits v) eqn:E; [discriminate|]. rewrite <- E in *.
  specialize (Hc ltac:(rewrite E; discriminate)).
  destruct (islower (lower (digits v))); simpl; [reflexivity|].
  simpl in Hc. rewrite Hc. destruct (isupper _); reflexivity.
Qed.

Lemma normalized_is_hex_address v :
  Address.is_hex_address v = true -> Address.is_hex_address ("0x" ++ digits v) = true.
Proof.
  intros H. unfold Address.is_hex_address.
  change (Address.is_0x_prefixed ("0x" ++ digits v)) with true.
  change (sdrop 2 ("0x" ++ digits v)) with (digits v).
  rewrite (hex40_digits v H). apply orb_true_r.
Qed.

Lemma to_normalized_address_spec n v :
  Address.is_hex_address v = true ->
  Address.to_normalized_address (Address.is_address_fuel (S n)) v
  = Some (Ok ("0x" ++ digits v)).
Proof.
  intros H. unfold Address.to_normalized_address.
  rewrite (hexstr_if_str_to_hex_address v H), lower_0x, digits_lower.
  simpl Address.is_address_fuel.
  now rewrite (normalized_is_hex_address v H), (normalized_not_checksum_formatted v H).
Qed.

Lemma to_checksum_address_spec n v :
  Address.is_hex_address v = true ->
  Address.to_checksum_address (Address.is_address_fuel (S n)) v
  = Some (Ok (Address.checksum_encode ("0x" ++ digits v))).
Proof.
  intros H. unfold Address.to_checksum_address. now rewrite to_normalized_address_spec.
Qed.

Lemma is_address_fuel_S n v :
  Address.is_address_fuel (S n) v =
  if Address.is_hex_address v then
    if Address._is_checksum_formatted v
    then Address.is_checksum_address (Address.is_address_fuel n) v
    else Some (Ok true)
  else Some (Ok false).
Proof. reflexivity. Qed.

Lemma is_address_fuel_enough n v :
  Address.is_address_fuel (S (S n)) v = Some (Ok (is_address_spec v)).
Proof.
  unfold is_address_spec. rewrite is_address_fuel_S.
  destruct (Address.is_hex_address v) eqn:H; [|reflexivity].
  destruct (Address._is_checksum_formatted v); [|reflexivity].
  unfold Address.is_checksum_address. rewrite H. cbn [negb].
  now rewrite (to_checksum_address_spec n v H).
Qed.

Lemma is_address_eq v : Address.is_address v = Ok (is_address_spec v).
Proof.
  unfold Address.is_address.
  change Address.recursion_limit with (S (S 998)).
  now rewrite is_address_fuel_enough.
Qed.

Lemma web3_to_checksum_address_eq v :
  Address.is_hex_address v = true ->
  Address.web3_to_checksum_address v = Ok (Address.checksum_encode ("0x" ++ digits v)).
Proof.
  intros H. unfold Address.web3_to_checksum_address.
  change Address.recursion_limit with (S 999).
  now rewrite to_checksum_address_spec.
Qed.

Lemma validate_address_eq v :
  validate_address v =
  if is_address_spec v then Ok (Address.checksum_encode ("0x" ++ digits v))
  else Raise (Exn ValueError ("Invalid Ethereum address: " ++ v)).
Proof.
  unfold validate_address. rewrite is_address_eq.
  destruct (is_address_spec v) eqn:E; [|reflexivity].
  apply web3_to_checksum_address_eq.
  unfold is_address_spec in E. now apply andb_prop in E.
Qed.

(** ** The checksum changes letter case only *)

Lemma recase_cons flags c s :
  recase flags (String c s)
  = String (if flags O then to_upper c else c) (recase (fun i => flags (S i)) s).
Proof.
  unfold recase. cbn [String.length seq map string_of_list_ascii].
  f_equal. f_equal. rewrite <- seq_shift, map_map. reflexivity.
Qed.

Lemma lower_recase flags ds : lower (recase flags ds) = lower ds.
Proof.
  revert flags. induction ds as [|c s IH]; intros flags; [reflexivity|].
  rewrite recase_cons. unfold lower in *. cbn [smap]. rewrite IH. f_equal.
  destruct (flags O); [apply to_lower_to_upper | reflexivity].
Qed.

Lemma all_hex_recase flags ds : Address.all_hex (recase flags ds) = Address.all_hex ds.
Proof.
  revert flags. induction ds as [|c s IH]; intros flags; [reflexivity|].
  rewrite recase_cons. unfold Address.all_hex in *. cbn [sforall]. rewrite IH. f_equal.
  destruct (flags O); [apply is_hex_char_to_upper | reflexivity].
Qed.

Lemma length_recase flags ds : String.length (recase flags ds) = String.length ds.
Proof.
  revert flags. induction ds as [|c s IH]; intros flags; [reflexivity|].
  rewrite recase_cons. cbn [String.length]. now rewrite IH.
Qed.

Lemma checksum_encode_recase ds :
  String.length ds = 40%nat ->
  exists flags, Address.checksum_encode ("0x" ++ ds) = Address.add_0x_prefix (recase flags ds).
Proof.
  intros Hl. unfold Address.checksum_encode.
  set (h := Address.encode_hex _). clearbody h.
  exists (fun i => 7 <? Address.int16 (str_get h (S (S i)))).
  unfold recase. rewrite Hl. reflexivity.
Qed.

Lemma hex40_length ds : Address.hex40 ds = true -> String.length ds = 40%nat.
Proof. unfold Address.hex40. intros H. apply andb_prop in H as [H _]. now apply Nat.eqb_eq. Qed.

Lemma checksum_encode_eq ds :
  Address.hex40 ds = true ->
  exists flags, Address.checksum_encode ("0x" ++ ds) = "0x" ++ recase flags ds.
Proof.
  intros H. destruct (checksum_encode_recase ds (hex40_length ds H)) as [flags E].
  exists flags. rewrite E. unfold Address.add_0x_prefix.
  rewrite all_hex_not_prefixed; [reflexivity|].
  rewrite all_hex_recase. unfold Address.hex40 in H. now apply andb_prop in H.
Qed.






(** * Properties of the filesystem operations *)

(** ** The filesystem *)

Section FsFacts.
Local Open Scope list_scope.
Implicit Types (fs : gmap (list string) entry) (p cur : list string).

Lemma dirs_preserved_refl fs : dirs_preserved fs fs.
Proof. intros p H. exact H. Qed.

Lemma dirs_preserved_trans fs1 fs2 fs3 :
  dirs_preserved fs1 fs2 -> dirs_preserved fs2 fs3 -> dirs_preserved fs1 fs3.
Proof. intros H12 H23 p H. apply H23, H12, H. Qed.

Lemma lookup_entry_insert_eq fs p e :
  p <> [] -> Fs.lookup_entry (<[p := e]> fs) p = Some e.
Proof. intros Hp. destruct p; [congruence|]. simpl. apply lookup_insert_eq. Qed.

Lemma lookup_entry_insert_ne fs p q e :
  p <> q -> Fs.lookup_entry (<[p := e]> fs) q = Fs.lookup_entry fs q.
Proof. intros Hp. destruct q; [reflexivity|]. simpl. now apply lookup_insert_ne. Qed.

Lemma dirs_preserved_insert fs p e :
  p <> [] -> fs !! p <> Some Dir -> dirs_preserved fs (<[p := e]> fs).
Proof.
  intros Hp Hnd q Hq. destruct (decide (p = q)) as [<- | Hne].
  - destruct p; [congruence|]. simpl in Hq. congruence.
  - now rewrite lookup_entry_insert_ne.
Qed.

Lemma walk_found_lookup fs cur comps d e :
  Fs.walk fs cur comps = Fs.Found d e -> Fs.lookup_entry fs d = Some e.
Proof.
  revert cur. induction comps as [|c rest IH]; intros cur; simpl.
  - destruct (Fs.lookup_entry fs cur) eqn:E; [|discriminate]. now intros [= <- <-].
  - destruct (Fs.lookup_entry fs cur) as [[]|]; try discriminate. apply IH.
Qed.

Lemma walk_dirs_preserved fs fs' cur comps d :
  dirs_preserved fs fs' ->
  Fs.walk fs cur comps = Fs.Found d Dir -> Fs.walk fs' cur comps = Fs.Found d Dir.
Proof.
  intros Hp. revert cur. induction comps as [|c rest IH]; intros cur; simpl.
  - destruct (Fs.lookup_entry fs cur) as [e|] eqn:E; [|discriminate].
    intros [= <- ->]. now rewrite (Hp _ E).
  - destruct (Fs.lookup_entry fs cur) as [[]|] eqn:E; try discriminate.
    rewrite (Hp _ E). apply IH.
Qed.

Lemma walk_app fs cur a b d :
  Fs.walk fs cur a = Fs.Found d Dir -> Fs.walk fs cur (a ++ b) = Fs.walk fs d b.
Proof.
  revert cur. induction a as [|c rest IH]; intros cur; simpl.
  - destruct (Fs.lookup_entry fs cur) as [e|] eqn:E; [|discriminate].
    now intros [= <- ->].
  - destruct (Fs.lookup_entry fs cur) as [[]|] eqn:E; try discriminate. apply IH.
Qed.

Lemma walk_snoc_name fs a name d :
  Fs.walk fs [] a = Fs.Found d Dir -> String.eqb name ".." = false ->
  Fs.walk fs [] (a ++ [name]) =
  match fs !! (d ++ [name]) with
  | Some e => Fs.Found (d ++ [name]) e
  | None => Fs.ENOENT
  end.
Proof.
  intros Hw Hn. rewrite (walk_app _ _ _ _ _ Hw). simpl.
  rewrite (walk_found_lookup _ _ _ _ _ Hw), Hn.
  destruct (d ++ [name]) eqn:E; [now destruct d|]. reflexivity.
Qed.

(** What a successful [os.mkdir] did. *)
Lemma os_mkdir_ok fs p fs' :
  Fs.os_mkdir fs p = Ok fs' ->
  Fs.has_nul p = false
  /\ dirs_preserved fs fs'
  /\ exists d, Fs.stat fs' p = Fs.Found d Dir.
Proof.
  unfold Fs.os_mkdir. destruct (Fs.has_nul p) eqn:Hn; [discriminate|].
  destruct p as [|c p'] eqn:Ep; [discriminate|]. rewrite <- Ep.
  assert (p <> []) as Hne by (rewrite Ep; discriminate).
  destruct (Fs.walk fs [] (removelast p)) as [d [|]| |] eqn:Hw; try discriminate.
  pose proof (app_removelast_last "" Hne) as Esplit.
  set (name := List.last p "") in *. clearbody name.
  destruct (String.eqb name "..") eqn:Hdd; [discriminate|].
  destruct (fs !! (d ++ [name])) eqn:Hl; [discriminate|].
  intros [= <-]. split; [reflexivity|].
  assert (dirs_preserved fs (<[d ++ [name] := Dir]> fs)) as Hdp.
  { apply dirs_preserved_insert; [now destruct d | congruence]. }
  split; [exact Hdp|].
  exists (d ++ [name]). unfold Fs.stat. rewrite Esplit.
  rewrite (walk_snoc_name _ _ _ d); [|now apply (walk_dirs_preserved fs)|exact Hdd].
  now rewrite lookup_insert_eq.
Qed.

Lemma is_dir_stat fs p :
  Pathlib.is_dir fs p = true -> exists d, Fs.stat fs p = Fs.Found d Dir.
Proof.
  unfold Pathlib.is_dir. destruct (Fs.has_nul p); [discriminate|].
  destruct (Fs.stat fs p) as [d [|]| |]; try discriminate. eauto.
Qed.

Lemma mkdir_noparents_ok fs p exist_ok fs' :
  Pathlib.mkdir_noparents fs p exist_ok = Ok fs' ->
  dirs_preserved fs fs' /\ exists d, Fs.stat fs' p = Fs.Found d Dir.
Proof.
  unfold Pathlib.mkdir_noparents.
  destruct (Fs.os_mkdir fs p) as [fs1|e] eqn:Hm.
  - intros [= <-]. apply os_mkdir_ok in Hm. tauto.
  - destruct (exn_cls e); try discriminate;
      destruct (Pathlib.is_os_error e); try discriminate;
      destruct exist_ok; try discriminate;
      destruct (Pathlib.is_dir fs p) eqn:Hd; try discriminate;
      intros [= <-]; (split; [apply dirs_preserved_refl | now apply is_dir_stat]).
Qed.

Lemma mkdir_parents_rev_ok fs rp exist_ok fs' :
  Pathlib.mkdir_parents_rev fs rp exist_ok = Ok fs' ->
  dirs_preserved fs fs' /\ exists d, Fs.stat fs' (rev rp) = Fs.Found d Dir.
Proof.
  revert fs exist_ok fs'. induction rp as [|c rparent IH]; intros fs exist_ok fs'.
  - cbn [Pathlib.mkdir_parents_rev]. destruct (Fs.os_mkdir fs (rev [])) as [fs1|e] eqn:Hm.
    + intros [= <-]. apply os_mkdir_ok in Hm. tauto.
    + destruct (exn_cls e); try discriminate;
        destruct (Pathlib.is_os_error e); try discriminate;
        destruct exist_ok; try discriminate;
        destruct (Pathlib.is_dir fs (rev [])) eqn:Hd; try discriminate;
        intros [= <-]; (split; [apply dirs_preserved_refl | now apply is_dir_stat]).
  - cbn [Pathlib.mkdir_parents_rev].
    destruct (Fs.os_mkdir fs (rev (c :: rparent))) as [fs1|e] eqn:Hm.
    + intros [= <-]. apply os_mkdir_ok in Hm. tauto.
    + destruct (exn_cls e) eqn:Hc.
      2:{ destruct (Pathlib.mkdir_parents_rev fs rparent true) as [fs1|e'] eqn:Hp; [|discriminate].
          intros H. apply IH in Hp as [Hp _]. apply mkdir_noparents_ok in H as [H1 H2].
          split; [eapply dirs_preserved_trans; eassumption | exact H2]. }
      all: destruct (Pathlib.is_os_error e); try discriminate;
        destruct exist_ok; try discriminate;
        destruct (Pathlib.is_dir fs (rev (c :: rparent))) eqn:Hd; try discriminate;
        intros [= <-]; (split; [apply dirs_preserved_refl | now apply is_dir_stat]).
Qed.

Lemma mkdir_parents_rev_nul fs rp exist_ok :
  Fs.has_nul (rev rp) = true ->
  exists e, Pathlib.mkdir_parents_rev fs rp exist_ok = Raise e.
Proof.
  intros H. destruct rp; cbn [Pathlib.mkdir_parents_rev];
    unfold Fs.os_mkdir; rewrite H; cbn; eauto.
Qed.

Lemma mkdir_ok fs p fs' :
  Pathlib.mkdir fs p true false = Ok fs' ->
  Fs.has_nul p = false /\ dirs_preserved fs fs' /\ Pathlib.is_dir fs' p = true.
Proof.
  unfold Pathlib.mkdir. intros H.
  assert (Fs.has_nul p = false) as Hn.
  { destruct (Fs.has_nul p) eqn:Hn; [|reflexivity].
    destruct (mkdir_parents_rev_nul fs (rev p) false) as [e He].
    - now rewrite rev_involutive.
    - congruence. }
  apply mkdir_parents_rev_ok in H as [H1 [d H2]]. rewrite rev_involutive in H2.
  split; [exact Hn|]. split; [exact H1|]. unfold Pathlib.is_dir. now rewrite Hn, H2.
Qed.
End FsFacts.

Section CreateFacts.
Local Open Scope list_scope.
Implicit Types (fs : gmap (list string) entry) (p cur : list string).

Lemma joinpath_data_json p : Pathlib.joinpath p "data.json" = p ++ ["data.json"].
Proof. reflexivity. Qed.

Lemma joinpath_empty p : Pathlib.joinpath p EmptyString = p.
Proof. unfold Pathlib.joinpath. cbn. apply app_nil_r. Qed.

Lemma has_nul_snoc p name :
  Fs.has_nul (p ++ [name]) = Fs.has_nul p || sexists (fun c => code c =? 0) name.
Proof. unfold Fs.has_nul. rewrite existsb_app. cbn. now rewrite orb_false_r. Qed.

Lemma open_w_ok fs p name f fs' :
  String.eqb name ".." = false ->
  Fs.open_w fs (p ++ [name]) = Ok (f, fs') ->
  exists d, Fs.stat fs p = Fs.Found d Dir
            /\ f = d ++ [name]
            /\ fs !! f <> Some Dir
            /\ fs' = <[f := File EmptyString]> fs.
Proof.
  intros Hn. unfold Fs.open_w.
  destruct (Fs.has_nul (p ++ [name])); [discriminate|].
  destruct (p ++ [name]) eqn:E; [now destruct p|]. rewrite <- E.
  rewrite removelast_last, last_last, Hn. unfold Fs.stat.
  destruct (Fs.walk fs [] p) as [d [|]| |]; try discriminate.
  destruct (fs !! (d ++ [name])) as [[|c]|] eqn:El; try discriminate;
    intros [= <- <-]; exists d; (repeat split; [congruence]).
Qed.

Lemma write_file_ok fs p name f fs' text1 text2 :
  String.eqb name ".." = false ->
  Fs.open_w fs (p ++ [name]) = Ok (f, fs') ->
  Fs.has_nul (p ++ [name]) = false ->
  let fs'' := Fs.write (Fs.write fs' f text1) f text2 in
  Fs.read_text fs'' (p ++ [name]) = Some (text1 +:+ text2)
  /\ dirs_preserved fs fs''.
Proof.
  intros Hn Ho Hnul. destruct (open_w_ok _ _ _ _ _ Hn Ho) as (d & Hs & -> & Hnd & ->).
  assert (d ++ [name] <> []) as Hne by (now destruct d).
  unfold Fs.write. rewrite lookup_insert_eq. rewrite lookup_insert_eq.
  rewrite !insert_insert_eq. cbn [String.append].
  assert (dirs_preserved fs (<[d ++ [name] := File (text1 +:+ text2)]> fs)) as Hdp
    by (now apply dirs_preserved_insert).
  cbv zeta. split; [|exact Hdp].
  unfold Fs.read_text, Fs.stat.
  rewrite (walk_snoc_name _ _ _ d); [|now apply (walk_dirs_preserved fs)|exact Hn].
  now rewrite lookup_insert_eq.
Qed.

(** [create_token_directory] when the target is there already. *)
Lemma create_token_directory_exists mainnet_dir token_data symbol st :
  dict_get token_data "symbol" = Ok (PStr symbol) ->
  Pathlib.exists_ (st_fs st) (Pathlib.joinpath mainnet_dir symbol) = true ->
  create_token_directory mainnet_dir token_data st
  = (Raise (Exn FileExistsError
              ("Token directory already exists: "
               +:+ Fs.str_of_path (Pathlib.joinpath mainnet_dir symbol))), st).
Proof.
  intros Hs He. unfold create_token_directory, bind, lift, get_fs, raise.
  rewrite Hs. cbv beta iota. now rewrite He.
Qed.

(** What a successful [create_token_directory] did. *)
Lemma create_token_directory_ok mainnet_dir token_data token_dir st st' :
  create_token_directory mainnet_dir token_data st = (Ok token_dir, st') ->
  exists symbol,
    dict_get token_data "symbol" = Ok (PStr symbol)
    /\ token_dir = Pathlib.joinpath mainnet_dir symbol
    /\ Pathlib.exists_ (st_fs st) token_dir = false
    /\ Pathlib.is_dir (st_fs st') token_dir = true
    /\ Fs.read_text (st_fs st') (Pathlib.joinpath token_dir "data.json")
       = Some (Json.dumps (PDict token_data) +:+ String Json.newline EmptyString)
    /\ dirs_preserved (st_fs st) (st_fs st')
    /\ st_log st' = st_log st.
Proof.
  unfold create_token_directory, bind, lift, get_fs, put_fs, raise, ret.
  destruct (dict_get token_data "symbol") as [[| | | |symbol| |]|e]; try discriminate.
  cbv beta iota. set (token_dir0 := Pathlib.joinpath mainnet_dir symbol).
  destruct (Pathlib.exists_ (st_fs st) token_dir0) eqn:He; [discriminate|].
  destruct (Pathlib.mkdir (st_fs st) token_dir0 true false) as [fs1|e] eqn:Hm; [|discriminate].
  cbn [st_fs st_log]. rewrite joinpath_data_json.
  destruct (Fs.open_w fs1 (token_dir0 ++ ["data.json"])) as [[f fs2]|e] eqn:Ho; [|discriminate].
  cbn [st_fs st_log]. intros [= <- <-]. cbn [st_fs st_log].
  apply mkdir_ok in Hm as (Hn & Hdp & Hd).
  assert (Fs.has_nul (token_dir0 ++ ["data.json"]) = false) as Hn'
    by (rewrite has_nul_snoc, Hn; reflexivity).
  destruct (write_file_ok fs1 token_dir0 "data.json" f fs2
              (Json.dumps (PDict token_data)) (String Json.newline EmptyString)
              eq_refl Ho Hn') as [Hr Hdp'].
  cbv zeta in Hr, Hdp'.
  exists symbol. repeat split; try assumption; try reflexivity.
  - destruct (is_dir_stat _ _ Hd) as [d Hst]. unfold Pathlib.is_dir. rewrite Hn.
    unfold Fs.stat in *. now rewrite (walk_dirs_preserved _ _ _ _ _ Hdp' Hst).
  - eapply dirs_preserved_trans; eassumption.
Qed.
End CreateFacts.

(** * Properties of the JSON encoder and decoder *)

(** ** Strings and numbers through the decoder *)

#[local] Arguments String.append !s1 s2 : simpl nomatch.

Lemma sapp_assoc (a b c : string) : (a ++ b) ++ c = a ++ (b ++ c).
Proof. induction a; simpl; congruence. Qed.

Lemma sapp_nil_r (a : string) : a ++ EmptyString = a.
Proof. induction a; simpl; congruence. Qed.

Lemma scanstring_escape_char c tail :
  Json.scanstring (Json.escape_char c ++ tail)
  = Json.prepend (String c EmptyString) (Json.scanstring tail).
Proof. destruct c as [[] [] [] [] [] [] [] []]; reflexivity. Qed.

Lemma scanstring_escape s tail :
  Json.scanstring (Json.escape s ++ String Json.dquote tail) = Some (s, tail).
Proof.
  induction s as [|c s IH]; [reflexivity|].
  cbn [Json.escape]. rewrite sapp_assoc, scanstring_escape_char, IH. reflexivity.
Qed.

Lemma skip_ws_nonws c s : Json.is_ws c = false -> Json.skip_ws (String c s) = String c s.
Proof. intros H. simpl. now rewrite H. Qed.

Lemma number_end_inv c s :
  number_end (String c s) = true ->
  is_digit c = false /\ (code c =? 46) = false /\ (code c =? 101) = false /\ (code c =? 69) = false.
Proof.
  unfold number_end. intros H. apply negb_true_iff in H.
  repeat (apply orb_false_iff in H as [H ?]). auto.
Qed.

Lemma scan_frac_end tail : number_end tail = true -> Json.scan_frac tail = (EmptyString, tail).
Proof.
  destruct tail as [|c s]; [reflexivity|]. intros H.
  apply number_end_inv in H as (_ & H & _). unfold Json.scan_frac. now rewrite H.
Qed.

Lemma scan_exp_end tail : number_end tail = true -> Json.scan_exp tail = (EmptyString, tail).
Proof.
  destruct tail as [|c s]; [reflexivity|]. intros H.
  apply number_end_inv in H as (_ & _ & H1 & H2). unfold Json.scan_exp. now rewrite H1, H2.
Qed.

Lemma span_digits_app s tail :
  sforall is_digit s = true ->
  match tail with String c _ => is_digit c = false | EmptyString => True end ->
  Json.span_digits (s ++ tail) = (s, tail).
Proof.
  intros Hs Ht. induction s as [|c s IH]; simpl in *.
  - destruct tail as [|c t]; [reflexivity|]. simpl. now rewrite Ht.
  - apply andb_prop in Hs as [Hc Hs]. now rewrite Hc, (IH Hs).
Qed.

Lemma string_of_uint_digits d : sforall is_digit (NilEmpty.string_of_uint d) = true.
Proof. induction d; simpl; auto. Qed.

(** The decimal digits of a positive number do not start with a zero. *)
Lemma to_uint_head p :
  exists c s, NilEmpty.string_of_uint (Pos.to_uint p) = String c s
              /\ is_digit c = true /\ (code c =? 48) = false.
Proof.
  pose proof (DecimalPos.Unsigned.to_of (Pos.to_uint p)) as H.
  rewrite DecimalPos.Unsigned.of_to in H. simpl in H.
  pose proof (DecimalPos.Unsigned.to_uint_nonnil p) as Hnil.
  destruct (Pos.to_uint p) as [|d|d|d|d|d|d|d|d|d|d] eqn:E; try congruence;
    try (simpl; eexists _, _; repeat split; reflexivity).
  exfalso. unfold unorm in H. rewrite nzhead_D0 in H.
  destruct (nzhead d) eqn:En; try discriminate;
    try (rewrite <- En in H; exact (nzhead_nonzero _ _ (eq_sym H))).
  injection H as ->.
  pose proof (DecimalPos.Unsigned.to_uint_nonzero p) as Hz. rewrite E in Hz. now apply Hz.
Qed.

Lemma parse_number_digits c s tail :
  is_digit c = true -> (code c =? 48) = false -> sforall is_digit s = true ->
  number_end tail = true ->
  Json.scan_integer (String c s ++ tail) = Some (String c s, tail).
Proof.
  intros Hc H0 Hs Ht. unfold Json.scan_integer.
  change (String c s ++ tail) with (String c (s ++ tail)). cbv beta iota. rewrite Hc, H0.
  change (String c (s ++ tail)) with (String c s ++ tail).
  rewrite span_digits_app; [reflexivity| cbn [sforall]; now rewrite Hc |].
  destruct tail as [|c' t]; [exact I|]. now apply number_end_inv in Ht.
Qed.

Lemma of_uint_to_uint p : Z.of_uint (Pos.to_uint p) = Z.pos p.
Proof. unfold Z.of_uint. now rewrite DecimalPos.Unsigned.of_to. Qed.

Lemma parse_number_int_repr z tail :
  number_end tail = true ->
  Json.parse_number (Json.int_repr z ++ tail) = Some (PInt z, tail).
Proof.
  intros Ht. unfold Json.int_repr. destruct z as [|p|p]; cbn [Z.to_int NilZero.string_of_int].
  - unfold Json.parse_number. simpl. now rewrite (scan_frac_end _ Ht), (scan_exp_end _ Ht).
  - pose proof (DecimalPos.Unsigned.to_uint_nonnil p) as Hnil.
    assert (NilZero.string_of_uint (Pos.to_uint p) = NilEmpty.string_of_uint (Pos.to_uint p)) as ->
      by (destruct (Pos.to_uint p); [congruence | reflexivity ..]).
    pose proof (string_of_uint_digits (Pos.to_uint p)) as Hd.
    pose proof (NilEmpty.usu (Pos.to_uint p)) as Hu.
    destruct (to_uint_head p) as (c & s & E & Hc & H0). rewrite E in *.
    simpl in Hd. apply andb_prop in Hd as [_ Hd].
    unfold Json.parse_number.
    assert (Json.scan_sign (String c s ++ tail) = (EmptyString, String c s ++ tail)) as ->.
    { simpl. unfold is_digit in Hc. destruct (code c =? 45) eqn:E45; [|reflexivity]. lia. }
    cbv beta iota. rewrite (parse_number_digits c s tail Hc H0 Hd Ht).
    rewrite (scan_frac_end _ Ht), (scan_exp_end _ Ht). cbv beta iota. simpl is_empty. cbn [andb].
    simpl String.append. unfold NilZero.int_of_string.
    assert (Ascii.eqb c "-" = false) as ->.
    { apply Ascii.eqb_neq. intros ->. discriminate. }
    unfold NilZero.uint_of_string. rewrite Hu. simpl. now rewrite of_uint_to_uint.
  - pose proof (DecimalPos.Unsigned.to_uint_nonnil p) as Hnil.
    assert (NilZero.string_of_uint (Pos.to_uint p) = NilEmpty.string_of_uint (Pos.to_uint p)) as ->
      by (destruct (Pos.to_uint p); [congruence | reflexivity ..]).
    pose proof (string_of_uint_digits (Pos.to_uint p)) as Hd.
    pose proof (NilEmpty.usu (Pos.to_uint p)) as Hu.
    destruct (to_uint_head p) as (c & s & E & Hc & H0). rewrite E in *.
    simpl in Hd. apply andb_prop in Hd as [_ Hd].
    unfold Json.parse_number.
    change (Json.scan_sign (String "-" (String c s) ++ tail)) with ("-", String c s ++ tail).
    cbv beta iota. rewrite (parse_number_digits c s tail Hc H0 Hd Ht).
    rewrite (scan_frac_end _ Ht), (scan_exp_end _ Ht). cbv beta iota. simpl is_empty. cbn [andb].
    simpl String.append. unfold NilZero.int_of_string. cbn [Ascii.eqb Bool.eqb].
    unfold NilZero.uint_of_string. rewrite Hu. simpl. now rewrite of_uint_to_uint.
Qed.

(** ** Flat dictionaries through the decoder *)

Lemma scan_once_flat f v tail :
  flat v = true -> number_end tail = true ->
  Json.scan_once (S f) (Json.iterencode 2 1 v ++ tail) = Some (v, tail).
Proof.
  destruct v as [| | z | | s | |]; try discriminate; intros _ Ht.
  - cbn [Json.iterencode].
    assert (exists c r, Json.int_repr z = String c r
                        /\ (is_digit c = true \/ code c = 45)) as (c & r & E & Hc).
    { unfold Json.int_repr. destruct z as [|p|p]; cbn [Z.to_int NilZero.string_of_int].
      - eexists _, _. split; [reflexivity|]. now left.
      - destruct (to_uint_head p) as (c & s & E & Hc & _).
        pose proof (DecimalPos.Unsigned.to_uint_nonnil p) as Hnil.
        assert (NilZero.string_of_uint (Pos.to_uint p) = NilEmpty.string_of_uint (Pos.to_uint p)) as ->
          by (destruct (Pos.to_uint p); [congruence | reflexivity ..]).
        rewrite E. eauto.
      - eexists _, _. split; [reflexivity|]. now right. }
    pose proof (parse_number_int_repr z tail Ht) as Hp. rewrite E in *.
    change (String c r ++ tail) with (String c (r ++ tail)) in *.
    cbn [Json.scan_once].
    assert (forall n, n = 34 \/ n = 123 \/ n = 91 \/ n = 110 \/ n = 116 \/ n = 102 ->
                      (code c =? n) = false) as Hn.
    { intros n Hn. apply Z.eqb_neq. unfold is_digit in Hc. lia. }
    rewrite !Hn by tauto. exact Hp.
  - cbn [Json.iterencode]. unfold Json.encode_basestring.
    change (String Json.dquote (Json.escape s ++ String Json.dquote "") ++ tail)
      with (String Json.dquote ((Json.escape s ++ String Json.dquote "") ++ tail)).
    rewrite sapp_assoc. change (String Json.dquote "" ++ tail) with (String Json.dquote tail).
    cbn [Json.scan_once]. change (code Json.dquote =? 34) with true. cbv beta iota.
    now rewrite scanstring_escape.
Qed.

Lemma iterencode_flat_head v :
  flat v = true ->
  exists c r, Json.iterencode 2 1 v = String c r /\ Json.is_ws c = false.
Proof.
  destruct v as [| | z | | s | |]; try discriminate; intros _.
  - cbn [Json.iterencode]. unfold Json.int_repr.
    destruct z as [|p|p]; cbn [Z.to_int NilZero.string_of_int].
    + eexists _, _. split; reflexivity.
    + destruct (to_uint_head p) as (c & s & E & Hc & _).
      pose proof (DecimalPos.Unsigned.to_uint_nonnil p) as Hnil.
      assert (NilZero.string_of_uint (Pos.to_uint p) = NilEmpty.string_of_uint (Pos.to_uint p)) as ->
        by (destruct (Pos.to_uint p); [congruence | reflexivity ..]).
      rewrite E. eexists _, _. split; [reflexivity|].
      unfold Json.is_ws, is_digit in *.
      repeat (apply orb_false_iff; split); apply Z.eqb_neq; lia.
    + eexists _, _. split; reflexivity.
  - eexists _, _. split; reflexivity.
Qed.

Lemma skip_ws_flat v tail :
  flat v = true ->
  Json.skip_ws (Json.iterencode 2 1 v ++ tail) = Json.iterencode 2 1 v ++ tail.
Proof.
  intros H. destruct (iterencode_flat_head v H) as (c & r & -> & Hc).
  cbn [String.append]. now apply skip_ws_nonws.
Qed.

Lemma item_eq k v :
  item (k, v) = String Json.dquote (Json.escape k ++ String Json.dquote (": " ++ Json.iterencode 2 1 v)).
Proof.
  unfold item, Json.encode_basestring. cbn [String.append]. now rewrite sapp_assoc.
Qed.

(** Scanning one member, up to what follows its value. *)
Lemma object_members_step f k v tail :
  flat v = true -> number_end tail = true ->
  Json.object_members (S (S f))
    (Json.escape k ++ String Json.dquote (String ":" (String " " (Json.iterencode 2 1 v ++ tail))))
  = match Json.skip_ws tail with
    | String c r3 =>
        if code c =? 125 then Some ([(k, v)], r3)
        else if code c =? 44 then
          match Json.skip_ws r3 with
          | String q r4 =>
              if code q =? 34 then
                match Json.object_members (S f) r4 with
                | Some (pairs, r5) => Some ((k, v) :: pairs, r5)
                | None => None
                end
              else None
          | EmptyString => None
          end
        else None
    | EmptyString => None
    end.
Proof.
  intros Hv Ht. cbn [Json.object_members]. rewrite scanstring_escape.
  change (Json.skip_ws (String ":" ?x)) with (String ":" x).
  cbv beta iota. change (code ":" =? 58) with true. cbv beta iota.
  change (Json.skip_ws (String " " (Json.iterencode 2 1 v ++ tail)))
    with (Json.skip_ws (Json.iterencode 2 1 v ++ tail)).
  rewrite (skip_ws_flat v tail Hv), (scan_once_flat f v tail Hv Ht). reflexivity.
Qed.

Lemma object_members_items d : forall k v f rest,
  flat v = true -> forallb (fun kv => flat (snd kv)) d = true ->
  (length d < f)%nat ->
  exists body,
    String.concat item_sep (map item ((k, v) :: d)) = String Json.dquote body
    /\ Json.object_members (S f) (body ++ String Json.newline (String "}" rest))
       = Some ((k, v) :: d, rest).
Proof.
  induction d as [|[k' v'] d IH]; intros k v f rest Hv Hd Hf.
  - exists (Json.escape k ++ String Json.dquote (": " ++ Json.iterencode 2 1 v)).
    split; [apply item_eq|].
    destruct f as [|f]; [simpl in Hf; lia|].
    rewrite sapp_assoc. cbn [String.append].
    rewrite object_members_step; [reflexivity | exact Hv | reflexivity].
  - cbn [forallb snd] in Hd. apply andb_prop in Hd as [Hv' Hd].
    destruct f as [|f]; [simpl in Hf; lia|].
    destruct (IH k' v' f rest Hv' Hd ltac:(simpl in Hf; lia)) as (body' & Eb & Hb).
    exists (Json.escape k ++ String Json.dquote
              (": " ++ Json.iterencode 2 1 v ++ item_sep ++ String Json.dquote body')).
    split.
    + cbn [map String.concat] in *. rewrite Eb, item_eq. cbn [String.append].
      rewrite sapp_assoc. cbn [String.append]. reflexivity.
    + rewrite sapp_assoc. cbn [String.append]. rewrite !sapp_assoc.
      unfold item_sep at 1. cbn [String.append].
      rewrite object_members_step; [|exact Hv|reflexivity].
      change (Json.skip_ws (String "," ?x)) with (String "," x). cbv beta iota.
      change (code "," =? 125) with false. change (code "," =? 44) with true.
      change (Json.skip_ws (Json.newline_indent 2 1 ++ String Json.dquote ?x))
        with (String Json.dquote x).
      change (code Json.dquote =? 34) with true. cbv beta iota.
      now rewrite Hb.
Qed.

Lemma slength_app (a b : string) :
  String.length (a ++ b) = (String.length a + String.length b)%nat.
Proof. induction a; simpl; congruence. Qed.

Lemma length_concat_items sep l :
  (length l <= String.length (String.concat sep (map item l)))%nat.
Proof.
  induction l as [|[k v] l IH]; [simpl; lia|].
  cbn [map String.concat]. rewrite item_eq.
  destruct (map item l) eqn:E.
  - destruct l; [|discriminate]. simpl. lia.
  - rewrite <- E in *. cbn [String.append String.length]. rewrite !slength_app.
    cbn [length]. lia.
Qed.

Lemma dict_set_fresh d k v :
  ~ In k (map fst d) -> Json.dict_set d k v = (d ++ [(k, v)])%list.
Proof.
  induction d as [|[k' v'] d IH]; intros Hk; [reflexivity|].
  cbn [Json.dict_set]. simpl in Hk.
  destruct (String.eqb_spec k' k) as [->|Hne]; [tauto|].
  rewrite IH by tauto. reflexivity.
Qed.

Lemma dict_of_pairs_nodup d : List.NoDup (map fst d) -> Json.dict_of_pairs d = d.
Proof.
  unfold Json.dict_of_pairs.
  enough (forall acc, List.NoDup (map fst (acc ++ d)%list) ->
            fold_left (fun d0 kv => Json.dict_set d0 (fst kv) (snd kv)) d acc = (acc ++ d)%list)
    as H by (intros Hn; exact (H [] Hn)).
  induction d as [|[k v] d IH]; intros acc Hn; cbn [fold_left fst snd].
  - now rewrite app_nil_r.
  - rewrite dict_set_fresh.
    + rewrite IH; rewrite <- app_assoc; [reflexivity | exact Hn].
    + rewrite map_app in Hn. cbn [map fst] in Hn.
      apply NoDup_remove_2 in Hn. intros Hin. apply Hn, in_or_app. now left.
Qed.

Lemma to_dicts_flat (d : list (string * pyval)) :
  forallb (fun kv => flat (snd kv)) d = true ->
  map (fun kv => (fst kv, Json.to_dicts (snd kv))) d = d.
Proof.
  induction d as [|[k v] d IH]; [reflexivity|]. cbn [forallb snd map fst].
  intros H. apply andb_prop in H as [Hv Hd]. rewrite (IH Hd).
  destruct v; try discriminate; reflexivity.
Qed.

(** [json.loads] undoes [json.dumps] on a dict of strings and integers
    (followed by the newline the program writes). *)
Lemma loads_dumps_flat d :
  forallb (fun kv => flat (snd kv)) d = true ->
  List.NoDup (map fst d) ->
  Json.loads (Json.dumps (PDict d) ++ String Json.newline EmptyString) = Some (PDict d).
Proof.
  intros Hflat Hnd. destruct d as [|[k v] d]; [reflexivity|].
  cbn [forallb snd] in Hflat. apply andb_prop in Hflat as [Hv Hd].
  unfold Json.loads, Json.dumps. cbn [Json.iterencode].
  change (fun kv : string * pyval => let '(k0, v0) := kv in
            Json.encode_basestring k0 ++ ": " ++ Json.iterencode 2 1 v0) with item.
  change ("," ++ Json.newline_indent 2 1) with item_sep.
  pose proof (length_concat_items item_sep ((k, v) :: d)) as Hlen.
  destruct (object_members_items d k v (S (length d)) EmptyString Hv Hd ltac:(lia))
    as (body & Eb & _).
  rewrite Eb in *. cbn [length String.length] in Hlen.
  change (Json.newline_indent 2 1) with (String Json.newline "  ").
  change (Json.newline_indent 2 0) with (String Json.newline "").
  rewrite !sapp_assoc. cbn [String.append].
  set (close := String Json.newline (String "}" (String Json.newline ""))).
  change (Json.skip_ws (String "{" ?x)) with (String "{" x).
  cbn [String.length]. rewrite slength_app.
  destruct (object_members_items d k v (4 + (String.length body + String.length close))
              (String Json.newline EmptyString) Hv Hd) as (body' & Eb' & Hb).
  { subst close. cbn [String.length]. lia. }
  rewrite Eb in Eb'. injection Eb' as <-. fold close in Hb.
  cbn [Json.scan_once]. change (code "{" =? 34) with false. change (code "{" =? 123) with true.
  cbv beta iota.
  change (Json.skip_ws (String Json.newline (String " " (String " " (String Json.dquote ?x)))))
    with (String Json.dquote x).
  cbv beta iota. change (code Json.dquote =? 125) with false. change (code Json.dquote =? 34) with true.
  cbv beta iota.
  cbn [Nat.add] in Hb. rewrite Hb.
  change (is_empty (Json.skip_ws (String Json.newline ""))) with true. cbv beta iota.
  cbn [Json.to_dicts]. rewrite to_dicts_flat, dict_of_pairs_nodup; try assumption; try reflexivity.
  cbn [forallb snd]. now rewrite Hv, Hd.
Qed.

(** * Properties of the runs of the program *)

(** ** Runs of the program *)

Lemma fetch_token_data_eq web3 address st :
  exists new,
    fetch_token_data web3 address st
    = (fetch_result web3 address, State (st_fs st) (st_log st ++ new)%list).
Proof.
  unfold fetch_token_data, fetch_result, bind, try_except, request, lift, ret, raise.
  cbn [st_fs st_log].
  destruct (node_call_string web3 address "name");
    [|rewrite <- ?app_assoc; eexists; reflexivity].
  destruct (node_call_string web3 address "symbol");
    [|rewrite <- ?app_assoc; eexists; reflexivity].
  destruct (node_call_word web3 address "decimals");
    [|rewrite <- ?app_assoc; eexists; reflexivity].
  destruct (decode_uint8 _); rewrite <- ?app_assoc; eexists; reflexivity.
Qed.

Lemma get_mainnet_directory_eq script_file st :
  get_mainnet_directory script_file st
  = (if Pathlib.is_dir (st_fs st) (mainnet_path script_file)
     then Ok (mainnet_path script_file)
     else Raise (Exn FileNotFoundError
                   ("Mainnet directory not found: "
                    ++ Fs.str_of_path (mainnet_path script_file))), st).
Proof.
  unfold get_mainnet_directory, bind, get_fs, raise, ret. fold (mainnet_path script_file).
  now destruct (Pathlib.is_dir _ _).
Qed.

Lemma fetch_result_ok web3 address token_data :
  fetch_result web3 address = Ok token_data ->
  exists name symbol decimals,
    node_call_string web3 address "name" = Ok name
    /\ node_call_string web3 address "symbol" = Ok symbol
    /\ (exists word, node_call_word web3 address "decimals" = Ok word
                     /\ decode_uint8 word = Ok decimals)
    /\ token_data = [("chainId", PInt CHAIN_ID);
                     ("address", PStr address);
                     ("name", PStr name);
                     ("symbol", PStr symbol);
                     ("decimals", PInt decimals)].
Proof.
  unfold fetch_result.
  destruct (node_call_string web3 address "name") as [name|]; [|discriminate].
  destruct (node_call_string web3 address "symbol") as [symbol|]; [|discriminate].
  destruct (node_call_word web3 address "decimals") as [word|]; [|discriminate].
  destruct (decode_uint8 word) as [decimals|] eqn:E; [|discriminate].
  intros [= <-]. exists name, symbol, decimals. repeat split; eauto.
Qed.

Lemma bind_print {A} line (k : unit -> M A) st :
  bind (print line) k st = k tt (State (st_fs st) (st_log st ++ [Stdout line])%list).
Proof. reflexivity. Qed.

Lemma bind_request {A} what (k : unit -> M A) st :
  bind (request what) k st = k tt (State (st_fs st) (st_log st ++ [Request what])%list).
Proof. reflexivity. Qed.

Lemma bind_lift {A B} (r : result A) (k : A -> M B) st :
  bind (lift r) k st = match r with Ok a => k a st | Raise e => (Raise e, st) end.
Proof. unfold bind, lift. now destruct r. Qed.

Lemma bind_ret {A B} (a : A) (k : A -> M B) st : bind (ret a) k st = k a st.
Proof. reflexivity. Qed.

Lemma bind_bind {A B} (m : M A) (k : A -> M B) st :
  bind m k st = match m st with (Ok a, st') => k a st' | (Raise e, st') => (Raise e, st') end.
Proof. reflexivity. Qed.

Ltac run_prints :=
  repeat first [ rewrite bind_print | rewrite bind_request | rewrite bind_ret ];
  cbn [st_fs st_log].

(** How a run of the workflow ends, step by step. *)
Lemma main_workflow_inv script_file web3 address st r st' :
  main_workflow script_file web3 address st = (r, st') ->
  match validate_address address with
  | Raise e => r = Raise e /\ only_printed st st'
  | Ok checksummed =>
      match node_is_connected web3 with
      | Raise e => r = Raise e /\ same_fs st st'
      | Ok false => r = Ok 1 /\ same_fs st st'
      | Ok true =>
          match fetch_result web3 checksummed with
          | Raise e => r = Raise e /\ same_fs st st'
          | Ok token_data =>
              if Pathlib.is_dir (st_fs st) (mainnet_path script_file) then
                exists st1 st2 r1,
                  same_fs st st1
                  /\ create_token_directory (mainnet_path script_file) token_data st1 = (r1, st2)
                  /\ same_fs st2 st'
                  /\ r = match r1 with Ok _ => Ok 0 | Raise e => Raise e end
              else
                (exists msg, r = Raise (Exn FileNotFoundError msg)) /\ same_fs st st'
          end
      end
  end.
Proof.
  unfold main_workflow. run_prints. rewrite bind_lift.
  destruct (validate_address address) as [c|e].
  2:{ intros [= <- <-]. split; [reflexivity|]. split; [reflexivity|].
      eexists. split; reflexivity. }
  run_prints. rewrite bind_lift.
  destruct (node_is_connected web3) as [[|]|e].
  3:{ intros [= <- <-]. split; reflexivity. }
  2:{ cbn [negb]. run_prints. intros [= <- <-]. split; reflexivity. }
  cbn [negb]. run_prints. rewrite bind_bind.
  match goal with |- context [fetch_token_data web3 c ?s] =>
    destruct (fetch_token_data_eq web3 c s) as [new ->] end.
  cbn [st_fs st_log].
  destruct (fetch_result web3 c) as [token_data|e] eqn:Ef.
  2:{ intros [= <- <-]. split; reflexivity. }
  apply fetch_result_ok in Ef as (name & symbol & decimals & _ & _ & _ & ->).
  run_prints. rewrite bind_lift. cbn [dict_get List.find fst snd String.eqb Ascii.eqb Bool.eqb].
  run_prints. rewrite bind_lift. cbn [dict_get List.find fst snd String.eqb Ascii.eqb Bool.eqb].
  run_prints. rewrite bind_lift. cbn [dict_get List.find fst snd String.eqb Ascii.eqb Bool.eqb].
  run_prints. rewrite bind_bind, get_mainnet_directory_eq. cbn [st_fs st_log].
  destruct (Pathlib.is_dir (st_fs st) (mainnet_path script_file)).
  2:{ intros [= <- <-]. split; [eauto|reflexivity]. }
  run_prints. rewrite bind_bind.
  match goal with |- context [create_token_directory _ _ ?s] =>
    set (st1 := s); destruct (create_token_directory (mainnet_path script_file) _ st1) as [r1 st2] eqn:Ec end.
  intros H. exists st1, st2, r1. split; [reflexivity|]. split; [exact Ec|].
  destruct r1 as [token_dir|e].
  - revert H. run_prints. intros [= <- <-]. split; reflexivity.
  - injection H as <- <-. split; reflexivity.
Qed.

Lemma main_handler_eq e st :
  main_handler e st = (Ok 1, State (st_fs st) (st_log st ++ [Stdout (handler_line e)])%list).
Proof. unfold main_handler, handler_line. destruct (exn_cls e); reflexivity. Qed.

Lemma only_printed_refl st : only_printed st st.
Proof.
  split; [reflexivity|]. exists []. split; [now rewrite app_nil_r | reflexivity].
Qed.

Lemma only_printed_trans st1 st2 st3 :
  only_printed st1 st2 -> only_printed st2 st3 -> only_printed st1 st3.
Proof.
  intros [F1 (n1 & L1 & P1)] [F2 (n2 & L2 & P2)]. split; [congruence|].
  exists (n1 ++ n2)%list. split.
  - now rewrite L2, L1, app_assoc.
  - now rewrite forallb_app, P1, P2.
Qed.

Lemma only_printed_line st line :
  only_printed st (State (st_fs st) (st_log st ++ [Stdout line])%list).
Proof. split; [reflexivity|]. eexists. split; reflexivity. Qed.

Lemma only_printed_same_fs st st' : only_printed st st' -> same_fs st st'.
Proof. now intros [H _]. Qed.

(** How a run of [main] ends: an end of input at the prompt escapes as
    [EOFError]; otherwise [main] returns what the workflow returns, or 1
    when the workflow raises. *)
Lemma main_inv script_file web3 args_address stdin st r st' :
  main script_file web3 args_address stdin st = (r, st') ->
  match address_of args_address stdin with
  | None =>
      r = Raise (Exn EOFError "EOF when reading a line") /\ only_printed st st'
  | Some address =>
      if is_empty address then r = Ok 1 /\ only_printed st st'
      else
        exists st0 r0 st1,
          only_printed st st0
          /\ main_workflow script_file web3 address st0 = (r0, st1)
          /\ match r0 with
             | Ok code => r = Ok code /\ st' = st1
             | Raise e =>
                 r = Ok 1
                 /\ st' = State (st_fs st1) (st_log st1 ++ [Stdout (handler_line e)])%list
             end
  end.
Proof.
  unfold main, address_of. rewrite bind_bind.
  destruct (truthy args_address) eqn:Ht; cbn [negb].
  - destruct args_address as [a|]; [|discriminate].
    change (default EmptyString (Some a)) with a. cbn [ret].
    unfold truthy in Ht. apply negb_true_iff in Ht. rewrite Ht.
    unfold try_except.
    destruct (main_workflow script_file web3 a st) as [r0 st1] eqn:Ew.
    intros H. exists st, r0, st1. split; [apply only_printed_refl|]. split; [exact Ew|].
    destruct r0 as [code|e]; cbv beta iota in H.
    + now injection H as <- <-.
    + rewrite main_handler_eq in H. now injection H as <- <-.
  - destruct stdin as [line|]; cbv [input bind print ret raise]; cbn [st_fs st_log].
    + fold (@ret Z). fold (print "Error: No address provided").
      destruct (is_empty (strip line)).
      * intros [= <- <-]. split; [reflexivity|]. split; [reflexivity|].
        eexists [_; _]. cbn [st_log]. split; [now rewrite <- app_assoc | reflexivity].
      * unfold try_except.
        match goal with |- context [main_workflow _ _ _ ?s] =>
          set (st0 := s); destruct (main_workflow script_file web3 (strip line) st0)
            as [r0 st1] eqn:Ew end.
        intros H. exists st0, r0, st1. split; [apply only_printed_line|]. split; [exact Ew|].
        destruct r0 as [code|e]; cbv beta iota in H.
        -- now injection H as <- <-.
        -- rewrite main_handler_eq in H. now injection H as <- <-.
    + intros [= <- <-]. split; [reflexivity|]. apply only_printed_line.
Qed.

(** * The properties of the specification *)

Lemma is_dir_exists fs p : Pathlib.is_dir fs p = true -> Pathlib.exists_ fs p = true.
Proof.
  unfold Pathlib.is_dir, Pathlib.exists_. destruct (Fs.has_nul p); [discriminate|].
  destruct (Fs.stat fs p) as [d [|]| |]; congruence.
Qed.

Lemma is_dir_preserved fs fs' p :
  dirs_preserved fs fs' -> Pathlib.is_dir fs p = true -> Pathlib.is_dir fs' p = true.
Proof.
  intros Hp. unfold Pathlib.is_dir. destruct (Fs.has_nul p); [discriminate|].
  unfold Fs.stat. destruct (Fs.walk fs [] p) as [d [|]| |] eqn:E; try discriminate.
  now rewrite (walk_dirs_preserved _ _ _ _ _ Hp E).
Qed.

Lemma read_text_exists fs p content :
  Fs.has_nul p = false -> Fs.read_text fs p = Some content -> Pathlib.exists_ fs p = true.
Proof.
  intros Hn. unfold Fs.read_text, Pathlib.exists_. rewrite Hn.
  destruct (Fs.stat fs p) as [d [|]| |]; congruence.
Qed.

Lemma dumps_token_record chain_id address name symbol decimals :
  Json.dumps (PDict (token_record chain_id address name symbol decimals))
    ++ String Json.newline EmptyString
  = data_json_text chain_id address name symbol decimals.
Proof.
  unfold data_json_text, Json.dumps, token_record, quoted.
  cbn [Json.iterencode map String.concat]. unfold Json.encode_basestring.
  change (Json.newline_indent 2 1) with (String Json.newline "  ").
  change (Json.newline_indent 2 0) with (String Json.newline "").
  repeat (rewrite !sapp_assoc; cbn [String.append]). reflexivity.
Qed.

(** What a run that returns 0 did. *)
Lemma main_success script_file web3 args_address stdin st st' :
  main script_file web3 args_address stdin st = (Ok 0, st') ->
  exists address checksummed name symbol decimals st1 st2 token_dir,
    address_of args_address stdin = Some address
    /\ validate_address address = Ok checksummed
    /\ node_is_connected web3 = Ok true
    /\ fetch_result web3 checksummed = Ok (token_record CHAIN_ID checksummed name symbol decimals)
    /\ Pathlib.is_dir (st_fs st) (mainnet_path script_file) = true
    /\ same_fs st st1
    /\ create_token_directory (mainnet_path script_file)
         (token_record CHAIN_ID checksummed name symbol decimals) st1 = (Ok token_dir, st2)
    /\ same_fs st2 st'.
Proof.
  intros H. apply main_inv in H.
  destruct (address_of args_address stdin) as [a|] eqn:Ea; [|now destruct H].
  destruct (is_empty a); [now destruct H|].
  destruct H as (st0 & r0 & st1 & Hp & Hw & Hr).
  destruct r0 as [code|e]; [|now destruct Hr]. destruct Hr as [[= <-] ->].
  apply main_workflow_inv in Hw.
  destruct (validate_address a) as [c|e] eqn:Ev; [|now destruct Hw].
  destruct (node_is_connected web3) as [[|]|e] eqn:En; [|now destruct Hw..].
  destruct (fetch_result web3 c) as [td|e] eqn:Ef; [|now destruct Hw].
  rewrite (proj1 Hp) in Hw.
  destruct (Pathlib.is_dir (st_fs st) (mainnet_path script_file)) eqn:Hd;
    [|now destruct Hw as [[msg ?] _]].
  destruct Hw as (sa & sb & r1 & Hsa & Hc & Hsb & Hr).
  destruct r1 as [token_dir|e]; [|discriminate].
  pose proof Ef as Ef'.
  apply fetch_result_ok in Ef as (name & symbol & decimals & _ & _ & _ & ->).
  exists a, c, name, symbol, decimals, sa, sb, token_dir.
  split; [reflexivity|]. split; [exact Ev|]. split; [reflexivity|].
  split; [exact Ef'|]. split; [reflexivity|].
  split; [unfold same_fs in *; rewrite Hsa; apply Hp|].
  split; [exact Hc|exact Hsb].
Qed.

Lemma validate_address_nonempty address checksummed :
  validate_address address = Ok checksummed -> is_empty address = false.
Proof. destruct address; [vm_compute; discriminate | reflexivity]. Qed.

(** After a run that returned 0, the same invocation returns 1, with
    the message of [FileExistsError], and writes nothing. *)
Lemma second_run_fails script_file web3 args_address stdin st_a st_b :
  main script_file web3 args_address stdin st_a = (Ok 0, st_b) ->
  exists st_c log token_dir,
    main script_file web3 args_address stdin st_b = (Ok 1, st_c)
    /\ st_fs st_c = st_fs st_b
    /\ st_log st_c
       = (log ++ [Stdout ("Error: Token directory already exists: "
                          ++ Fs.str_of_path token_dir)])%list.
Proof.
  intros H. apply main_success in H
    as (a & c & name & symbol & decimals & s1 & s2 & token_dir
        & Ea & Ev & En & Ef & Hd & Hs1 & Hc & Hs2).
  apply create_token_directory_ok in Hc
    as (symbol' & Hsym & -> & _ & Hdir & _ & Hdp & _).
  injection Hsym as <-.
  unfold same_fs in *.
  assert (Pathlib.is_dir (st_fs st_b) (mainnet_path script_file) = true) as Hd'.
  { rewrite Hs2. apply (is_dir_preserved (st_fs s1)); [exact Hdp | now rewrite Hs1]. }
  destruct (main script_file web3 args_address stdin st_b) as [r st_c] eqn:E.
  pose proof (main_inv _ _ _ _ _ _ _ E) as Hi. rewrite Ea in Hi.
  rewrite (validate_address_nonempty a c Ev) in Hi.
  destruct Hi as (st0 & r0 & st1 & Hp & Hw & Hr).
  apply main_workflow_inv in Hw. rewrite Ev, En, Ef, (proj1 Hp), Hd' in Hw.
  destruct Hw as (sa & sb & r1 & Hsa & Hc & Hsb & Hr0).
  rewrite (create_token_directory_exists _ _ symbol) in Hc; [|reflexivity|].
  2:{ apply is_dir_exists. unfold same_fs in Hsa. rewrite Hsa, (proj1 Hp), Hs2. exact Hdir. }
  injection Hc as <- <-. subst r0. destruct Hr as [-> ->].
  exists (State (st_fs st1)
            (st_log st1 ++ [Stdout (handler_line
               (Exn FileExistsError
                  ("Token directory already exists: "
                   ++ Fs.str_of_path (Pathlib.joinpath (mainnet_path script_file) symbol))))])%list),
    (st_log st1), (Pathlib.joinpath (mainnet_path script_file) symbol).
  split; [reflexivity|]. split; [|reflexivity].
  cbn [st_fs]. unfold same_fs in *. rewrite Hsb, Hsa. apply Hp.
Qed.

Lemma validate_address_empty : exists e, validate_address EmptyString = Raise e.
Proof. vm_compute. eauto. Qed.

(** How a run that has an address ends: [main] returns 0 or 1, and the
    filesystem is touched by [create_token_directory] only. *)
Lemma main_outcome script_file web3 args_address stdin address st r st' :
  address_of args_address stdin = Some address ->
  main script_file web3 args_address stdin st = (r, st') ->
  (r = Ok 0 \/ r = Ok 1)
  /\ match validate_address address with
     | Raise _ => r = Ok 1 /\ only_printed st st'
     | Ok checksummed =>
         match node_is_connected web3 with
         | Ok true =>
             match fetch_result web3 checksummed with
             | Ok token_data =>
                 if Pathlib.is_dir (st_fs st) (mainnet_path script_file) then
                   exists st1 st2 r1,
                     same_fs st st1
                     /\ create_token_directory (mainnet_path script_file) token_data st1
                        = (r1, st2)
                     /\ same_fs st2 st'
                     /\ r = match r1 with Ok _ => Ok 0 | Raise _ => Ok 1 end
                 else r = Ok 1 /\ same_fs st st'
             | Raise _ => r = Ok 1 /\ same_fs st st'
             end
         | _ => r = Ok 1 /\ same_fs st st'
         end
     end.
Proof.
  intros Ea H. apply main_inv in H. rewrite Ea in H.
  destruct (is_empty address) eqn:Hempty.
  { destruct address; [|discriminate]. destruct validate_address_empty as [e ->].
    destruct H as [-> H]. auto. }
  destruct H as (st0 & r0 & st1 & Hp & Hw & Hr).
  apply main_workflow_inv in Hw. rewrite (proj1 Hp) in Hw.
  assert (forall s, same_fs st0 s -> same_fs st s) as Hfs
    by (unfold same_fs; intros s ->; apply Hp).
  assert (forall e, r0 = Raise e -> same_fs st0 st1 -> r = Ok 1 /\ same_fs st st') as Hraise.
  { intros e -> Hs. destruct Hr as [-> ->]. split; [reflexivity|]. now apply Hfs. }
  destruct (validate_address address) as [c|e].
  2:{ destruct Hw as [-> Hw]. destruct Hr as [-> ->]. split; [now right|]. split; [reflexivity|].
      eapply only_printed_trans; [exact Hp|].
      eapply only_printed_trans; [exact Hw|]. apply only_printed_line. }
  destruct (node_is_connected web3) as [[|]|e].
  3:{ destruct Hw as [E Hw]. destruct (Hraise _ E Hw). auto. }
  2:{ destruct Hw as [-> Hw]. destruct Hr as [-> ->]. split; [now right|].
      split; [reflexivity|]. now apply Hfs. }
  destruct (fetch_result web3 c) as [td|e].
  2:{ destruct Hw as [E Hw]. destruct (Hraise _ E Hw). auto. }
  destruct (Pathlib.is_dir (st_fs st) (mainnet_path script_file)).
  2:{ destruct Hw as [[msg E] Hw]. destruct (Hraise _ E Hw). auto. }
  destruct Hw as (sa & sb & r1 & Hsa & Hc & Hsb & ->).
  destruct r1 as [d|e]; destruct Hr as [-> ->].
  - split; [now left|]. exists sa, sb, (Ok d). auto.
  - split; [now right|]. exists sa, sb, (Raise e). repeat split; auto.
Qed.

(** C1.  When the symbol of the record already names a directory of the
    registry root, [create_token_directory] raises [FileExistsError] and
    leaves the state as it was; and a run that follows a successful run
    of the same invocation returns 1 with that error and leaves the
    filesystem, hence the file of the first run, unchanged. *)
Theorem C1_existing_symbol_is_refused
    (mainnet_dir : list string) (token_data : list (string * pyval))
    (symbol : string) (st : state)
    (script_file : list string) (web3 : Node) (args_address stdin : option string)
    (st_a st_b : state)
    (Hsymbol : dict_get token_data "symbol" = Ok (PStr symbol))
    (Hdir : Pathlib.is_dir (st_fs st) (Pathlib.joinpath mainnet_dir symbol) = true)
    (Hfirst : main script_file web3 args_address stdin st_a = (Ok 0, st_b)) :
  create_token_directory mainnet_dir token_data st
  = (Raise (Exn FileExistsError
              ("Token directory already exists: "
               ++ Fs.str_of_path (Pathlib.joinpath mainnet_dir symbol))), st)
  /\ exists st_c log token_dir,
       main script_file web3 args_address stdin st_b = (Ok 1, st_c)
       /\ st_fs st_c = st_fs st_b
       /\ st_log st_c
          = (log ++ [Stdout ("Error: Token directory already exists: "
                             ++ Fs.str_of_path token_dir)])%list.
Proof.
  split.
  - apply create_token_directory_exists; [exact Hsymbol | now apply is_dir_exists].
  - exact (second_run_fails _ _ _ _ _ _ Hfirst).
Qed.

Lemma C1_witness :
  create_token_directory ["repo"; "mainnet"]
    (token_record 143 example_checksummed "Example Token" "EXT" 18) registered_state
  = (Raise (Exn FileExistsError "Token directory already exists: /repo/mainnet/EXT"),
     registered_state)
  /\ exists st_c log token_dir,
       main example_script example_node (Some example_address) None registered_state
       = (Ok 1, st_c)
       /\ st_fs st_c = st_fs registered_state
       /\ st_log st_c
          = (log ++ [Stdout ("Error: Token directory already exists: "
                             ++ Fs.str_of_path token_dir)])%list.
Proof.
  apply (C1_existing_symbol_is_refused ["repo"; "mainnet"]
           (token_record 143 example_checksummed "Example Token" "EXT" 18) "EXT"
           registered_state example_script example_node (Some example_address) None
           (State example_fs []) registered_state);
    vm_compute; reflexivity.
Defined.

Lemma length_sdrop n s : String.length (sdrop n s) = (String.length s - n)%nat.
Proof.
  revert s. induction n as [|n IH]; intros s; [simpl; lia|].
  destruct s; [reflexivity|]. simpl. apply IH.
Qed.

(** A string of the wrong length, or with a character that is not a hex
    digit after the optional prefix, is no hex address. *)
Lemma malformed_not_hex_address address :
  (String.length address <> 40%nat /\ String.length address <> 42%nat)
  \/ Address.all_hex (Address.remove_0x_prefix address) = false ->
  Address.is_hex_address address = false.
Proof.
  intros H. destruct (Address.is_hex_address address) eqn:E; [exfalso|reflexivity].
  apply is_hex_address_cases in E as [[H40 Hp] | [Hp H40]].
  - unfold Address.remove_0x_prefix in H. rewrite Hp in H.
    pose proof (hex40_length _ H40). unfold Address.hex40 in H40.
    apply andb_prop in H40 as [_ Ha]. destruct H as [[] | H]; congruence.
  - unfold Address.remove_0x_prefix in H. rewrite Hp in H.
    pose proof (hex40_length _ H40) as Hl. rewrite length_sdrop in Hl.
    unfold Address.hex40 in H40. apply andb_prop in H40 as [_ Ha].
    destruct H as [[] | H]; [lia | congruence].
Qed.

Lemma not_hex_address_invalid address :
  Address.is_hex_address address = false ->
  validate_address address
  = Raise (Exn ValueError ("Invalid Ethereum address: " ++ address)).
Proof.
  intros H. rewrite validate_address_eq. unfold is_address_spec. now rewrite H.
Qed.

(** C2, as stated, fails: forty hex digits without the prefix are a valid
    address for [Web3.is_address]; validation returns the checksummed
    address and the run goes on to query the node. *)
Lemma C2_unprefixed_address_is_accepted :
  let address := "52908400098527886e0f7030069857d2e4169ee7" in
  Address.is_0x_prefixed address = false
  /\ validate_address address = Ok "0x52908400098527886E0F7030069857D2E4169EE7"
  /\ In (Request "web3_clientVersion")
        (st_log (snd (main example_script example_node (Some address) None
                        (State example_fs [])))).
Proof. vm_compute. repeat split. auto 10. Qed.

(** C2, amended.  An address that is not forty hex digits, optionally
    preceded by [0x] or [0X], makes [validate_address] raise [ValueError];
    the run returns 1, having printed its messages and sent no request to
    the node, and leaves the filesystem as it was. *)
Theorem C2_malformed_address_is_rejected
    (script_file : list string) (web3 : Node) (args_address stdin : option string)
    (address : string) (st : state) (r : result Z) (st' : state)
    (Haddress : address_of args_address stdin = Some address)
    (Hmalformed : Address.is_hex_address address = false)
    (Hrun : main script_file web3 args_address stdin st = (r, st')) :
  validate_address address
  = Raise (Exn ValueError ("Invalid Ethereum address: " ++ address))
  /\ r = Ok 1
  /\ only_printed st st'.
Proof.
  pose proof (not_hex_address_invalid address Hmalformed) as Hv.
  split; [exact Hv|].
  destruct (main_outcome _ _ _ _ _ _ _ _ Haddress Hrun) as [_ H].
  now rewrite Hv in H.
Qed.

Lemma C2_witness :
  let address := "0x5aaeb6053f3e94c9b9a09f33669435e7ef1beaeg" in
  let st := State example_fs [] in
  let run := main example_script example_node (Some address) None st in
  validate_address address
  = Raise (Exn ValueError ("Invalid Ethereum address: " ++ address))
  /\ fst run = Ok 1
  /\ only_printed st (snd run).
Proof.
  apply (C2_malformed_address_is_rejected example_script example_node
           (Some "0x5aaeb6053f3e94c9b9a09f33669435e7ef1beaeg") None
           "0x5aaeb6053f3e94c9b9a09f33669435e7ef1beaeg" (State example_fs []));
    vm_compute; reflexivity.
Defined.

(** C3.  A run that fails because the address is invalid, the node is
    not connected, a contract call fails or the registry directory is
    missing returns 1 and leaves the filesystem as it was: no directory
    and no file is created. *)
Theorem C3_early_failure_writes_nothing
    (script_file : list string) (web3 : Node) (args_address stdin : option string)
    (address : string) (st : state) (r : result Z) (st' : state)
    (Haddress : address_of args_address stdin = Some address)
    (Hfails : fails_before_write script_file web3 address st)
    (Hrun : main script_file web3 args_address stdin st = (r, st')) :
  r = Ok 1 /\ st_fs st' = st_fs st.
Proof.
  destruct (main_outcome _ _ _ _ _ _ _ _ Haddress Hrun) as [_ H].
  unfold fails_before_write in Hfails.
  destruct (validate_address address) as [c|e].
  2:{ destruct H as [-> H]. split; [reflexivity | apply H]. }
  destruct (node_is_connected web3) as [[|]|e]; try tauto.
  destruct (fetch_result web3 c) as [td|e]; try tauto.
  destruct (Pathlib.is_dir (st_fs st) (mainnet_path script_file)); try tauto.
  destruct Hfails as [Hc | [[e He] | Hd]]; congruence.
Qed.

Lemma C3_witness :
  let st := State example_fs [] in
  let run := main example_script unreachable_node (Some example_address) None st in
  fst run = Ok 1 /\ st_fs (snd run) = example_fs.
Proof.
  apply (C3_early_failure_writes_nothing example_script unreachable_node
           (Some example_address) None example_address (State example_fs [])).
  - reflexivity.
  - vm_compute. left. discriminate.
  - vm_compute. reflexivity.
Defined.

Lemma created_data_json mainnet_dir chain_id address name symbol decimals st token_dir st' :
  create_token_directory mainnet_dir
    (token_record chain_id address name symbol decimals) st = (Ok token_dir, st') ->
  Fs.read_text (st_fs st') (Pathlib.joinpath token_dir "data.json")
  = Some (data_json_text chain_id address name symbol decimals).
Proof.
  intros H. apply create_token_directory_ok in H as (s & _ & _ & _ & _ & Hr & _).
  now rewrite dumps_token_record in Hr.
Qed.

(** C4.  When [create_token_directory] succeeds, [data.json] in the new
    directory holds the record as JSON with two spaces of indentation,
    the fields in the order chainId, address, name, symbol, decimals, and
    one newline after the closing brace. *)
Theorem C4_data_json_layout
    (mainnet_dir : list string) (chain_id : Z) (address name symbol : string)
    (decimals : Z) (st : state) (token_dir : list string) (st' : state)
    (Hcreated : create_token_directory mainnet_dir
                  (token_record chain_id address name symbol decimals) st
                = (Ok token_dir, st')) :
  Fs.read_text (st_fs st') (Pathlib.joinpath token_dir "data.json")
  = Some (data_json_text chain_id address name symbol decimals)
  /\ data_json_text chain_id address name symbol decimals
     = Json.dumps (PDict (token_record chain_id address name symbol decimals))
       ++ String Json.newline EmptyString.
Proof.
  split; [exact (created_data_json _ _ _ _ _ _ _ _ _ Hcreated)|].
  symmetry. apply dumps_token_record.
Qed.

Lemma C4_witness :
  Fs.read_text
    (st_fs (snd (create_token_directory ["repo"; "mainnet"]
                   (token_record 143 example_checksummed "Example Token" "EXT" 18)
                   (State example_fs []))))
    (Pathlib.joinpath ["repo"; "mainnet"; "EXT"] "data.json")
  = Some (data_json_text 143 example_checksummed "Example Token" "EXT" 18)
  /\ data_json_text 143 example_checksummed "Example Token" "EXT" 18
     = Json.dumps (PDict (token_record 143 example_checksummed "Example Token" "EXT" 18))
       ++ String Json.newline EmptyString.
Proof.
  apply (C4_data_json_layout ["repo"; "mainnet"] 143 example_checksummed
           "Example Token" "EXT" 18 (State example_fs [])).
  vm_compute. reflexivity.
Defined.

Lemma token_record_flat chain_id address name symbol decimals :
  forallb (fun kv => flat (snd kv)) (token_record chain_id address name symbol decimals) = true
  /\ List.NoDup (map fst (token_record chain_id address name symbol decimals)).
Proof.
  split; [reflexivity|]. cbn [token_record map fst].
  repeat constructor; cbn [In]; intuition discriminate.
Qed.

(** C5.  The [data.json] a successful [create_token_directory] writes is
    valid JSON: [json.loads] reads it back as an object with exactly the
    five fields, equal to the record that was written. *)
Theorem C5_data_json_round_trip
    (mainnet_dir : list string) (chain_id : Z) (address name symbol : string)
    (decimals : Z) (st : state) (token_dir : list string) (st' : state)
    (Hcreated : create_token_directory mainnet_dir
                  (token_record chain_id address name symbol decimals) st
                = (Ok token_dir, st')) :
  exists content parsed,
    Fs.read_text (st_fs st') (Pathlib.joinpath token_dir "data.json") = Some content
    /\ Json.loads content = Some (PDict parsed)
    /\ map fst parsed = ["chainId"; "address"; "name"; "symbol"; "decimals"]
    /\ parsed = token_record chain_id address name symbol decimals.
Proof.
  apply create_token_directory_ok in Hcreated as (s & _ & _ & _ & _ & Hr & _).
  destruct (token_record_flat chain_id address name symbol decimals) as [Hf Hn].
  eexists _, _. split; [exact Hr|]. split; [now apply loads_dumps_flat|].
  split; reflexivity.
Qed.

Lemma C5_witness :
  exists content parsed,
    Fs.read_text
      (st_fs (snd (create_token_directory ["repo"; "mainnet"]
                     (token_record 143 example_checksummed "Example Token" "EXT" 18)
                     (State example_fs []))))
      (Pathlib.joinpath ["repo"; "mainnet"; "EXT"] "data.json") = Some content
    /\ Json.loads content = Some (PDict parsed)
    /\ map fst parsed = ["chainId"; "address"; "name"; "symbol"; "decimals"]
    /\ parsed = token_record 143 example_checksummed "Example Token" "EXT" 18.
Proof.
  apply (C5_data_json_round_trip ["repo"; "mainnet"] 143 example_checksummed
           "Example Token" "EXT" 18 (State example_fs [])).
  vm_compute. reflexivity.
Defined.

(** C6 fails at the prompt: [input()] is called before the [try]
    statement, so at end of input its [EOFError] leaves [main]
    uncaught, with no message of the program's own and no return code. *)
Theorem C6_end_of_input_escapes_main
    (script_file : list string) (web3 : Node) (st : state) :
  main script_file web3 None None st
  = (Raise (Exn EOFError "EOF when reading a line"),
     State (st_fs st) (st_log st ++ [Stdout "Enter token contract address: "])%list).
Proof. reflexivity. Qed.

(** Every other run returns 0 or 1, and 0 only after the entry was
    created. *)
Lemma main_exit_code script_file web3 args_address stdin address st r st' :
  address_of args_address stdin = Some address ->
  main script_file web3 args_address stdin st = (r, st') ->
  r = Ok 0 \/ r = Ok 1.
Proof. intros Ha Hrun. exact (proj1 (main_outcome _ _ _ _ _ _ _ _ Ha Hrun)). Qed.



Lemma fetch_token_data_ok web3 address st token_data st' :
  fetch_token_data web3 address st = (Ok token_data, st') ->
  fetch_result web3 address = Ok token_data.
Proof.
  destruct (fetch_token_data_eq web3 address st) as [new ->]. now intros [= -> _].
Qed.

Lemma decode_uint8_range word decimals :
  decode_uint8 word = Ok decimals -> 0 <= decimals < 256.
Proof.
  unfold decode_uint8. destruct ((0 <=? word) && (word <? 256)) eqn:E; [|discriminate].
  intros [= <-]. apply andb_prop in E as [H1 H2]. lia.
Qed.

(** C8, as stated, fails: nothing in [fetch_token_data] looks at the
    strings the contract returns; a contract that reports an empty name
    and an empty symbol yields a record with these empty strings. *)
Lemma C8_empty_name_and_symbol :
  fst (fetch_token_data unnamed_node example_checksummed (State example_fs []))
  = Ok (token_record 143 example_checksummed EmptyString EmptyString 0).
Proof. vm_compute. reflexivity. Qed.

(** C8, amended.  The record [fetch_token_data] returns holds the name
    and the symbol exactly as the contract returns them, empty or not,
    and a [decimals] that is an integer from 0 to 255. *)
Theorem C8_fetched_record
    (web3 : Node) (address : string) (st : state)
    (token_data : list (string * pyval)) (st' : state)
    (Hfetched : fetch_token_data web3 address st = (Ok token_data, st')) :
  exists name symbol decimals,
    token_data = token_record CHAIN_ID address name symbol decimals
    /\ node_call_string web3 address "name" = Ok name
    /\ node_call_string web3 address "symbol" = Ok symbol
    /\ 0 <= decimals < 256.
Proof.
  apply fetch_token_data_ok, fetch_result_ok in Hfetched
    as (name & symbol & decimals & Hn & Hs & (word & _ & Hd) & ->).
  exists name, symbol, decimals. repeat split; try assumption;
    apply (decode_uint8_range _ _ Hd).
Qed.

Lemma C8_witness :
  exists name symbol decimals,
    token_record 143 example_checksummed "Example Token" "EXT" 18
    = token_record CHAIN_ID example_checksummed name symbol decimals
    /\ node_call_string example_node example_checksummed "name" = Ok name
    /\ node_call_string example_node example_checksummed "symbol" = Ok symbol
    /\ 0 <= decimals < 256.
Proof.
  apply (C8_fetched_record example_node example_checksummed (State example_fs [])
           (token_record 143 example_checksummed "Example Token" "EXT" 18)
           (snd (fetch_token_data example_node example_checksummed (State example_fs [])))).
  vm_compute. reflexivity.
Defined.

(** C9.  A record assembled by [fetch_token_data] has [chainId] 143 and
    the address it was given, whatever the contract answers; and the
    [data.json] a successful run leaves holds 143 and the checksummed form
    of the address of the run. *)
Theorem C9_chain_id_and_address_fixed
    (web3 : Node) (address : string) (st : state)
    (token_data : list (string * pyval)) (st' : state)
    (script_file : list string) (args_address stdin : option string) (st_a st_b : state)
    (Hfetched : fetch_token_data web3 address st = (Ok token_data, st'))
    (Hrun : main script_file web3 args_address stdin st_a = (Ok 0, st_b)) :
  (dict_get token_data "chainId" = Ok (PInt 143)
   /\ dict_get token_data "address" = Ok (PStr address))
  /\ exists given checksummed name symbol decimals token_dir,
       address_of args_address stdin = Some given
       /\ validate_address given = Ok checksummed
       /\ Fs.read_text (st_fs st_b) (Pathlib.joinpath token_dir "data.json")
          = Some (data_json_text 143 checksummed name symbol decimals).
Proof.
  split.
  - apply fetch_token_data_ok, fetch_result_ok in Hfetched
      as (name & symbol & decimals & _ & _ & _ & ->). split; reflexivity.
  - apply main_success in Hrun
      as (a & c & name & symbol & decimals & s1 & s2 & token_dir
          & Ea & Ev & _ & _ & _ & _ & Hc & Hs2).
    apply created_data_json in Hc.
    exists a, c, name, symbol, decimals, token_dir.
    split; [exact Ea|]. split; [exact Ev|]. unfold same_fs in Hs2. now rewrite Hs2.
Qed.

Lemma C9_witness :
  (dict_get (token_record 143 example_checksummed "Example Token" "EXT" 18) "chainId"
   = Ok (PInt 143)
   /\ dict_get (token_record 143 example_checksummed "Example Token" "EXT" 18) "address"
      = Ok (PStr example_checksummed))
  /\ exists given checksummed name symbol decimals token_dir,
       address_of (Some example_address) None = Some given
       /\ validate_address given = Ok checksummed
       /\ Fs.read_text (st_fs registered_state) (Pathlib.joinpath token_dir "data.json")
          = Some (data_json_text 143 checksummed name symbol decimals).
Proof.
  apply (C9_chain_id_and_address_fixed example_node example_checksummed
           (State example_fs [])
           (token_record 143 example_checksummed "Example Token" "EXT" 18)
           (snd (fetch_token_data example_node example_checksummed (State example_fs [])))
           example_script (Some example_address) None (State example_fs []) registered_state);
    vm_compute; reflexivity.
Defined.

(** C10.  [create_token_directory] refuses the symbol whenever anything
    exists at the path, a plain file as well as a directory; the empty
    symbol joins to the registry root itself, so with the root in place
    the call raises [FileExistsError]; and a run whose contract reports
    an empty symbol returns 1 and writes nothing. *)
Theorem C10_any_entry_blocks_creation
    (mainnet_dir : list string) (token_data unnamed : list (string * pyval))
    (symbol content : string) (st : state)
    (script_file : list string) (web3 : Node) (args_address stdin : option string)
    (address checksummed : string) (st_a : state) (r : result Z) (st_b : state)
    (Hsymbol : dict_get token_data "symbol" = Ok (PStr symbol))
    (Hnul : Fs.has_nul (Pathlib.joinpath mainnet_dir symbol) = false)
    (Hfile : Fs.read_text (st_fs st) (Pathlib.joinpath mainnet_dir symbol) = Some content)
    (Hunnamed : dict_get unnamed "symbol" = Ok (PStr EmptyString))
    (Hroot : Pathlib.exists_ (st_fs st) mainnet_dir = true)
    (Haddress : address_of args_address stdin = Some address)
    (Hvalid : validate_address address = Ok checksummed)
    (Hempty : node_call_string web3 checksummed "symbol" = Ok EmptyString)
    (Hrun : main script_file web3 args_address stdin st_a = (r, st_b)) :
  create_token_directory mainnet_dir token_data st
  = (Raise (Exn FileExistsError
              ("Token directory already exists: "
               ++ Fs.str_of_path (Pathlib.joinpath mainnet_dir symbol))), st)
  /\ (Pathlib.joinpath mainnet_dir EmptyString = mainnet_dir
      /\ create_token_directory mainnet_dir unnamed st
         = (Raise (Exn FileExistsError
                     ("Token directory already exists: " ++ Fs.str_of_path mainnet_dir)),
            st))
  /\ (r = Ok 1 /\ st_fs st_b = st_fs st_a).
Proof.
  split; [|split].
  - apply create_token_directory_exists; [exact Hsymbol|].
    exact (read_text_exists _ _ _ Hnul Hfile).
  - split; [apply joinpath_empty|].
    pose proof (create_token_directory_exists mainnet_dir unnamed EmptyString st Hunnamed) as H.
    rewrite joinpath_empty in H. exact (H Hroot).
  - destruct (main_outcome _ _ _ _ _ _ _ _ Haddress Hrun) as [_ H].
    rewrite Hvalid in H.
    destruct (node_is_connected web3) as [[|]|e]; try exact H.
    destruct (fetch_result web3 checksummed) as [td|e] eqn:Ef; try exact H.
    destruct (Pathlib.is_dir (st_fs st_a) (mainnet_path script_file)) eqn:Hd; try exact H.
    destruct H as (s1 & s2 & r1 & Hs1 & Hc & Hs2 & ->).
    apply fetch_result_ok in Ef as (name & sym & decimals & _ & Hs & _ & ->).
    rewrite Hempty in Hs. injection Hs as <-.
    rewrite (create_token_directory_exists _ _ EmptyString) in Hc; [|reflexivity|].
    2:{ rewrite joinpath_empty. apply is_dir_exists. unfold same_fs in Hs1. now rewrite Hs1. }
    injection Hc as <- <-. split; [reflexivity|]. unfold same_fs in *. congruence.
Qed.

Lemma C10_witness :
  let registry := ["repo"; "mainnet"] in
  let st := State (<[ ["repo"; "mainnet"; "EXT"] := File "not a directory" ]> example_fs) [] in
  let run := main example_script unnamed_node (Some example_address) None st in
  create_token_directory registry
    (token_record 143 example_checksummed "Example Token" "EXT" 18) st
  = (Raise (Exn FileExistsError
              ("Token directory already exists: "
               ++ Fs.str_of_path (Pathlib.joinpath registry "EXT"))), st)
  /\ (Pathlib.joinpath registry EmptyString = registry
      /\ create_token_directory registry
           (token_record 143 example_checksummed EmptyString EmptyString 0) st
         = (Raise (Exn FileExistsError
                     ("Token directory already exists: " ++ Fs.str_of_path registry)),
            st))
  /\ (fst run = Ok 1 /\ st_fs (snd run) = st_fs st).
Proof.
  apply (C10_any_entry_blocks_creation ["repo"; "mainnet"]
           (token_record 143 example_checksummed "Example Token" "EXT" 18)
           (token_record 143 example_checksummed EmptyString EmptyString 0)
           "EXT" "not a directory"
           (State (<[ ["repo"; "mainnet"; "EXT"] := File "not a directory" ]> example_fs) [])
           example_script unnamed_node (Some example_address) None
           example_address example_checksummed
           (State (<[ ["repo"; "mainnet"; "EXT"] := File "not a directory" ]> example_fs) []));
    vm_compute; reflexivity.
Defined.

(** * Further properties of the program *)

(** ** Further properties of [validate_address] *)

(** X1.  The address [validate_address] returns is [0x] followed by
    forty hex digits, the digits of the input up to letter case. *)
Theorem validate_address_shape
    (address checksummed : string)
    (Hvalid : validate_address address = Ok checksummed) :
  exists ds,
    checksummed = "0x" ++ ds
    /\ String.length ds = 40%nat
    /\ Address.all_hex ds = true
    /\ lower ds = lower (Address.remove_0x_prefix address).
Proof.
  rewrite validate_address_eq in Hvalid.
  destruct (is_address_spec address) eqn:E; [|discriminate]. injection Hvalid as <-.
  unfold is_address_spec in E. apply andb_prop in E as [Hhex _].
  pose proof (hex40_digits address Hhex) as H40.
  destruct (checksum_encode_eq _ H40) as [flags Ef].
  exists (recase flags (digits address)). split; [exact Ef|].
  rewrite length_recase, all_hex_recase, lower_recase.
  unfold Address.hex40 in H40. apply andb_prop in H40 as [Hl Ha].
  split; [now apply Nat.eqb_eq|]. split; [exact Ha|]. apply digits_lower.
Qed.

Lemma validate_address_shape_witness :
  exists ds,
    example_checksummed = "0x" ++ ds
    /\ String.length ds = 40%nat
    /\ Address.all_hex ds = true
    /\ lower ds = lower (Address.remove_0x_prefix example_address).
Proof.
  apply (validate_address_shape example_address example_checksummed).
  vm_compute. reflexivity.
Defined.

(** X2.  [validate_address] either returns an address or raises
    [ValueError] with the message naming the input: the calls between
    [is_address] and [to_checksum_address] never run out of depth and the
    normalisation inside [to_checksum_address] never fails on an address
    [is_address] accepted. *)
Theorem validate_address_total (address : string) :
  (exists checksummed, validate_address address = Ok checksummed)
  \/ validate_address address
     = Raise (Exn ValueError ("Invalid Ethereum address: " ++ address)).
Proof.
  rewrite validate_address_eq. destruct (is_address_spec address); eauto.
Qed.






(** ** The requests of a run *)

Lemma requests_of_app l1 l2 : requests_of (l1 ++ l2)%list = (requests_of l1 ++ requests_of l2)%list.
Proof. unfold requests_of. apply flat_map_app. Qed.

Lemma requests_of_printed new : forallb is_stdout new = true -> requests_of new = [].
Proof.
  induction new as [|[l|w] new IH]; cbn; [reflexivity | exact IH | discriminate].
Qed.

Lemma only_printed_requests st st' :
  only_printed st st' -> requests_of (st_log st') = requests_of (st_log st).
Proof.
  intros [_ (new & -> & Hp)]. rewrite requests_of_app, (requests_of_printed _ Hp).
  apply app_nil_r.
Qed.

Lemma fetch_token_data_run web3 address st :
  fetch_token_data web3 address st
  = (fetch_result web3 address,
     State (st_fs st) (st_log st ++ map Request (fetch_request_names web3 address))%list).
Proof.
  unfold fetch_token_data, fetch_result, fetch_request_names, bind, try_except,
    request, lift, ret, raise.
  cbn [st_fs st_log].
  destruct (node_call_string web3 address "name"); [|reflexivity].
  destruct (node_call_string web3 address "symbol");
    [|cbn [map]; rewrite <- ?app_assoc; reflexivity].
  destruct (node_call_word web3 address "decimals");
    [|cbn [map]; rewrite <- ?app_assoc; reflexivity].
  destruct (decode_uint8 _); cbn [map]; rewrite <- ?app_assoc; reflexivity.
Qed.

Lemma requests_of_requests names : requests_of (map Request names) = names.
Proof.
  unfold requests_of. induction names as [|n names IH]; cbn; [reflexivity|].
  now rewrite IH.
Qed.

(** [create_token_directory] prints nothing and sends nothing. *)
Lemma create_token_directory_log mainnet_dir token_data st r st' :
  create_token_directory mainnet_dir token_data st = (r, st') -> st_log st' = st_log st.
Proof.
  unfold create_token_directory, bind, lift, get_fs, put_fs, raise, ret.
  destruct (dict_get token_data "symbol") as [[| | | |symbol| |]|e];
    try (now intros [= <- <-]).
  cbv beta iota.
  destruct (Pathlib.exists_ _ _); [now intros [= <- <-]|].
  destruct (Pathlib.mkdir _ _ _ _); [|now intros [= <- <-]].
  cbn [st_fs st_log].
  destruct (Fs.open_w _ _) as [[f fs2]|e]; now intros [= <- <-].
Qed.

Ltac solve_requests :=
  cbn [st_log];
  rewrite ?requests_of_app, ?requests_of_requests;
  repeat change (requests_of [Stdout ?x]) with (@nil string);
  repeat change (requests_of [Request ?x]) with [x];
  cbn [app]; rewrite ?app_nil_r, <- ?app_assoc; cbn [app]; reflexivity.

Lemma main_workflow_requests script_file web3 address st r st' :
  main_workflow script_file web3 address st = (r, st') ->
  requests_of (st_log st')
  = (requests_of (st_log st) ++ workflow_requests web3 address)%list.
Proof.
  unfold main_workflow, workflow_requests. run_prints. rewrite bind_lift.
  destruct (validate_address address) as [c|e].
  2:{ intros [= <- <-]. solve_requests. }
  run_prints. rewrite bind_lift.
  destruct (node_is_connected web3) as [[|]|e].
  3:{ intros [= <- <-]. solve_requests. }
  2:{ cbn [negb]. run_prints. intros [= <- <-]. solve_requests. }
  cbn [negb]. run_prints. rewrite bind_bind, fetch_token_data_run.
  set (names := fetch_request_names web3 c). clearbody names. cbn [st_fs st_log].
  destruct (fetch_result web3 c) as [token_data|e] eqn:Ef.
  2:{ intros [= <- <-]. solve_requests. }
  apply fetch_result_ok in Ef as (name & symbol & decimals & _ & _ & _ & ->).
  run_prints. rewrite bind_lift. cbn [dict_get List.find fst snd String.eqb Ascii.eqb Bool.eqb].
  run_prints. rewrite bind_lift. cbn [dict_get List.find fst snd String.eqb Ascii.eqb Bool.eqb].
  run_prints. rewrite bind_lift. cbn [dict_get List.find fst snd String.eqb Ascii.eqb Bool.eqb].
  run_prints. rewrite bind_bind, get_mainnet_directory_eq. cbn [st_fs st_log].
  destruct (Pathlib.is_dir (st_fs st) (mainnet_path script_file)).
  2:{ intros [= <- <-]. solve_requests. }
  run_prints. rewrite bind_bind.
  match goal with |- context [create_token_directory _ _ ?s] =>
    set (st1 := s);
    destruct (create_token_directory (mainnet_path script_file) _ st1) as [r1 st2] eqn:Ec end.
  apply create_token_directory_log in Ec. subst st1. cbn [st_log] in Ec.
  destruct r1 as [token_dir|e].
  - run_prints. intros [= <- <-]. cbn [st_log]. rewrite Ec. solve_requests.
  - intros [= <- <-]. rewrite Ec. solve_requests.
Qed.

Lemma main_requests script_file web3 args_address stdin address st r st' :
  address_of args_address stdin = Some address ->
  main script_file web3 args_address stdin st = (r, st') ->
  requests_of (st_log st')
  = (requests_of (st_log st)
     ++ (if is_empty address then [] else workflow_requests web3 address))%list.
Proof.
  intros Ea H. apply main_inv in H. rewrite Ea in H.
  destruct (is_empty address).
  - destruct H as [_ H]. rewrite (only_printed_requests _ _ H). now rewrite app_nil_r.
  - destruct H as (st0 & r0 & st1 & Hp & Hw & Hr).
    apply main_workflow_requests in Hw. rewrite (only_printed_requests _ _ Hp) in Hw.
    destruct r0 as [code|e]; destruct Hr as [_ ->]; [exact Hw|].
    cbn [st_log]. rewrite requests_of_app, Hw.
    change (requests_of [Stdout ?x]) with (@nil string). now rewrite app_nil_r.
Qed.





(** X7.  When the node does not pass the liveness check, the run
    returns 1 having sent that one request: no contract call is made and
    the filesystem is as it was. *)
Theorem no_contract_call_without_connection
    (script_file : list string) (web3 : Node) (args_address stdin : option string)
    (address checksummed : string) (st : state) (r : result Z) (st' : state)
    (Haddress : address_of args_address stdin = Some address)
    (Hvalid : validate_address address = Ok checksummed)
    (Hdown : node_is_connected web3 <> Ok true)
    (Hrun : main script_file web3 args_address stdin st = (r, st')) :
  r = Ok 1
  /\ st_fs st' = st_fs st
  /\ requests_of (st_log st') = (requests_of (st_log st) ++ ["web3_clientVersion"])%list.
Proof.
  destruct (main_outcome _ _ _ _ _ _ _ _ Haddress Hrun) as [_ H].
  rewrite (main_requests _ _ _ _ _ _ _ _ Haddress Hrun), (validate_address_nonempty _ _ Hvalid).
  unfold workflow_requests. rewrite Hvalid in *.
  destruct (node_is_connected web3) as [[|]|e]; [congruence | ..];
    destruct H as [-> H]; repeat split; exact H.
Qed.

Lemma no_contract_call_without_connection_witness :
  let run := main example_script unreachable_node (Some example_address) None
               (State example_fs []) in
  fst run = Ok 1
  /\ st_fs (snd run) = example_fs
  /\ requests_of (st_log (snd run)) = (requests_of [] ++ ["web3_clientVersion"])%list.
Proof.
  apply (no_contract_call_without_connection example_script unreachable_node
           (Some example_address) None example_address example_checksummed
           (State example_fs [])).
  - reflexivity.
  - vm_compute. reflexivity.
  - vm_compute. discriminate.
  - vm_compute. reflexivity.
Defined.



(** X9.  A failing contract call always ends the run with the message of
    the catch-all clause: whatever the class of the error the call
    raised, even [ValueError], [fetch_token_data] re-raises it as plain
    [Exception], so the last line printed begins with Unexpected error
    and the run returns 1. *)
Theorem fetch_failure_is_reported_as_unexpected
    (script_file : list string) (web3 : Node) (args_address stdin : option string)
    (address checksummed : string) (err : exn)
    (st : state) (r : result Z) (st' : state)
    (Haddress : address_of args_address stdin = Some address)
    (Hvalid : validate_address address = Ok checksummed)
    (Hup : node_is_connected web3 = Ok true)
    (Hfails : fetch_result web3 checksummed = Raise err)
    (Hrun : main script_file web3 args_address stdin st = (r, st')) :
  r = Ok 1
  /\ exists log cause,
       st_log st'
       = (log ++ [Stdout ("Unexpected error: Failed to fetch token data: "
                          ++ exn_msg cause)])%list.
Proof.
  apply main_inv in Hrun. rewrite Haddress, (validate_address_nonempty _ _ Hvalid) in Hrun.
  destruct Hrun as (st0 & r0 & st1 & Hp & Hw & Hr).
  apply main_workflow_inv in Hw. rewrite Hvalid, Hup, Hfails in Hw. destruct Hw as [-> _].
  destruct Hr as [-> ->]. split; [reflexivity|].
  assert (exists cause, err = fetch_error cause) as [cause ->].
  { unfold fetch_result in Hfails.
    destruct (node_call_string web3 checksummed "name"); [|injection Hfails as <-; eauto].
    destruct (node_call_string web3 checksummed "symbol"); [|injection Hfails as <-; eauto].
    destruct (node_call_word web3 checksummed "decimals"); [|injection Hfails as <-; eauto].
    destruct (decode_uint8 _); [discriminate | injection Hfails as <-; eauto]. }
  exists (st_log st1), cause. reflexivity.
Qed.

Lemma fetch_failure_is_reported_as_unexpected_witness :
  let web3 := {| node_is_connected := Ok true;
                 node_call_string := fun _ _ => Raise (Exn ValueError "execution reverted");
                 node_call_word := fun _ _ => Ok 18 |} in
  let run := main example_script web3 (Some example_address) None (State example_fs []) in
  fst run = Ok 1
  /\ exists log cause,
       st_log (snd run)
       = (log ++ [Stdout ("Unexpected error: Failed to fetch token data: "
                          ++ exn_msg cause)])%list.
Proof.
  apply (fetch_failure_is_reported_as_unexpected example_script
           {| node_is_connected := Ok true;
              node_call_string := fun _ _ => Raise (Exn ValueError "execution reverted");
              node_call_word := fun _ _ => Ok 18 |}
           (Some example_address) None example_address example_checksummed
           (fetch_error (Exn ValueError "execution reverted")) (State example_fs []));
    vm_compute; reflexivity.
Defined.

(** X10.  A run on a non-empty address that [Web3.is_address] rejects
    ends with the line Error: Invalid Ethereum address: followed by the
    address as it was given. *)
Theorem invalid_address_message
    (script_file : list string) (web3 : Node) (args_address stdin : option string)
    (address : string) (err : exn) (st : state) (r : result Z) (st' : state)
    (Haddress : address_of args_address stdin = Some address)
    (Hnonempty : is_empty address = false)
    (Hinvalid : validate_address address = Raise err)
    (Hrun : main script_file web3 args_address stdin st = (r, st')) :
  r = Ok 1
  /\ exists log,
       st_log st' = (log ++ [Stdout ("Error: Invalid Ethereum address: " ++ address)])%list.
Proof.
  apply main_inv in Hrun. rewrite Haddress, Hnonempty in Hrun.
  destruct Hrun as (st0 & r0 & st1 & Hp & Hw & Hr).
  apply main_workflow_inv in Hw. rewrite Hinvalid in Hw. destruct Hw as [-> _].
  destruct Hr as [-> ->]. split; [reflexivity|].
  rewrite validate_address_eq in Hinvalid.
  destruct (is_address_spec address); [discriminate|]. injection Hinvalid as <-.
  exists (st_log st1). reflexivity.
Qed.

Lemma invalid_address_message_witness :
  let run := main example_script example_node (Some "0x123") None (State example_fs []) in
  fst run = Ok 1
  /\ exists log,
       st_log (snd run) = (log ++ [Stdout ("Error: Invalid Ethereum address: " ++ "0x123")])%list.
Proof.
  apply (invalid_address_message example_script example_node (Some "0x123") None
           "0x123" (Exn ValueError "Invalid Ethereum address: 0x123") (State example_fs []));
    vm_compute; reflexivity.
Defined.

(** X11.  With no usable argument (absent or empty) and a line of white
    space only at the prompt, the run prints the prompt and the line
    Error: No address provided, returns 1, and does nothing else. *)
Theorem blank_line_at_the_prompt
    (script_file : list string) (web3 : Node) (args_address : option string)
    (line : string) (st : state)
    (Hnoarg : truthy args_address = false)
    (Hblank : strip line = EmptyString) :
  main script_file web3 args_address (Some line) st
  = (Ok 1,
     State (st_fs st)
       (st_log st ++ [Stdout "Enter token contract address: ";
                      Stdout "Error: No address provided"])%list).
Proof.
  unfold main. rewrite Hnoarg. cbv [negb input bind print ret]. cbn [st_fs st_log].
  rewrite Hblank. cbn [is_empty st_fs st_log]. now rewrite <- app_assoc.
Qed.

Lemma blank_line_at_the_prompt_witness :
  main example_script example_node (Some EmptyString) (Some "  ") (State example_fs [])
  = (Ok 1,
     State example_fs
       ([] ++ [Stdout "Enter token contract address: ";
               Stdout "Error: No address provided"])%list).
Proof.
  apply (blank_line_at_the_prompt example_script example_node (Some EmptyString) "  "
           (State example_fs [])); vm_compute; reflexivity.
Defined.

(** X12.  The line read at the prompt is stripped and then treated as
    the argument would be: apart from the prompt it prints first, such a
    run is the run on the stripped line given as argument. *)
Theorem prompt_line_is_stripped
    (script_file : list string) (web3 : Node) (args_address stdin' : option string)
    (line : string) (st : state)
    (Hnoarg : truthy args_address = false)
    (Hgiven : is_empty (strip line) = false) :
  main script_file web3 args_address (Some line) st
  = main script_file web3 (Some (strip line)) stdin'
      (State (st_fs st) (st_log st ++ [Stdout "Enter token contract address: "])%list).
Proof.
  unfold main. rewrite Hnoarg. unfold truthy. rewrite Hgiven.
  cbv [negb input bind print ret]. cbn [st_fs st_log].
  change (default EmptyString (Some (strip line))) with (strip line).
  rewrite Hgiven. reflexivity.
Qed.

Lemma prompt_line_is_stripped_witness :
  main example_script example_node None (Some "  0x123 ") (State example_fs [])
  = main example_script example_node (Some (strip "  0x123 ")) None
      (State example_fs ([] ++ [Stdout "Enter token contract address: "])%list).
Proof.
  apply (prompt_line_is_stripped example_script example_node None None "  0x123 "
           (State example_fs [])); vm_compute; reflexivity.
Defined.

(** ** Further properties of [create_token_directory] *)

Section CreateEffects.
Local Open Scope list_scope.
Implicit Types (fs : gmap (list string) entry) (p : list string).



Lemma os_mkdir_raises fs parent name :
  Fs.has_nul (parent ++ [name]) = false ->
  Fs.os_mkdir fs (parent ++ [name])
  = match Fs.stat fs parent with
    | Fs.Found d Dir =>
        if String.eqb name ".." then
          Raise (Fs.os_error FileExistsError "[Errno 17] File exists" (parent ++ [name]))
        else
          match fs !! (d ++ [name]) with
          | Some _ =>
              Raise (Fs.os_error FileExistsError "[Errno 17] File exists" (parent ++ [name]))
          | None => Ok (<[d ++ [name] := Dir]> fs)
          end
    | Fs.Found _ (File _) | Fs.ENOTDIR =>
        Raise (Fs.os_error NotADirectoryError "[Errno 20] Not a directory" (parent ++ [name]))
    | Fs.ENOENT =>
        Raise (Fs.os_error FileNotFoundError "[Errno 2] No such file or directory"
                 (parent ++ [name]))
    end.
Proof.
  intros Hnul. unfold Fs.os_mkdir, Fs.stat. rewrite Hnul.
  destruct (parent ++ [name]) as [|c p'] eqn:Ep; [now destruct parent|]. rewrite <- Ep.
  rewrite removelast_last, last_last. reflexivity.
Qed.




Lemma snoc_ne_snoc2 (d : list string) (a b : string) : d ++ [a] <> (d ++ [a]) ++ [b].
Proof.
  intros E. apply (f_equal (@length string)) in E. rewrite !length_app in E. cbn in E. lia.
Qed.

Lemma snoc2_ne_snoc (d : list string) (a b : string) : (d ++ [a]) ++ [b] <> d ++ [a].
Proof. intros E. symmetry in E. now apply snoc_ne_snoc2 in E. Qed.

Ltac length_ne :=
  let E := fresh "E" in
  intros E; apply (f_equal (@length string)) in E; rewrite ?length_app in E; cbn in E; lia.


Lemma walk_file_app fs cur a c rest d content :
  Fs.walk fs cur a = Fs.Found d (File content) ->
  Fs.walk fs cur (a ++ c :: rest) = Fs.ENOTDIR.
Proof.
  revert cur. induction a as [|x a IH]; intros cur; simpl.
  - destruct (Fs.lookup_entry fs cur) as [e|] eqn:E; [|discriminate].
    now intros [= _ ->].
  - destruct (Fs.lookup_entry fs cur) as [[]|] eqn:E; try discriminate. apply IH.
Qed.


(** When [create_token_directory] fails in [mkdir]. *)
Lemma create_token_directory_mkdir_raises mainnet_dir token_data symbol st e :
  dict_get token_data "symbol" = Ok (PStr symbol) ->
  Pathlib.exists_ (st_fs st) (Pathlib.joinpath mainnet_dir symbol) = false ->
  Pathlib.mkdir (st_fs st) (Pathlib.joinpath mainnet_dir symbol) true false = Raise e ->
  create_token_directory mainnet_dir token_data st = (Raise e, st).
Proof.
  intros Hsymbol Hex Hmk.
  unfold create_token_directory, bind, lift, get_fs, put_fs, raise, ret.
  rewrite Hsymbol. cbv beta iota zeta. now rewrite Hex, Hmk.
Qed.





(** X14.  A symbol that begins with a slash is an absolute path: the
    registry root that was passed plays no part in where the entry is
    created. *)
Theorem absolute_symbol_ignores_the_registry
    (mainnet_dir other_dir : list string) (token_data : list (string * pyval))
    (symbol : string) (st : state)
    (Hsymbol : dict_get token_data "symbol" = Ok (PStr symbol))
    (Habsolute : startswith "/" symbol = true) :
  create_token_directory mainnet_dir token_data st
  = create_token_directory other_dir token_data st
  /\ Pathlib.joinpath mainnet_dir symbol = Pathlib.parse_parts symbol.
Proof.
  unfold create_token_directory, bind, lift. rewrite Hsymbol. cbv beta iota.
  unfold Pathlib.joinpath. rewrite Habsolute. split; reflexivity.
Qed.

Lemma absolute_symbol_ignores_the_registry_witness :
  let record := token_record 143 example_checksummed "Example Token" "/tmp/EXT" 18 in
  create_token_directory ["repo"; "mainnet"] record (State example_fs [])
  = create_token_directory ["elsewhere"] record (State example_fs [])
  /\ Pathlib.joinpath ["repo"; "mainnet"] "/tmp/EXT" = Pathlib.parse_parts "/tmp/EXT".
Proof.
  apply (absolute_symbol_ignores_the_registry ["repo"; "mainnet"] ["elsewhere"]
           (token_record 143 example_checksummed "Example Token" "/tmp/EXT" 18) "/tmp/EXT"
           (State example_fs [])); vm_compute; reflexivity.
Defined.

(** X15.  A record without a ["symbol"] key makes
    [create_token_directory] raise [KeyError], and one whose symbol is not
    a string raises [TypeError]; in both cases nothing is created. *)
Theorem create_needs_a_string_symbol
    (mainnet_dir : list string) (token_data : list (string * pyval)) (st : state)
    (Hnostring : forall symbol, dict_get token_data "symbol" <> Ok (PStr symbol)) :
  exists err,
    create_token_directory mainnet_dir token_data st = (Raise err, st)
    /\ ((exn_cls err = KeyError
         /\ List.find (fun kv => String.eqb (fst kv) "symbol") token_data = None)
        \/ (exn_cls err = TypeError
            /\ exists v, dict_get token_data "symbol" = Ok v)).
Proof.
  unfold create_token_directory, bind, lift, raise.
  unfold dict_get in *.
  destruct (List.find (fun kv => String.eqb (fst kv) "symbol") token_data) as [[k v]|].
  - destruct v; try (eexists; split; [reflexivity|]; right; split; [reflexivity|]; eauto).
    now destruct (Hnostring s).
  - eexists. split; [reflexivity|]. left. split; reflexivity.
Qed.

Lemma create_needs_a_string_symbol_witness :
  exists err,
    create_token_directory ["repo"; "mainnet"] [("name", PStr "Example Token")]
      (State example_fs [])
    = (Raise err, State example_fs [])
    /\ ((exn_cls err = KeyError
         /\ List.find (fun kv => String.eqb (fst kv) "symbol")
              [("name", PStr "Example Token")] = None)
        \/ (exn_cls err = TypeError
            /\ exists v, dict_get [("name", PStr "Example Token")] "symbol" = Ok v)).
Proof.
  apply (create_needs_a_string_symbol ["repo"; "mainnet"] [("name", PStr "Example Token")]
           (State example_fs [])).
  intros symbol. vm_compute. discriminate.
Defined.


(** *** What a successful call leaves of the filesystem *)

Lemma well_formed_lookup fs :
  well_formed fs <->
  forall p e, fs !! p = Some e -> Fs.lookup_entry fs (removelast p) = Some Dir.
Proof.
  unfold well_formed. rewrite map_Forall_lookup. split; intros H p e Hp.
  - specialize (H p e Hp). cbv beta in H.
    destruct (Fs.lookup_entry fs (removelast p)) as [[|c]|]; try discriminate. reflexivity.
  - cbv beta. now rewrite (H p e Hp).
Qed.

Lemma well_formed_child_none fs k x :
  well_formed fs -> k <> [] -> fs !! k = None -> fs !! (k ++ [x]) = None.
Proof.
  intros Hwf Hk Hn. destruct (fs !! (k ++ [x])) as [e|] eqn:E; [|reflexivity].
  apply (proj1 (well_formed_lookup fs) Hwf) in E. rewrite removelast_last in E.
  destruct k; [congruence|]. simpl in E. congruence.
Qed.

Lemma removelast_ne (k : list string) : k <> [] -> removelast k <> k.
Proof.
  intros Hk E. rewrite (app_removelast_last EmptyString Hk) in E at 2.
  apply (f_equal (@length string)) in E. rewrite length_app in E. cbn in E. lia.
Qed.

Lemma well_formed_insert fs k e :
  well_formed fs -> k <> [] -> fs !! k = None ->
  Fs.lookup_entry fs (removelast k) = Some Dir ->
  well_formed (<[k := e]> fs).
Proof.
  intros Hwf Hk Hn Hparent. apply well_formed_lookup. intros p x Hp.
  destruct (decide (k = p)) as [<- | Hne].
  - rewrite lookup_entry_insert_ne; [exact Hparent | now apply not_eq_sym, removelast_ne].
  - rewrite lookup_insert_ne in Hp by exact Hne.
    apply (proj1 (well_formed_lookup fs) Hwf) in Hp.
    rewrite lookup_entry_insert_ne; [exact Hp|].
    intros ->. destruct (removelast p); [congruence|]. simpl in Hp. congruence.
Qed.

Lemma extended_by_dirs_refl fs : extended_by_dirs fs fs.
Proof. split; [auto | congruence]. Qed.

Lemma extended_by_dirs_trans fs1 fs2 fs3 :
  extended_by_dirs fs1 fs2 -> extended_by_dirs fs2 fs3 -> extended_by_dirs fs1 fs3.
Proof.
  intros [S12 N12] [S23 N23]. split; [auto|].
  intros p e Hn H3. destruct (fs2 !! p) as [e2|] eqn:E2.
  - pose proof (N12 _ _ Hn E2) as ->. apply S23 in E2. congruence.
  - now apply (N23 p).
Qed.

Lemma extended_by_dirs_insert fs k :
  fs !! k = None -> extended_by_dirs fs (<[k := Dir]> fs).
Proof.
  intros Hn. split; intros p e.
  - intros Hp. rewrite lookup_insert_ne; [exact Hp | congruence].
  - intros Hp. destruct (decide (k = p)) as [<- | Hne].
    + rewrite lookup_insert_eq. congruence.
    + rewrite lookup_insert_ne by exact Hne. congruence.
Qed.

(** What a successful [os.mkdir] changed. *)
Lemma os_mkdir_inv fs p fs' :
  Fs.os_mkdir fs p = Ok fs' ->
  exists k,
    k <> [] /\ fs !! k = None /\ Fs.lookup_entry fs (removelast k) = Some Dir
    /\ fs' = <[k := Dir]> fs /\ Fs.stat fs' p = Fs.Found k Dir.
Proof.
  intros H. pose proof H as H0. unfold Fs.os_mkdir in H.
  destruct (Fs.has_nul p) eqn:Hn; [discriminate|].
  destruct p as [|c p'] eqn:Ep; [discriminate|]. rewrite <- Ep in *.
  assert (p <> []) as Hne by (rewrite Ep; discriminate).
  destruct (Fs.walk fs [] (removelast p)) as [d [|]| |] eqn:Hw; try discriminate.
  pose proof (app_removelast_last EmptyString Hne) as Esplit.
  set (name := List.last p EmptyString) in *. clearbody name.
  cbv zeta in H.
  destruct (String.eqb name "..") eqn:Hdd; [discriminate|].
  destruct (fs !! (d ++ [name])) eqn:Hl; [discriminate|].
  injection H as <-. exists (d ++ [name]).
  split; [now destruct d|]. split; [exact Hl|].
  split; [rewrite removelast_last; exact (walk_found_lookup _ _ _ _ _ Hw)|].
  split; [reflexivity|].
  destruct (os_mkdir_ok _ _ _ H0) as (_ & Hdp & _).
  unfold Fs.stat. rewrite Esplit.
  rewrite (walk_snoc_name _ _ _ d (walk_dirs_preserved _ _ _ _ _ Hdp Hw) Hdd).
  now rewrite lookup_insert_eq.
Qed.

Lemma os_mkdir_grows fs p fs' :
  well_formed fs -> Fs.os_mkdir fs p = Ok fs' ->
  well_formed fs' /\ extended_by_dirs fs fs'.
Proof.
  intros Hwf H. apply os_mkdir_inv in H as (k & Hk & Hn & Hp & -> & _).
  split; [now apply well_formed_insert | now apply extended_by_dirs_insert].
Qed.

Lemma mkdir_noparents_inv fs p exist_ok fs' :
  Pathlib.mkdir_noparents fs p exist_ok = Ok fs' ->
  Fs.os_mkdir fs p = Ok fs' \/ (exist_ok = true /\ fs' = fs).
Proof.
  unfold Pathlib.mkdir_noparents.
  destruct (Fs.os_mkdir fs p) as [fs1|e]; [intros [= <-]; now left|].
  destruct exist_ok; cbn [negb orb].
  - destruct (exn_cls e); try discriminate;
      destruct (Pathlib.is_os_error e); try discriminate;
      destruct (negb (Pathlib.is_dir fs p)); try discriminate;
      intros [= <-]; now right.
  - destruct (exn_cls e); try discriminate;
      destruct (Pathlib.is_os_error e); discriminate.
Qed.

Lemma mkdir_parents_rev_grows fs rp exist_ok fs' :
  well_formed fs -> Pathlib.mkdir_parents_rev fs rp exist_ok = Ok fs' ->
  well_formed fs' /\ extended_by_dirs fs fs'.
Proof.
  intros Hwf. revert exist_ok fs'.
  induction rp as [|c rparent IH]; intros exist_ok fs'.
  - cbn [Pathlib.mkdir_parents_rev]. cbv zeta.
    destruct (Fs.os_mkdir fs (rev [])) as [fs1|e] eqn:Hm.
    + intros [= <-]. now apply (os_mkdir_grows fs (rev [])).
    + destruct (exn_cls e); try discriminate;
        destruct (Pathlib.is_os_error e); try discriminate;
        destruct (negb exist_ok || negb (Pathlib.is_dir fs (rev []))); try discriminate;
        intros [= <-]; (split; [exact Hwf | apply extended_by_dirs_refl]).
  - cbn [Pathlib.mkdir_parents_rev]. cbv zeta.
    destruct (Fs.os_mkdir fs (rev (c :: rparent))) as [fs1|e] eqn:Hm.
    + intros [= <-]. now apply (os_mkdir_grows fs (rev (c :: rparent))).
    + destruct (exn_cls e) eqn:Hc.
      all: try (destruct (Pathlib.is_os_error e); try discriminate;
                destruct (negb exist_ok || negb (Pathlib.is_dir fs (rev (c :: rparent))));
                try discriminate;
                intros [= <-]; (split; [exact Hwf | apply extended_by_dirs_refl])).
      destruct (Pathlib.mkdir_parents_rev fs rparent true) as [fs1|e'] eqn:Hp; [|discriminate].
      destruct (IH _ _ Hp) as [Hwf1 Hext1].
      intros H. apply mkdir_noparents_inv in H as [H | [_ ->]]; [|now split].
      destruct (os_mkdir_grows _ _ _ Hwf1 H) as [Hwf2 Hext2].
      split; [exact Hwf2 | exact (extended_by_dirs_trans _ _ _ Hext1 Hext2)].
Qed.

(** [p.mkdir(parents=True, exist_ok=False)] ends with the [os.mkdir]
    that makes [p]. *)
Lemma mkdir_last_step fs p fs' :
  well_formed fs -> Pathlib.mkdir fs p true false = Ok fs' ->
  exists fs0 k,
    well_formed fs0 /\ extended_by_dirs fs fs0
    /\ k <> [] /\ fs0 !! k = None /\ Fs.lookup_entry fs0 (removelast k) = Some Dir
    /\ fs' = <[k := Dir]> fs0 /\ Fs.stat fs' p = Fs.Found k Dir.
Proof.
  intros Hwf. unfold Pathlib.mkdir.
  assert (p = rev (rev p)) as Ep by now rewrite rev_involutive.
  revert Ep. generalize (rev p) as rp. intros rp -> H.
  assert (forall fs0, well_formed fs0 -> extended_by_dirs fs fs0 ->
            Fs.os_mkdir fs0 (rev rp) = Ok fs' ->
            exists fs0 k,
              well_formed fs0 /\ extended_by_dirs fs fs0
              /\ k <> [] /\ fs0 !! k = None /\ Fs.lookup_entry fs0 (removelast k) = Some Dir
              /\ fs' = <[k := Dir]> fs0 /\ Fs.stat fs' (rev rp) = Fs.Found k Dir) as Hlast.
  { intros fs0 Hwf0 Hext0 Hm. apply os_mkdir_inv in Hm as (k & Hk & Hn & Hp & -> & Hs).
    exists fs0, k. repeat split; try assumption; apply Hext0. }
  destruct rp as [|c rparent]; cbn [Pathlib.mkdir_parents_rev] in H; cbv zeta in H.
  - destruct (Fs.os_mkdir fs (rev [])) as [fs1|e] eqn:Hm.
    + injection H as <-. apply (Hlast fs Hwf (extended_by_dirs_refl fs) Hm).
    + cbn [negb orb] in H.
      destruct (exn_cls e); try discriminate; destruct (Pathlib.is_os_error e); discriminate.
  - destruct (Fs.os_mkdir fs (rev (c :: rparent))) as [fs1|e] eqn:Hm.
    + injection H as <-. apply (Hlast fs Hwf (extended_by_dirs_refl fs) Hm).
    + cbn [negb orb] in H.
      destruct (exn_cls e) eqn:Hc.
      all: try (destruct (Pathlib.is_os_error e); discriminate).
      destruct (Pathlib.mkdir_parents_rev fs rparent true) as [fs1|e'] eqn:Hp; [|discriminate].
      destruct (mkdir_parents_rev_grows _ _ _ _ Hwf Hp) as [Hwf1 Hext1].
      apply mkdir_noparents_inv in H as [H | [[=] _]].
      apply (Hlast fs1 Hwf1 Hext1 H).
Qed.

(** X17.  On a filesystem where every entry lies in a directory, a
    successful [create_token_directory] changes and removes nothing that
    was there: every earlier entry is found as it was, the one file that
    is new is [data.json] with the serialized record, everything else
    that is new is a directory, and every entry still lies in a
    directory. *)
Theorem create_keeps_what_is_there
    (mainnet_dir : list string) (token_data : list (string * pyval))
    (st : state) (token_dir : list string) (st' : state)
    (Hwf : well_formed (st_fs st))
    (Hcreated : create_token_directory mainnet_dir token_data st = (Ok token_dir, st')) :
  well_formed (st_fs st')
  /\ (forall p e, st_fs st !! p = Some e -> st_fs st' !! p = Some e)
  /\ exists data_file,
       st_fs st' !! data_file
       = Some (File (Json.dumps (PDict token_data) +:+ String Json.newline EmptyString))
       /\ forall p e, st_fs st !! p = None -> st_fs st' !! p = Some e ->
                      p <> data_file -> e = Dir.
Proof.
  revert Hcreated.
  unfold create_token_directory, bind, lift, get_fs, put_fs, raise, ret.
  destruct (dict_get token_data "symbol") as [[| | | |symbol| |]|e]; try discriminate.
  cbv beta iota. set (token_dir0 := Pathlib.joinpath mainnet_dir symbol).
  destruct (Pathlib.exists_ (st_fs st) token_dir0) eqn:He; [discriminate|].
  destruct (Pathlib.mkdir (st_fs st) token_dir0 true false) as [fs1|e] eqn:Hm; [|discriminate].
  cbn [st_fs st_log]. rewrite joinpath_data_json.
  destruct (Fs.open_w fs1 (token_dir0 ++ ["data.json"])) as [[f fs2]|e] eqn:Ho; [|discriminate].
  cbn [st_fs st_log]. intros [= <- <-]. cbn [st_fs st_log].
  destruct (mkdir_last_step _ _ _ Hwf Hm)
    as (fs0 & k & Hwf0 & [Hsub Hnew] & Hk & Hn & Hp & -> & Hs).
  destruct (open_w_ok _ _ "data.json" _ _ eq_refl Ho) as (d & Hs' & -> & _ & ->).
  rewrite Hs in Hs'. injection Hs' as <-.
  unfold Fs.write. rewrite lookup_insert_eq. rewrite lookup_insert_eq.
  rewrite !insert_insert_eq. cbn [String.append].
  assert (fs0 !! (k ++ ["data.json"]) = None) as Hfree
    by now apply well_formed_child_none.
  assert (k <> k ++ ["data.json"]) as Hkf by length_ne.
  split; [|split].
  - apply well_formed_insert.
    + now apply well_formed_insert.
    + now destruct k.
    + rewrite lookup_insert_ne; [exact Hfree | exact Hkf].
    + rewrite removelast_last. now apply lookup_entry_insert_eq.
  - intros p e Hpe. apply Hsub in Hpe.
    rewrite !lookup_insert_ne; [exact Hpe | congruence | congruence].
  - exists (k ++ ["data.json"]). split; [apply lookup_insert_eq|].
    intros p e Hpn Hpe Hpf. rewrite lookup_insert_ne in Hpe by congruence.
    destruct (decide (k = p)) as [<- | Hne].
    + rewrite lookup_insert_eq in Hpe. congruence.
    + rewrite lookup_insert_ne in Hpe by exact Hne. now apply (Hnew p).
Qed.

Lemma create_keeps_what_is_there_witness :
  let record := token_record 143 example_checksummed "Example Token" "LP/EXT" 18 in
  let st' := snd (create_token_directory ["repo"; "mainnet"] record (State example_fs [])) in
  well_formed (st_fs st')
  /\ (forall p e, example_fs !! p = Some e -> st_fs st' !! p = Some e)
  /\ exists data_file,
       st_fs st' !! data_file
       = Some (File (Json.dumps (PDict record) +:+ String Json.newline EmptyString))
       /\ forall p e, example_fs !! p = None -> st_fs st' !! p = Some e ->
                      p <> data_file -> e = Dir.
Proof.
  apply (create_keeps_what_is_there ["repo"; "mainnet"]
           (token_record 143 example_checksummed "Example Token" "LP/EXT" 18)
           (State example_fs []) ["repo"; "mainnet"; "LP"; "EXT"]).
  - apply (bool_decide_unpack _). vm_compute. exact I.
  - vm_compute. reflexivity.
Defined.

Lemma mkdir_parents_rev_raises fs rp e :
  Fs.os_mkdir fs (rev rp) = Raise e -> exn_cls e <> FileNotFoundError ->
  Pathlib.mkdir_parents_rev fs rp false = Raise e.
Proof.
  intros H Hc.
  destruct rp; unfold Pathlib.mkdir_parents_rev; cbv zeta; rewrite H; cbn [negb orb];
    destruct (exn_cls e); try congruence; destruct (Pathlib.is_os_error e); reflexivity.
Qed.

(** X18.  When the path of the new entry leads through a regular file
    (the symbol has a slash and what precedes it is a file),
    [create_token_directory] creates nothing and raises
    [NotADirectoryError]; none of the first three [except] clauses of
    [main] takes it, so the run reports it as an unexpected error. *)
Theorem symbol_below_a_file_is_unexpected
    (mainnet_dir : list string) (token_data : list (string * pyval))
    (symbol : string) (st : state) (parent d : list string) (name content : string)
    (Hsymbol : dict_get token_data "symbol" = Ok (PStr symbol))
    (Hpath : Pathlib.joinpath mainnet_dir symbol = parent ++ [name])
    (Hnul : Fs.has_nul (parent ++ [name]) = false)
    (Hfile : Fs.stat (st_fs st) parent = Fs.Found d (File content)) :
  exists err,
    create_token_directory mainnet_dir token_data st = (Raise err, st)
    /\ exn_cls err = NotADirectoryError
    /\ main_handler err st
       = (Ok 1,
          State (st_fs st)
            (st_log st ++ [Stdout ("Unexpected error: [Errno 20] Not a directory: '"
                                   ++ Fs.str_of_path (parent ++ [name]) ++ "'")])).
Proof.
  exists (Fs.os_error NotADirectoryError "[Errno 20] Not a directory" (parent ++ [name])).
  split; [|split; reflexivity].
  assert (Fs.os_mkdir (st_fs st) (parent ++ [name])
          = Raise (Fs.os_error NotADirectoryError "[Errno 20] Not a directory"
                     (parent ++ [name]))) as Hmk
    by now rewrite (os_mkdir_raises _ _ _ Hnul), Hfile.
  apply (create_token_directory_mkdir_raises mainnet_dir token_data symbol);
    [exact Hsymbol | ..]; rewrite Hpath.
  - unfold Pathlib.exists_, Fs.stat. rewrite Hnul.
    unfold Fs.stat in Hfile. now rewrite (walk_file_app _ _ _ name [] _ _ Hfile).
  - unfold Pathlib.mkdir. apply mkdir_parents_rev_raises; [|discriminate].
    now rewrite rev_involutive.
Qed.

Lemma symbol_below_a_file_is_unexpected_witness :
  let record := token_record 143 example_checksummed "Example Token" "README.md/EXT" 18 in
  let st := State (<[ ["repo"; "mainnet"; "README.md"] := File "tokens" ]> example_fs) [] in
  exists err,
    create_token_directory ["repo"; "mainnet"] record st = (Raise err, st)
    /\ exn_cls err = NotADirectoryError
    /\ main_handler err st
       = (Ok 1,
          State (st_fs st)
            (st_log st ++ [Stdout ("Unexpected error: [Errno 20] Not a directory: '"
                                   ++ Fs.str_of_path (["repo"; "mainnet"; "README.md"]
                                                      ++ ["EXT"]) ++ "'")])).
Proof.
  apply (symbol_below_a_file_is_unexpected ["repo"; "mainnet"]
           (token_record 143 example_checksummed "Example Token" "README.md/EXT" 18)
           "README.md/EXT"
           (State (<[ ["repo"; "mainnet"; "README.md"] := File "tokens" ]> example_fs) [])
           ["repo"; "mainnet"; "README.md"] ["repo"; "mainnet"; "README.md"] "EXT" "tokens");
    vm_compute; reflexivity.
Defined.

Lemma split_on_has (P : ascii -> bool) (s : string) :
  P "/"%char = false -> sexists P s = true ->
  existsb (sexists P) (Pathlib.split_on "/" s) = true.
Proof.
  intros Hsep. induction s as [|c rest IH]; [discriminate|].
  cbn [sexists Pathlib.split_on]. intros H.
  destruct (Ascii.eqb c "/") eqn:Ec.
  - apply Ascii.eqb_eq in Ec. subst c. rewrite Hsep in H. cbn [orb] in H.
    cbn [existsb sexists orb]. now apply IH.
  - destruct (Pathlib.split_on "/" rest) as [|h t] eqn:Es.
    + cbn [existsb sexists]. destruct (P c); [reflexivity|].
      cbn [orb] in H. apply IH in H. discriminate.
    + cbn [existsb sexists]. destruct (P c); [reflexivity|].
      cbn [orb] in *. now apply IH.
Qed.

Lemma existsb_filter_kept {A} (f g : A -> bool) (l : list A) :
  (forall x, f x = true -> g x = true) ->
  existsb f l = true -> existsb f (List.filter g l) = true.
Proof.
  intros Hfg. induction l as [|x l IH]; [discriminate|]. cbn [existsb List.filter].
  destruct (f x) eqn:Ef.
  - intros _. rewrite (Hfg x Ef). cbn [existsb]. now rewrite Ef.
  - cbn [orb]. intros H. destruct (g x); cbn [existsb]; rewrite ?Ef; now apply IH.
Qed.

Lemma has_nul_joinpath mainnet_dir symbol :
  sexists (fun c => code c =? 0) symbol = true ->
  Fs.has_nul (Pathlib.joinpath mainnet_dir symbol) = true.
Proof.
  intros H.
  assert (Fs.has_nul (Pathlib.parse_parts symbol) = true) as Hparts.
  { unfold Fs.has_nul, Pathlib.parse_parts. apply existsb_filter_kept.
    - intros x Hx. destruct x as [|c [|c' x]]; [discriminate| |].
      + cbn [sexists orb] in Hx. rewrite orb_false_r in Hx.
        destruct (String.eqb_spec (String c EmptyString) ".") as [E|];
          [injection E as ->; discriminate|].
        reflexivity.
      + unfold is_empty. cbn [String.eqb orb]. now destruct (Ascii.eqb c ".").
    - now apply split_on_has. }
  unfold Pathlib.joinpath. destruct (startswith "/" symbol); [exact Hparts|].
  unfold Fs.has_nul in *. rewrite existsb_app, Hparts. apply orb_true_r.
Qed.

(** X19.  A symbol with a null byte in it cannot be a path:
    [create_token_directory] creates nothing and raises the [ValueError]
    of [os.mkdir], which the first [except] clause of [main] reports like
    an invalid address. *)
Theorem symbol_with_a_null_byte
    (mainnet_dir : list string) (token_data : list (string * pyval))
    (symbol : string) (st : state)
    (Hsymbol : dict_get token_data "symbol" = Ok (PStr symbol))
    (Hnul : sexists (fun c => code c =? 0) symbol = true) :
  create_token_directory mainnet_dir token_data st
  = (Raise (Exn ValueError "embedded null byte"), st)
  /\ main_handler (Exn ValueError "embedded null byte") st
     = (Ok 1, State (st_fs st) (st_log st ++ [Stdout "Error: embedded null byte"])).
Proof.
  split; [|reflexivity]. apply has_nul_joinpath with (mainnet_dir := mainnet_dir) in Hnul.
  apply (create_token_directory_mkdir_raises mainnet_dir token_data symbol);
    [exact Hsymbol | ..].
  - unfold Pathlib.exists_. now rewrite Hnul.
  - unfold Pathlib.mkdir. apply mkdir_parents_rev_raises; [|discriminate].
    rewrite rev_involutive. unfold Fs.os_mkdir. now rewrite Hnul.
Qed.

Lemma symbol_with_a_null_byte_witness :
  let symbol := String "E" (String (ascii_of_nat 0) "T") in
  let record := token_record 143 example_checksummed "Example Token" symbol 18 in
  create_token_directory ["repo"; "mainnet"] record (State example_fs [])
  = (Raise (Exn ValueError "embedded null byte"), State example_fs [])
  /\ main_handler (Exn ValueError "embedded null byte") (State example_fs [])
     = (Ok 1, State example_fs ([] ++ [Stdout "Error: embedded null byte"])).
Proof.
  apply (symbol_with_a_null_byte ["repo"; "mainnet"]
           (token_record 143 example_checksummed "Example Token"
              (String "E" (String (ascii_of_nat 0) "T")) 18)
           (String "E" (String (ascii_of_nat 0) "T")) (State example_fs []));
    vm_compute; reflexivity.
Defined.

End CreateEffects.

(** ** Further properties of [main] *)

Section MainMessages.
Local Open Scope list_scope.

Lemma main_workflow_not_connected script_file web3 address checksummed st :
  validate_address address = Ok checksummed ->
  node_is_connected web3 = Ok false ->
  main_workflow script_file web3 address st
  = (Ok 1,
     State (st_fs st)
       (st_log st ++ [Stdout ("Validating address: " ++ address);
                      Stdout ("Checksummed address: " ++ checksummed);
                      Request "web3_clientVersion";
                      Stdout "Error: Failed to connect to the RPC"])).
Proof.
  intros Hv Hc. unfold main_workflow. run_prints. rewrite bind_lift, Hv.
  run_prints. rewrite bind_lift, Hc. cbn [negb]. run_prints.
  rewrite <- !app_assoc. reflexivity.
Qed.

Lemma main_workflow_registry_missing script_file web3 address checksummed token_data st :
  validate_address address = Ok checksummed ->
  node_is_connected web3 = Ok true ->
  fetch_result web3 checksummed = Ok token_data ->
  Pathlib.is_dir (st_fs st) (mainnet_path script_file) = false ->
  exists st1,
    main_workflow script_file web3 address st
    = (Raise (Exn FileNotFoundError
                ("Mainnet directory not found: "
                 ++ Fs.str_of_path (mainnet_path script_file))), st1).
Proof.
  intros Hv Hc Hf Hd. unfold main_workflow. run_prints. rewrite bind_lift, Hv.
  run_prints. rewrite bind_lift, Hc. cbn [negb]. run_prints.
  rewrite bind_bind, fetch_token_data_run, Hf. cbn [st_fs st_log].
  apply fetch_result_ok in Hf as (name & symbol & decimals & _ & _ & _ & ->).
  run_prints. rewrite bind_lift. cbn [dict_get List.find fst snd String.eqb Ascii.eqb Bool.eqb].
  run_prints. rewrite bind_lift. cbn [dict_get List.find fst snd String.eqb Ascii.eqb Bool.eqb].
  run_prints. rewrite bind_lift. cbn [dict_get List.find fst snd String.eqb Ascii.eqb Bool.eqb].
  run_prints. rewrite bind_bind, get_mainnet_directory_eq. cbn [st_fs st_log].
  rewrite Hd. eexists. reflexivity.
Qed.

(** X20.  When the node answers the liveness check with no, the run
    ends there: the last things it did are the two lines about the
    address, the request, and the line Error: Failed to connect to the
    RPC; it returns 1. *)
Theorem connection_failure_message
    (script_file : list string) (web3 : Node) (args_address stdin : option string)
    (address checksummed : string) (st : state) (r : result Z) (st' : state)
    (Haddress : address_of args_address stdin = Some address)
    (Hvalid : validate_address address = Ok checksummed)
    (Hdown : node_is_connected web3 = Ok false)
    (Hrun : main script_file web3 args_address stdin st = (r, st')) :
  r = Ok 1
  /\ exists log,
       st_log st'
       = log ++ [Stdout ("Validating address: " ++ address);
                 Stdout ("Checksummed address: " ++ checksummed);
                 Request "web3_clientVersion";
                 Stdout "Error: Failed to connect to the RPC"].
Proof.
  apply main_inv in Hrun. rewrite Haddress, (validate_address_nonempty _ _ Hvalid) in Hrun.
  destruct Hrun as (st0 & r0 & st1 & _ & Hw & Hr).
  rewrite (main_workflow_not_connected _ _ _ _ _ Hvalid Hdown) in Hw.
  injection Hw as <- <-. destruct Hr as [-> ->]. split; [reflexivity|].
  exists (st_log st0). reflexivity.
Qed.

Lemma connection_failure_message_witness :
  let web3 := {| node_is_connected := Ok false;
                 node_call_string := fun _ _ => Ok "EXT";
                 node_call_word := fun _ _ => Ok 18 |} in
  let run := main example_script web3 (Some example_address) None (State example_fs []) in
  fst run = Ok 1
  /\ exists log,
       st_log (snd run)
       = log ++ [Stdout ("Validating address: " ++ example_address);
                 Stdout ("Checksummed address: " ++ example_checksummed);
                 Request "web3_clientVersion";
                 Stdout "Error: Failed to connect to the RPC"].
Proof.
  apply (connection_failure_message example_script
           {| node_is_connected := Ok false;
              node_call_string := fun _ _ => Ok "EXT";
              node_call_word := fun _ _ => Ok 18 |}
           (Some example_address) None example_address example_checksummed
           (State example_fs []));
    vm_compute; reflexivity.
Defined.

(** X21.  When the directory [mainnet] beside the directory of the
    script is missing, or is not a directory, a run that got as far as
    looking for it ends with the line Error: Mainnet directory not found:
    followed by the path, and returns 1. *)
Theorem missing_registry_message
    (script_file : list string) (web3 : Node) (args_address stdin : option string)
    (address checksummed : string) (token_data : list (string * pyval))
    (st : state) (r : result Z) (st' : state)
    (Haddress : address_of args_address stdin = Some address)
    (Hvalid : validate_address address = Ok checksummed)
    (Hup : node_is_connected web3 = Ok true)
    (Hfetched : fetch_result web3 checksummed = Ok token_data)
    (Hmissing : Pathlib.is_dir (st_fs st) (mainnet_path script_file) = false)
    (Hrun : main script_file web3 args_address stdin st = (r, st')) :
  r = Ok 1
  /\ exists log,
       st_log st'
       = log ++ [Stdout ("Error: Mainnet directory not found: "
                         ++ Fs.str_of_path (Pathlib.parent (Pathlib.parent script_file)
                                            ++ ["mainnet"]))].
Proof.
  apply main_inv in Hrun. rewrite Haddress, (validate_address_nonempty _ _ Hvalid) in Hrun.
  destruct Hrun as (st0 & r0 & st1 & Hp & Hw & Hr).
  rewrite <- (proj1 Hp) in Hmissing.
  destruct (main_workflow_registry_missing _ _ _ _ _ _ Hvalid Hup Hfetched Hmissing)
    as [st2 Hw'].
  rewrite Hw' in Hw. injection Hw as <- <-. destruct Hr as [-> ->].
  split; [reflexivity|]. exists (st_log st2). reflexivity.
Qed.

Lemma missing_registry_message_witness :
  let st := State (<[ ["repo"; "mainnet"] := File "not a directory" ]>
                     (<[ ["repo"; "scripts"] := Dir ]> (<[ ["repo"] := Dir ]> ∅))) [] in
  let run := main example_script example_node (Some example_address) None st in
  fst run = Ok 1
  /\ exists log,
       st_log (snd run)
       = log ++ [Stdout ("Error: Mainnet directory not found: "
                         ++ Fs.str_of_path (Pathlib.parent (Pathlib.parent example_script)
                                            ++ ["mainnet"]))].
Proof.
  apply (missing_registry_message example_script example_node
           (Some example_address) None example_address example_checksummed
           (token_record 143 example_checksummed "Example Token" "EXT" 18)
           (State (<[ ["repo"; "mainnet"] := File "not a directory" ]>
                     (<[ ["repo"; "scripts"] := Dir ]> (<[ ["repo"] := Dir ]> ∅))) []));
    vm_compute; reflexivity.
Defined.





End MainMessages.

(** ** The lines of [data.json] *)

Section JsonLines.

Lemma scount_app p (a b : string) : scount p (a ++ b) = (scount p a + scount p b)%nat.
Proof. induction a as [|c a IH]; cbn [scount String.append]; [reflexivity|]. rewrite IH. lia. Qed.

Lemma scount_escape_char c : scount is_control (Json.escape_char c) = O.
Proof. destruct c as [[] [] [] [] [] [] [] []]; vm_compute; reflexivity. Qed.

Lemma scount_escape s : scount is_control (Json.escape s) = O.
Proof.
  induction s as [|c s IH]; [reflexivity|].
  cbn [Json.escape]. now rewrite scount_app, scount_escape_char, IH.
Qed.

Lemma scount_digits s : sforall is_digit s = true -> scount is_control s = O.
Proof.
  induction s as [|c s IH]; [reflexivity|]. cbn [sforall scount].
  intros H. apply andb_prop in H as [Hc Hs]. rewrite (IH Hs).
  unfold is_digit in Hc. apply andb_prop in Hc as [Hc _]. unfold is_control.
  destruct (code c <? 32) eqn:E; [|reflexivity]. lia.
Qed.

Lemma scount_int_repr z : scount is_control (Json.int_repr z) = O.
Proof.
  unfold Json.int_repr.
  assert (forall d, scount is_control (NilZero.string_of_uint d) = O) as Hd.
  { intros d. destruct d; try reflexivity;
      apply scount_digits; apply (string_of_uint_digits (_ _)). }
  destruct (Z.to_int z) as [d|d]; cbn [NilZero.string_of_int scount]; now rewrite Hd.
Qed.

Lemma scount_newline_zero s :
  scount is_control s = O -> scount (Ascii.eqb Json.newline) s = O.
Proof.
  induction s as [|c s IH]; [reflexivity|]. cbn [scount]. intros H.
  destruct (is_control c) eqn:Ec; [discriminate|]. cbn in H. rewrite (IH H).
  destruct (Ascii.eqb_spec Json.newline c) as [<-|]; [discriminate|reflexivity].
Qed.

(** X23.  Whatever bytes the contract returned as name and symbol, the
    text written to [data.json] has seven control characters, the seven
    line ends of its layout: a line break inside a value is written as an
    escape and never breaks a line of the file. *)
Theorem data_json_has_seven_lines
    (chain_id : Z) (address name symbol : string) (decimals : Z) :
  let text := Json.dumps (PDict (token_record chain_id address name symbol decimals))
              ++ String Json.newline EmptyString in
  scount is_control text = 7%nat
  /\ scount (Ascii.eqb Json.newline) text = 7%nat.
Proof.
  cbv zeta. rewrite dumps_token_record. unfold data_json_text, quoted.
  cbn [String.concat].
  split.
  - repeat (rewrite ?scount_app; cbn [scount]).
    rewrite !scount_escape, !scount_int_repr. vm_compute. reflexivity.
  - repeat (rewrite ?scount_app; cbn [scount]).
    rewrite !(scount_newline_zero _ (scount_escape _)),
      !(scount_newline_zero _ (scount_int_repr _)).
    vm_compute. reflexivity.
Qed.

End JsonLines.
